(** * ogc-plugins-juju: the Juju plugin's lifecycle, embedded and verified

    The plugin drives external commands ([juju], [charm], [juju-wait], a
    shell) in an order decided by its options.  The embedding keeps that
    shape: every plugin method is a computation in a small state-and-exception
    monad whose state records the external commands issued so far, and whose
    answers come from a [World] that is quantified over in every theorem.

    Two modules of the repository are embedded:
    - [ogc_plugins_juju.py]            (the sections below, top level);
    - [ogc_plugins_juju/__init__.py]   (the older package, [Module Legacy]). *)

From Stdlib Require Import String Ascii List ZArith Bool Arith Lia.
Import ListNotations.
Local Open Scope string_scope.
Local Open Scope list_scope.

(** ** Python built-ins the plugin relies on *)

Module Py.

(** [bool(x)] for an option that is [None] or a [str]. *)
Definition truthy (o : option string) : bool :=
  match o with
  | Some s => negb (s =? "")
  | None => false
  end.

(** [bool(x)] for an option that is [None] or an [int]. *)
Definition truthy_int (o : option Z) : bool :=
  match o with
  | Some z => negb (z =? 0)%Z
  | None => false
  end.

(** The string held by a truthy option. *)
Definition str (o : option string) : string :=
  match o with
  | Some s => s
  | None => ""
  end.

(** [s.startswith(p)] *)
Fixpoint startswith (p s : string) : bool :=
  match p, s with
  | EmptyString, _ => true
  | String a p', String b s' => Ascii.eqb a b && startswith p' s'
  | String _ _, EmptyString => false
  end.

(** [s.split(sep)] for a one-character separator: every occurrence
    splits, empty fields are kept, and the result is never empty. *)
Fixpoint split (sep : ascii) (s : string) : list string :=
  match s with
  | EmptyString => [""]
  | String c s' =>
      if Ascii.eqb c sep then "" :: split sep s'
      else match split sep s' with
           | [] => [String c ""]
           | w :: ws => String c w :: ws
           end
  end.


(** [l.pop()] on a non-empty list returns its last element. *)
Definition pop (l : list string) : string := last l "".

(** [sep.join(l)] *)
Definition join (sep : string) (l : list string) : string :=
  String.concat sep l.

End Py.

(** ** Options

    What [self.opt(key)] returns for each key the plugin reads.  String
    options are [None] when absent; the sub-trees [bootstrap] and [deploy]
    and the flags are only ever tested for truth, so the record keeps their
    truth value. *)

Record Options : Type := mkOptions {
  cloud : string;
  controller : string;
  model : string;
  force : bool;
  bootstrap : bool;
  bootstrap_constraints : option string;
  bootstrap_config : list string;
  bootstrap_model_default : list string;
  bootstrap_debug : bool;
  bootstrap_run : option string;
  bootstrap_disable_add_model : bool;
  bootstrap_replace_controller : bool;
  bootstrap_series : option string;
  deploy : bool;
  deploy_reuse : bool;
  deploy_bundle : option string;
  deploy_charm : option string;
  deploy_overlay : option string;
  deploy_series : option string;
  deploy_channel : option string;
  deploy_constraints : option string;
  deploy_wait : bool;
  deploy_timeout : option Z;
  config : list string;
  teardown : bool
}.

(** ** External commands *)

(** One constructor per way the plugin reaches the outside:
    [sh.env], [self.juju], [self.charm.pull], [self.juju_wait] (with the
    [_timeout] it is given, if any) and [cmd_ok] with [shell=True]. *)
Inductive Op : Type :=
| Env (script_path : string)
| Juju (args : list string)
| CharmPull (args : list string)
| JujuWait (args : list string) (timeout : option Z)
| Shell (cmdline : string).

Inductive Exit : Type :=
| ExitOk
| ExitError (code : Z) (stdout stderr : string).

(** What a command answers: the lines it prints and how it ends. *)
Record Response : Type := mkResponse {
  lines : list string;
  exit : Exit
}.

(** Everything outside the plugin.  [respond] and [timed_out] see the
    commands issued before the current one, so a command may answer
    differently each time it is issued. *)
Record World : Type := mkWorld {
  respond : list Op -> Op -> Response;
  timed_out : list Op -> Op -> bool;
  mkstemp_path : nat -> string;
  uuid4 : nat -> string;
  gettempdir : string
}.

(** ** Classification of commands by verb *)

Definition juju_verb (v : string) (o : Op) : bool :=
  match o with
  | Juju (w :: _) => w =? v
  | _ => false
  end.

Definition is_bootstrap : Op -> bool := juju_verb "bootstrap".
Definition is_add_model : Op -> bool := juju_verb "add-model".
Definition is_teardown : Op -> bool := juju_verb "destroy-controller".
Definition is_config_set : Op -> bool := juju_verb "config".

Definition is_pull (o : Op) : bool :=
  match o with CharmPull _ => true | _ => false end.

Definition is_wait (o : Op) : bool :=
  match o with JujuWait _ _ => true | _ => false end.

Definition is_deploy (o : Op) : bool :=
  match o with
  | Shell l => Py.startswith "juju deploy " l
  | Juju ("deploy" :: _) => true
  | _ => false
  end.

(** ** State, exceptions, and the monad *)

Inductive Level : Type := DEBUG | INFO.

(** A log record keeps the level, the text of the f-string with [{}] for
    each interpolation, and the interpolated values (as they are before a
    [strip()] or a [decode()]).  Exception messages are kept the same
    way. *)
Record LogRecord : Type := mkLog {
  level : Level;
  template : string;
  values : list string
}.

Record File : Type := mkFile {
  content : string;
  mode : Z
}.

(** The plugin methods, for the record of calls. *)
Inductive Method : Type :=
| M_run | M_deploy | M_teardown | M_bootstrap | M_add_model | M_wait
| M_process | M_conflicts.


Record State : Type := mkState {
  ops : list Op;                      (* commands issued, oldest first *)
  calls : list Method;                (* methods entered, oldest first *)
  logs : list LogRecord;              (* app.log, oldest first *)
  files : list (string * File);       (* files written, newest first *)
  n_tmp : nat;                        (* mkstemp calls so far *)
  n_uuid : nat                        (* uuid4 calls so far *)
}.

Definition initial : State := mkState [] [] [] [] 0 0.

Inductive Exn : Type :=
| SpecConfigException (msg : string)
| SpecProcessException (template : string) (values : list string)
| ErrorReturnCode (code : Z) (stdout stderr : string)
| TimeoutException
| ValueError
| TypeError
| AttributeError
| FileNotFoundError.

Inductive Result (A : Type) : Type :=
| Ok (a : A)
| Raise (e : Exn).
Arguments Ok {A} a.
Arguments Raise {A} e.

Definition M (A : Type) : Type := State -> Result A * State.

Definition ret {A} (a : A) : M A := fun s => (Ok a, s).

Definition raise {A} (e : Exn) : M A := fun s => (Raise e, s).

Definition bind {A B} (m : M A) (k : A -> M B) : M B :=
  fun s =>
    match m s with
    | (Ok a, s') => k a s'
    | (Raise e, s') => (Raise e, s')
    end.

(** [try: m  except sh.ErrorReturnCode as e: h e]; every other exception
    passes through. *)
Definition except_ErrorReturnCode {A} (m : M A)
    (h : Z -> string -> string -> M A) : M A :=
  fun s =>
    match m s with
    | (Raise (ErrorReturnCode c out err), s') => h c out err s'
    | r => r
    end.

Declare Scope m_scope.
Delimit Scope m_scope with M.
Notation "x <- c ;; k" := (bind c (fun x => k))
  (at level 61, c at next level, right associativity) : m_scope.
Notation "c ;; k" := (bind c (fun _ => k))
  (at level 61, right associativity) : m_scope.
Local Open Scope m_scope.

Definition when (b : bool) (m : M unit) : M unit :=
  if b then m else ret tt.

Fixpoint for_each {A} (l : list A) (body : A -> M unit) : M unit :=
  match l with
  | [] => ret tt
  | x :: l' => body x ;; for_each l' body
  end.

Definition enter (m : Method) : M unit :=
  fun s => (Ok tt, mkState (ops s) (calls s ++ [m]) (logs s) (files s)
                           (n_tmp s) (n_uuid s)).

Definition log (l : Level) (t : string) (vs : list string) : M unit :=
  fun s => (Ok tt, mkState (ops s) (calls s) (logs s ++ [mkLog l t vs])
                           (files s) (n_tmp s) (n_uuid s)).

Definition set_files (fs : list (string * File)) : M unit :=
  fun s => (Ok tt, mkState (ops s) (calls s) (logs s) fs (n_tmp s) (n_uuid s)).

Fixpoint lookup_file (p : string) (fs : list (string * File)) : option File :=
  match fs with
  | [] => None
  | (q, f) :: fs' => if q =? p then Some f else lookup_file p fs'
  end.

Definition stat (p : string) : M File :=
  fun s =>
    match lookup_file p (files s) with
    | Some f => (Ok f, s)
    | None => (Raise FileNotFoundError, s)
    end.

(** [Path(p).write_text(txt)]: creates the file when it is missing. *)
Definition write_text (p txt : string) : M unit :=
  fun s =>
    let m := match lookup_file p (files s) with
             | Some f => mode f
             | None => 33188%Z          (* 0o100644 *)
             end in
    set_files ((p, mkFile txt m) :: files s) s.

Definition chmod (p : string) (m : Z) : M unit :=
  f <- stat p ;;
  fun s => set_files ((p, mkFile (content f) m) :: files s) s.

Section Plugin.

Variable W : World.
Variable o : Options.

(** [tempfile.mkstemp()]: a new empty file readable and writable by its
    owner (0o100600); the descriptor half of the pair is not modelled. *)
Definition mkstemp : M string :=
  fun s =>
    let p := mkstemp_path W (n_tmp s) in
    (Ok p, mkState (ops s) (calls s) (logs s)
                   ((p, mkFile "" 33152%Z) :: files s)
                   (S (n_tmp s)) (n_uuid s)).

(** [str(uuid.uuid4())] *)
Definition uuid4_str : M string :=
  fun s =>
    (Ok (uuid4 W (n_uuid s)),
     mkState (ops s) (calls s) (logs s) (files s) (n_tmp s) (S (n_uuid s))).

(** Issue a command: it joins the record and the world answers. *)
Definition issue (c : Op) : M Response :=
  fun s =>
    (Ok (respond W (ops s) c),
     mkState (ops s ++ [c]) (calls s) (logs s) (files s)
             (n_tmp s) (n_uuid s)).

Definition check_exit (e : Exit) : M unit :=
  match e with
  | ExitOk => ret tt
  | ExitError c out err => raise (ErrorReturnCode c out err)
  end.

(** A plain call of a baked command: it runs to the end and raises on
    a non-zero exit. *)
Definition sh_call (c : Op) : M unit :=
  r <- issue c ;;
  check_exit (exit r).

(** A [for line in ...] loop over a command called with [_iter=True]
    whose body logs the line: the lines are logged as they come, then a
    non-zero exit raises. *)
Definition sh_iter (c : Op) (l : Level) (t : string) : M unit :=
  r <- issue c ;;
  for_each (lines r) (fun line => log l t [line]) ;;
  check_exit (exit r).

(** The same with [_timeout=t]: when the time runs out the command is
    killed and [sh.TimeoutException] is raised, which is not an
    [ErrorReturnCode]. *)
Definition sh_iter_timeout (c : Op) (l : Level) (t : string) : M unit :=
  fun s =>
    if timed_out W (ops s) c
    then (r <- issue c ;;
          for_each (lines r) (fun line => log l t [line]) ;;
          raise TimeoutException) s
    else sh_iter c l t s.

(** *** [ogc_plugins_juju.py], class [Juju] *)

Definition _fmt_controller_model : string :=
  (controller o ++ ":" ++ model o)%string.

(** [mode |= (mode & 0o444) >> 2] *)
Definition _make_executable (path : string) : M unit :=
  f <- stat path ;;
  chmod path (Z.lor (mode f) (Z.shiftr (Z.land (mode f) 292) 2)).

Definition _run (script_data : string) : M unit :=
  enter M_run ;;
  tmp_script_path <- mkstemp ;;
  write_text tmp_script_path script_data ;;
  _make_executable tmp_script_path ;;
  except_ErrorReturnCode
    (sh_iter (Env tmp_script_path) DEBUG "run :: {}")
    (fun _ _ err =>
       raise (SpecProcessException "Failure to bootstrap: {}" [err])).

(** The first part of [_deploy]: the target, after a pull when the
    bundle comes from the charmstore.  A bundle that is [None] on the
    last branch makes the later [' '.join] raise [TypeError]; nothing
    with an effect lies in between, so it is raised here. *)
Definition deploy_target : M (list string) :=
  let bundle := deploy_bundle o in
  let charm := deploy_charm o in
  let channel := deploy_channel o in
  if Py.truthy charm then
    ret ["-m"; _fmt_controller_model; Py.str charm]
  else if Py.truthy bundle && Py.startswith "cs:" (Py.str bundle) then
    u <- uuid4_str ;;
    let tmpsuffix := Py.pop (Py.split "-"%char u) in
    let charm_pull_path := (gettempdir W ++ "/" ++ tmpsuffix)%string in
    let charm_pull_args :=
      [Py.str bundle] ++
      (if Py.truthy channel
       then ["--channel"; Py.str channel; charm_pull_path]
       else []) in
    log DEBUG "Charm pull: {}" charm_pull_args ;;
    sh_call (CharmPull charm_pull_args) ;;
    ret ["-m"; _fmt_controller_model; (charm_pull_path ++ "/bundle.yaml")%string]
  else
    match bundle with
    | Some b => ret ["-m"; _fmt_controller_model; b]
    | None => raise TypeError
    end.

(** The flags appended to the target, in the order of the source. *)
Definition deploy_flags (deploy_cmd_args : list string) : M (list string) :=
  let bundle := deploy_bundle o in
  let overlay := deploy_overlay o in
  let channel := deploy_channel o in
  let constraints := deploy_constraints o in
  let series := deploy_series o in
  a1 <- (if Py.truthy bundle && Py.truthy overlay then
           tmp_file_path <- mkstemp ;;
           write_text tmp_file_path (Py.str overlay) ;;
           ret (deploy_cmd_args ++ ["--overlay"; tmp_file_path])
         else ret deploy_cmd_args) ;;
  let a2 := a1 ++ (if Py.truthy channel
                   then ["--channel"; Py.str channel] else []) in
  let a3 := a2 ++ (if Py.truthy constraints
                   then ["--constraints"; ("'" ++ Py.str constraints ++ "'")%string]
                   else []) in
  let a4 := a3 ++ (if Py.truthy series
                   then ["--series"; Py.str series] else []) in
  let a5 := a4 ++ (if force o then ["--force"] else []) in
  ret a5.

Definition deploy_cmdline (deploy_cmd_args : list string) : string :=
  ("juju deploy " ++ Py.join " " deploy_cmd_args)%string.

Definition _deploy : M unit :=
  enter M_deploy ;;
  target <- deploy_target ;;
  deploy_cmd_args <- deploy_flags target ;;
  log INFO "Deploying: juju deploy {}" [Py.join " " deploy_cmd_args] ;;
  r <- issue (Shell (deploy_cmdline deploy_cmd_args)) ;;
  match exit r with
  | ExitOk => ret tt
  | ExitError _ _ _ =>
      raise (SpecProcessException "Failed to deploy ({}): {}" deploy_cmd_args)
  end.

Definition teardown_op : Op :=
  Juju ["destroy-controller"; "--destroy-all-models"; "--destroy-storage";
        "-y"; controller o].

Definition _teardown : M unit :=
  enter M_teardown ;;
  except_ErrorReturnCode
    (sh_iter teardown_op INFO " -- {}")
    (fun _ _ err =>
       log DEBUG "Could not destroy controller: {}, no teardown performed."
           [err]).

Definition add_model_op : Op :=
  Juju ("add-model" :: ["-c"; controller o; model o; cloud o]).

Definition bootstrap_cmd_args : list string :=
  ["bootstrap"; cloud o; controller o]
  ++ (if Py.truthy (bootstrap_constraints o)
      then ["--bootstrap-constraints"; Py.str (bootstrap_constraints o)]
      else [])
  ++ (if Py.truthy (bootstrap_series o)
      then ["--bootstrap-series"; Py.str (bootstrap_series o)]
      else [])
  ++ (if force o then ["--force"] else [])
  ++ flat_map (fun m_default => ["--model-default"; m_default])
              (bootstrap_model_default o)
  ++ flat_map (fun c_default => ["--config"; c_default])
              (bootstrap_config o)
  ++ (if bootstrap_debug o then ["--debug"] else []).

Definition _bootstrap : M unit :=
  enter M_bootstrap ;;
  when (bootstrap_replace_controller o)
    (log INFO "Replace controller triggered, will attempt to teardown {}"
         [controller o] ;;
     _teardown) ;;
  log DEBUG "Juju bootstrap cmd > {}" bootstrap_cmd_args ;;
  except_ErrorReturnCode
    (sh_iter (Juju bootstrap_cmd_args) INFO "{}")
    (fun _ out _ =>
       raise (SpecProcessException "Unable to bootstrap:\n {}" [out])) ;;
  when (negb (bootstrap_disable_add_model o))
    (log INFO "Adding model {}" [_fmt_controller_model] ;;
     except_ErrorReturnCode
       (sh_call add_model_op)
       (fun _ _ err =>
          raise (SpecProcessException "Failed to add model: {}" [err]))).

Definition _add_model : M unit :=
  enter M_add_model ;;
  log INFO "Adding model {}" [_fmt_controller_model] ;;
  except_ErrorReturnCode
    (sh_call add_model_op)
    (fun _ _ err =>
       raise (SpecProcessException "Failed to add model: {}" [err])).

Definition wait_op : Op :=
  JujuWait ["-e"; _fmt_controller_model; "-w"; "-r3"]
           (Some (if Py.truthy_int (deploy_timeout o)
                  then match deploy_timeout o with
                       | Some t => t
                       | None => 7200%Z
                       end
                  else 7200%Z)).

Definition _wait : M unit :=
  enter M_wait ;;
  when (deploy_wait o)
    (log INFO "Waiting for deployment to settle" [] ;;
     except_ErrorReturnCode
       (sh_iter_timeout wait_op DEBUG "{}")
       (fun _ _ err =>
          raise (SpecProcessException
                   "Failed to get a completed deployment status: {}" [err]))).

Definition config_op (app_name setting : string) : Op :=
  Juju ("config" :: ["-m"; _fmt_controller_model; app_name; setting]).

(** The body of the loop over [config_sets]; the unpacking of the split
    raises [ValueError] unless it has exactly two parts. *)
Definition config_set (config : string) : M unit :=
  match Py.split " "%char config with
  | [app_name; setting] =>
      log INFO "Setting {}" [config] ;;
      sh_call (config_op app_name setting)
  | _ => raise ValueError
  end.

Definition configure : M unit :=
  for_each (config o) config_set.

Definition process : M unit :=
  enter M_process ;;
  if Py.truthy (bootstrap_run o) then
    (log DEBUG "A runner override for bootstrapping found, executing instead."
         [] ;;
     _run (Py.str (bootstrap_run o)))
  else
    (when (negb (deploy_reuse o) && bootstrap o) _bootstrap ;;
     when (deploy o)
       (when (bootstrap_disable_add_model o) _add_model ;;
        _deploy ;;
        configure ;;
        _wait) ;;
     when (teardown o) _teardown).

Definition conflicts : M unit :=
  enter M_conflicts ;;
  if Py.truthy (deploy_bundle o) && Py.truthy (deploy_charm o) then
    raise (SpecConfigException
      "Can not have both bundle and charm defined in deployment, must choose one or the other.")
  else ret tt.

(** [juju_ssh]: one call of [sh.juju] (the plain command, not the one
    baked with the application's environment, which the model does not
    tell apart); the ssh options travel as a single argument. *)
Definition juju_ssh (target cmd : string) : M unit :=
  let ssh_opts :=
    "-t -o ControlPath=~/.ssh/master-$$ -o ControlMaster=auto -o ControlPersist=60" in
  sh_call (Juju ["-m"; _fmt_controller_model; "--pty=True"; target; ssh_opts;
                 "--"; cmd]).

End Plugin.

(** ** [ogc_plugins_juju/__init__.py], class [Juju] *)

Module Legacy.

Record Options : Type := mkOptions {
  cloud : string;
  controller : string;
  model : string;
  bootstrap : bool;
  bootstrap_constraints : option string;
  bootstrap_debug : bool;
  bootstrap_disable_add_model : bool;
  deploy : bool;
  deploy_reuse : bool;
  deploy_bundle : option string;
  deploy_overlay : option string;
  deploy_bundle_channel : option string;
  deploy_charm_channel : option string;
  deploy_wait : bool;
  config_set : list string
}.

(** [except sh.ErrorReturnCode_1]: only exit code 1 is caught. *)
Definition except_ErrorReturnCode_1 {A} (m : M A)
    (h : string -> string -> M A) : M A :=
  fun s =>
    match m s with
    | (Raise (ErrorReturnCode 1 out err), s') => h out err s'
    | r => r
    end.

Section Plugin.

Variable W : World.
Variable o : Options.

Definition _fmt_controller_model : string :=
  (controller o ++ ":" ++ model o)%string.

Definition _deploy : M unit :=
  enter M_deploy ;;
  match deploy_bundle o with
  | None => raise AttributeError
  | Some bundle =>
      if Py.startswith "cs:" bundle then
        u <- uuid4_str W ;;
        let tmpsuffix := Py.pop (Py.split "-"%char u) in
        let charm_pull_path := (gettempdir W ++ "/" ++ tmpsuffix)%string in
        let charm_pull_args :=
          [bundle] ++
          (if Py.truthy (deploy_bundle_channel o)
           then ["--channel"; Py.str (deploy_bundle_channel o);
                 charm_pull_path]
           else []) in
        sh_call W (CharmPull charm_pull_args) ;;
        let deploy_cmd_args :=
          ["-m"; _fmt_controller_model;
           (charm_pull_path ++ "/bundle.yaml")%string]
          ++ (if Py.truthy (deploy_overlay o)
              then ["--overlay"; Py.str (deploy_overlay o)] else [])
          ++ (if Py.truthy (deploy_charm_channel o)
              then ["--channel"; Py.str (deploy_charm_channel o)]
              else []) in
        sh_iter W (Juju ("deploy" :: deploy_cmd_args)) INFO "{}"
      else
        sh_iter W (Juju ("deploy" :: ["-m"; _fmt_controller_model; bundle]))
                INFO "{}"
  end.

Definition bootstrap_cmd_args : list string :=
  ["bootstrap"; cloud o; controller o]
  ++ (if Py.truthy (bootstrap_constraints o)
      then ["--bootstrap-constraints"; Py.str (bootstrap_constraints o)]
      else [])
  ++ (if bootstrap_debug o then ["--debug"] else []).

Definition add_model_op : Op :=
  Juju ("add-model" :: ["-c"; controller o; model o; cloud o]).

Definition _bootstrap : M unit :=
  enter M_bootstrap ;;
  except_ErrorReturnCode_1
    (sh_iter W (Juju bootstrap_cmd_args) DEBUG "{}")
    (fun out _ =>
       raise (SpecProcessException "Unable to bootstrap:\n {}" [out])) ;;
  when (negb (bootstrap_disable_add_model o))
    (log INFO "Adding model {}" [_fmt_controller_model] ;;
     sh_call W add_model_op).

Definition wait_op : Op :=
  JujuWait ["-e"; _fmt_controller_model; "-w"; "-r3"; "-t14400"] None.

Definition _wait : M unit :=
  enter M_wait ;;
  when (deploy_wait o)
    (log INFO "Waiting for deployment to settle" [] ;;
     sh_iter W wait_op DEBUG "{}").

Definition config_op (app_name setting : string) : Op :=
  Juju ("config" :: ["-m"; _fmt_controller_model; app_name; setting]).

Definition config_set_one (config : string) : M unit :=
  match Py.split " "%char config with
  | [app_name; setting] =>
      log INFO "Setting {}" [config] ;;
      sh_call W (config_op app_name setting)
  | _ => raise ValueError
  end.

Definition process : M unit :=
  enter M_process ;;
  when (negb (deploy_reuse o) && bootstrap o) _bootstrap ;;
  when (deploy o)
    (_deploy ;;
     _wait ;;
     for_each (config_set o) config_set_one ;;
     _wait).

End Plugin.

End Legacy.

(** * Vocabulary of the verification

    The notions the lemmas and theorems below are stated with: how a
    computation moves the state, what each method may answer and issue, and
    the phases of a run. *)

Local Open Scope m_scope.

(** [grows s s' d c]: from [s] to [s'] the commands [d] were issued and the
    methods [c] entered, in that order, and the log was only appended to. *)
Definition grows (s s' : State) (d : list Op) (c : list Method) : Prop :=
  ops s' = ops s ++ d /\
  calls s' = calls s ++ c /\
  exists lg, logs s' = logs s ++ lg.

(** What an exit status becomes when nothing catches it. *)
Definition result_of_exit (e : Exit) : Result unit :=
  match e with
  | ExitOk => Ok tt
  | ExitError c out err => Raise (ErrorReturnCode c out err)
  end.

(** Whether a command ended well. *)
Definition exit_ok (e : Exit) : bool :=
  match e with ExitOk => true | ExitError _ _ _ => false end.

(** [run m s r s' d c]: started in [s], [m] ends in [s'] with result [r],
    having issued [d] and entered [c]. *)
Definition run {A} (m : M A) (s : State) (r : Result A) (s' : State)
    (d : list Op) (c : list Method) : Prop :=
  m s = (r, s') /\ grows s s' d c.

(** How many elements of a list pass a test. *)
Definition count {A} (f : A -> bool) (l : list A) : nat :=
  length (filter f l).



(** The message of the exception [conflicts] raises. *)
Definition conflict_message : string :=
  "Can not have both bundle and charm defined in deployment, must choose one or the other.".

Section Outcomes.

Variable W : World.
Variable o : Options.

(** What [_teardown] logs when its command fails. *)
Definition teardown_failure_log (err : string) : LogRecord :=
  mkLog DEBUG "Could not destroy controller: {}, no teardown performed." [err].

(** What the exit status of [add-model] becomes. *)
Definition add_model_result (e : Exit) : Result unit :=
  match e with
  | ExitOk => Ok tt
  | ExitError _ _ err =>
      Raise (SpecProcessException "Failed to add model: {}" [err])
  end.

(** The bootstrap phase: an optional teardown ([bootstrap_pre]), the
    bootstrap command, and the model unless that is disabled. *)
Definition bootstrap_op : Op := Juju (bootstrap_cmd_args o).

Definition bootstrap_pre : list Op :=
  if bootstrap_replace_controller o then [teardown_op o] else [].

Definition bootstrap_calls : list Method :=
  M_bootstrap :: if bootstrap_replace_controller o then [M_teardown] else [].

Inductive bootstrap_outcome (h : list Op) : Result unit -> list Op -> Prop :=
| boot_unable c out err :
    exit (respond W h bootstrap_op) = ExitError c out err ->
    bootstrap_outcome h
      (Raise (SpecProcessException "Unable to bootstrap:\n {}" [out]))
      [bootstrap_op]
| boot_without_model :
    exit (respond W h bootstrap_op) = ExitOk ->
    bootstrap_disable_add_model o = true ->
    bootstrap_outcome h (Ok tt) [bootstrap_op]
| boot_with_model :
    exit (respond W h bootstrap_op) = ExitOk ->
    bootstrap_disable_add_model o = false ->
    bootstrap_outcome h
      (add_model_result
         (exit (respond W (h ++ [bootstrap_op]) (add_model_op o))))
      [bootstrap_op; add_model_op o].

(** What the wait command becomes: a timeout is not caught, a failure is
    turned into a process exception. *)
Definition wait_result (h : list Op) : Result unit :=
  if timed_out W h (wait_op o) then Raise TimeoutException
  else match exit (respond W h (wait_op o)) with
       | ExitOk => Ok tt
       | ExitError _ _ err =>
           Raise (SpecProcessException
                    "Failed to get a completed deployment status: {}" [err])
       end.

(** The configuration step: one command per entry, in order, until one
    fails or an entry does not split into application and setting. *)
Inductive config_outcome : list Op -> list string -> Result unit ->
                           list Op -> Prop :=
| cfg_done h : config_outcome h [] (Ok tt) []
| cfg_malformed h c cs :
    (forall a b, Py.split " "%char c <> [a; b]) ->
    config_outcome h (c :: cs) (Raise ValueError) []
| cfg_failed h c cs a b x out err :
    Py.split " "%char c = [a; b] ->
    exit (respond W h (config_op o a b)) = ExitError x out err ->
    config_outcome h (c :: cs) (Raise (ErrorReturnCode x out err))
                   [config_op o a b]
| cfg_next h c cs a b r d :
    Py.split " "%char c = [a; b] ->
    exit (respond W h (config_op o a b)) = ExitOk ->
    config_outcome (h ++ [config_op o a b]) cs r d ->
    config_outcome h (c :: cs) r (config_op o a b :: d).

(** The deploy step: at most one pull, then the deploy command. *)
Definition pulled (h : list Op) (pre : list Op) : Prop :=
  pre = [] \/
  exists args, pre = [CharmPull args] /\
               exit (respond W h (CharmPull args)) = ExitOk.

Inductive deploy_outcome (h : list Op) : Result unit -> list Op -> Prop :=
| dep_no_target :
    Py.truthy (deploy_charm o) = false ->
    deploy_bundle o = None ->
    deploy_outcome h (Raise TypeError) []
| dep_pull_failed args c out err :
    exit (respond W h (CharmPull args)) = ExitError c out err ->
    deploy_outcome h (Raise (ErrorReturnCode c out err)) [CharmPull args]
| dep_done pre args :
    pulled h pre ->
    exit (respond W (h ++ pre) (Shell (deploy_cmdline args))) = ExitOk ->
    deploy_outcome h (Ok tt) (pre ++ [Shell (deploy_cmdline args)])
| dep_failed pre args :
    pulled h pre ->
    exit_ok (exit (respond W (h ++ pre) (Shell (deploy_cmdline args))))
      = false ->
    deploy_outcome h
      (Raise (SpecProcessException "Failed to deploy ({}): {}" args))
      (pre ++ [Shell (deploy_cmdline args)]).

(** The flags [_deploy] appends to its target, spelled out. *)
Definition flags_after_target (overlay_path : string) : list string :=
  (if Py.truthy (deploy_bundle o) && Py.truthy (deploy_overlay o)
   then ["--overlay"; overlay_path] else []) ++
  (if Py.truthy (deploy_channel o)
   then ["--channel"; Py.str (deploy_channel o)] else []) ++
  (if Py.truthy (deploy_constraints o)
   then ["--constraints"; ("'" ++ Py.str (deploy_constraints o) ++ "'")%string]
   else []) ++
  (if Py.truthy (deploy_series o)
   then ["--series"; Py.str (deploy_series o)] else []) ++
  (if force o then ["--force"] else []).

(** The state after the overlay, if any, was written to its file. *)
Definition after_overlay (s : State) : State :=
  if Py.truthy (deploy_bundle o) && Py.truthy (deploy_overlay o)
  then mkState (ops s) (calls s) (logs s)
               ((mkstemp_path W (n_tmp s),
                 mkFile (Py.str (deploy_overlay o)) 33152)
                :: (mkstemp_path W (n_tmp s), mkFile "" 33152) :: files s)
               (S (n_tmp s)) (n_uuid s)
  else s.

(** What [_deploy] does once its target is known. *)
Definition deploy_result (args : list string) (e : Exit) : Result unit :=
  match e with
  | ExitOk => Ok tt
  | ExitError _ _ _ =>
      Raise (SpecProcessException "Failed to deploy ({}): {}" args)
  end.

(** Where a charmstore bundle is pulled to, and with which arguments. *)
Definition charm_pull_path (s : State) : string :=
  (gettempdir W ++ "/" ++ Py.pop (Py.split "-"%char (uuid4 W (n_uuid s))))%string.

End Outcomes.

(** The phases of a run without override, in the order of [process]. *)
Inductive Phase : Type :=
| PBootstrap | PAddModel | PDeploy | PConfigure | PWait | PTeardown.

Section Phases.

Variable W : World.
Variable o : Options.

(** The method that carries out a phase. *)
Definition method_of (p : Phase) : M unit :=
  match p with
  | PBootstrap => _bootstrap W o
  | PAddModel => _add_model W o
  | PDeploy => _deploy W o
  | PConfigure => configure W o
  | PWait => _wait W o
  | PTeardown => _teardown W o
  end.

(** The phases the options select. *)
Definition plan : list Phase :=
  (if negb (deploy_reuse o) && bootstrap o then [PBootstrap] else []) ++
  (if deploy o
   then (if bootstrap_disable_add_model o then [PAddModel] else []) ++
        [PDeploy; PConfigure; PWait]
   else []) ++
  (if teardown o then [PTeardown] else []).

(** What a phase started after the commands [h] may return, issue and
    enter. *)
Definition phase_outcome (h : list Op) (p : Phase) (r : Result unit)
    (d : list Op) (c : list Method) : Prop :=
  match p with
  | PBootstrap =>
      c = bootstrap_calls o /\
      exists d2, d = bootstrap_pre o ++ d2 /\
                 bootstrap_outcome W o (h ++ bootstrap_pre o) r d2
  | PAddModel =>
      c = [M_add_model] /\ d = [add_model_op o] /\
      r = add_model_result (exit (respond W h (add_model_op o)))
  | PDeploy => c = [M_deploy] /\ deploy_outcome W o h r d
  | PConfigure => c = [] /\ config_outcome W o h (config o) r d
  | PWait =>
      c = [M_wait] /\
      d = (if deploy_wait o then [wait_op o] else []) /\
      r = (if deploy_wait o then wait_result W o h else Ok tt)
  | PTeardown => c = [M_teardown] /\ d = [teardown_op o] /\ r = Ok tt
  end.

(** A sequence of phases, each started only when the one before it
    returned. *)
Inductive phases : list Op -> list Phase -> Result unit ->
                   list Op -> list Method -> Prop :=
| ph_end h : phases h [] (Ok tt) [] []
| ph_next h p ps d c r d' c' :
    phase_outcome h p (Ok tt) d c ->
    phases (h ++ d) ps r d' c' ->
    phases h (p :: ps) r (d ++ d') (c ++ c')
| ph_stop h p ps e d c :
    phase_outcome h p (Raise e) d c ->
    phases h (p :: ps) (Raise e) d c.

(** The commands a phase can issue. *)
Definition issued_by (p : Phase) (x : Op) : Prop :=
  match p with
  | PBootstrap =>
      (x = teardown_op o /\ bootstrap_replace_controller o = true) \/
      x = bootstrap_op o \/
      (x = add_model_op o /\ bootstrap_disable_add_model o = false)
  | PAddModel => x = add_model_op o
  | PDeploy => match x with CharmPull _ | Shell _ => True | _ => False end
  | PConfigure => exists a b, x = config_op o a b
  | PWait => x = wait_op o /\ deploy_wait o = true
  | PTeardown => x = teardown_op o
  end.

(** The methods a phase enters. *)
Definition calls_of (p : Phase) : list Method :=
  match p with
  | PBootstrap => bootstrap_calls o
  | PAddModel => [M_add_model]
  | PDeploy => [M_deploy]
  | PConfigure => []
  | PWait => [M_wait]
  | PTeardown => [M_teardown]
  end.



End Phases.


(** Whether a text holds a space. *)
Fixpoint has_space (s : string) : bool :=
  match s with
  | EmptyString => false
  | String c s' => Ascii.eqb c " " || has_space s'
  end.



(** A command that ended well: exit status 0 and, for a wait, within its
    time. *)
Definition succeeded (W : World) (h : list Op) (x : Op) : Prop :=
  exit (respond W h x) = ExitOk /\
  (is_wait x = true -> timed_out W h x = false).

(** [succeeded_in_turn W h d]: issued one after the other after the
    commands [h], every command of [d] other than a teardown ended well. *)
Fixpoint succeeded_in_turn (W : World) (h d : list Op) : Prop :=
  match d with
  | [] => True
  | x :: d' =>
      (is_teardown x = true \/ succeeded W h x) /\
      succeeded_in_turn W (h ++ [x]) d'
  end.

(** What the answer to the command [x] must have been for a run to end
    with the exception [e] right after it: a wait out of time gives
    [TimeoutException]; a pull or a [juju config] that fails gives the
    [ErrorReturnCode] of [sh] as it is; any other command that fails gives
    a [SpecProcessException]. *)
Definition raised_by (W : World) (o : Options) (h : list Op) (x : Op)
    (e : Exn) : Prop :=
  match e with
  | TimeoutException => x = wait_op o /\ timed_out W h x = true
  | ErrorReturnCode c out err =>
      (is_pull x = true \/ is_config_set x = true) /\
      exit (respond W h x) = ExitError c out err
  | SpecProcessException _ _ =>
      is_pull x = false /\ is_config_set x = false /\
      is_teardown x = false /\
      exit_ok (exit (respond W h x)) = false
  | _ => False
  end.

(** Whether [_deploy] takes its second branch: no charm, and a bundle
    whose name starts with [cs:]. *)
Definition pulls_bundle (o : Options) : bool :=
  negb (Py.truthy (deploy_charm o)) && Py.truthy (deploy_bundle o) &&
  Py.startswith "cs:" (Py.str (deploy_bundle o)).

(** The kinds of command a run issues. *)
Inductive Verb : Type :=
| VBootstrap | VAddModel | VPull | VDeploy | VConfig | VWait | VTeardown.

Definition is_verb (v : Verb) : Op -> bool :=
  match v with
  | VBootstrap => is_bootstrap
  | VAddModel => is_add_model
  | VPull => is_pull
  | VDeploy => is_deploy
  | VConfig => is_config_set
  | VWait => is_wait
  | VTeardown => is_teardown
  end.

(** How many commands of a kind a phase may issue. *)
Definition allowance (o : Options) (v : Verb) (p : Phase) : nat :=
  match v, p with
  | VBootstrap, PBootstrap => 1
  | VAddModel, PBootstrap => if bootstrap_disable_add_model o then 0 else 1
  | VAddModel, PAddModel => 1
  | VPull, PDeploy => 1
  | VDeploy, PDeploy => 1
  | VConfig, PConfigure => length (config o)
  | VWait, PWait => if deploy_wait o then 1 else 0
  | VTeardown, PBootstrap => if bootstrap_replace_controller o then 1 else 0
  | VTeardown, PTeardown => 1
  | _, _ => 0
  end.

(** How many commands of a kind a whole run may issue. *)
Definition at_most (o : Options) (v : Verb) : nat :=
  match v with
  | VTeardown => 2
  | VConfig => length (config o)
  | _ => 1
  end.

(** How many spaces a text holds. *)
Fixpoint spaces (s : string) : nat :=
  match s with
  | EmptyString => 0
  | String c s' => (if Ascii.eqb c " " then 1 else 0) + spaces s'
  end.

(** The execute bits of a file mode: others, group, owner. *)
Definition exec_bit (i : Z) : bool :=
  ((i =? 0) || (i =? 3) || (i =? 6))%Z.

(** [stopped W o h d e]: how a run that issued [d] after [h] came to raise
    [e].  Either the last command of [d] did not end well and [e] is what
    that becomes, or [e] was raised with no command at hand: [TypeError]
    for want of a deploy target, [ValueError] for a config entry that is
    not an application, a space and a setting.  In both cases every
    command before ended well. *)
Definition stopped (W : World) (o : Options) (h d : list Op) (e : Exn)
    : Prop :=
  (exists d0 x,
      d = d0 ++ [x] /\ succeeded_in_turn W h d0 /\
      raised_by W o (h ++ d0) x e) \/
  (succeeded_in_turn W h d /\
   ((e = TypeError /\
     Py.truthy (deploy_charm o) = false /\ deploy_bundle o = None) \/
    (e = ValueError /\ exists c, In c (config o) /\ spaces c <> 1))).

(** [emits P m]: every command [m] issues satisfies [P]. *)
Definition emits {A} (P : Op -> Prop) (m : M A) : Prop :=
  forall s, exists r s' d,
    m s = (r, s') /\ ops s' = ops s ++ d /\ Forall P d.

(** The commands the older package can issue. *)
Definition legacy_issued (o : Legacy.Options) (x : Op) : Prop :=
  x = Juju (Legacy.bootstrap_cmd_args o) \/
  (x = Legacy.add_model_op o /\ Legacy.bootstrap_disable_add_model o = false) \/
  (exists args, x = CharmPull args) \/
  (exists args, x = Juju ("deploy" :: args)) \/
  (x = Legacy.wait_op o /\ Legacy.deploy_wait o = true) \/
  (exists a b, x = Legacy.config_op o a b).

(** ** Concrete worlds and intents, for the examples *)

Module Examples.

(** Temporary files are named [/tmp/tmp], [/tmp/tmpa], [/tmp/tmpaa], ... *)
Definition tmp_name (n : nat) : string :=
  ("/tmp/tmp" ++ String.concat "" (repeat "a" n))%string.

(** A world in which every command succeeds at once. *)
Definition calm : World :=
  mkWorld (fun _ _ => mkResponse [] ExitOk)
          (fun _ _ => false)
          tmp_name
          (fun _ => "3f2b8c1e-9a4d-4e7b-8c21-5d6f7a8b9c0d")
          "/tmp".

(** A world in which [destroy-controller] fails and the rest succeeds. *)
Definition no_controller : World :=
  mkWorld (fun _ c =>
             if is_teardown c
             then mkResponse [] (ExitError 1 "" "ERROR controller c1 not found")
             else mkResponse [] ExitOk)
          (fun _ _ => false)
          tmp_name
          (fun _ => "3f2b8c1e-9a4d-4e7b-8c21-5d6f7a8b9c0d")
          "/tmp".

(** A world in which the second [juju config] fails. *)
Definition second_config_fails : World :=
  mkWorld (fun h c =>
             if is_config_set c && (length (filter is_config_set h) =? 1)%nat
             then mkResponse [] (ExitError 1 "" "ERROR unknown option")
             else mkResponse [] ExitOk)
          (fun _ _ => false)
          tmp_name
          (fun _ => "3f2b8c1e-9a4d-4e7b-8c21-5d6f7a8b9c0d")
          "/tmp".

(** A world in which [juju bootstrap] fails. *)
Definition bootstrap_fails : World :=
  mkWorld (fun _ c =>
             if is_bootstrap c
             then mkResponse [] (ExitError 1 "ERROR cloud aws not found" "")
             else mkResponse [] ExitOk)
          (fun _ _ => false)
          tmp_name
          (fun _ => "3f2b8c1e-9a4d-4e7b-8c21-5d6f7a8b9c0d")
          "/tmp".

(** An intent on cloud [aws], controller [c1], model [m1]. *)
Definition intent (run : option string)
    (bootstrap replace disable reuse deploy : bool)
    (bundle charm overlay channel constraints series : option string)
    (force wait : bool) (config : list string) (teardown : bool) : Options :=
  {| cloud := "aws"; controller := "c1"; model := "m1";
     force := force;
     bootstrap := bootstrap;
     bootstrap_constraints := None;
     bootstrap_config := [];
     bootstrap_model_default := [];
     bootstrap_debug := false;
     bootstrap_run := run;
     bootstrap_disable_add_model := disable;
     bootstrap_replace_controller := replace;
     bootstrap_series := None;
     deploy := deploy;
     deploy_reuse := reuse;
     deploy_bundle := bundle;
     deploy_charm := charm;
     deploy_overlay := overlay;
     deploy_series := series;
     deploy_channel := channel;
     deploy_constraints := constraints;
     deploy_wait := wait;
     deploy_timeout := None;
     config := config;
     teardown := teardown |}.

(** A charm deployed with an overlay in the options. *)
Definition charm_with_overlay : Options :=
  intent None false false false false true
         None (Some "cs:~containers/etcd") (Some "applications: {}")
         (Some "edge") None None false false [] false.



(** A charmstore bundle deployed without a channel. *)
Definition charmstore_no_channel : Options :=
  intent None false false false false true
         (Some "cs:~org/bundle") None None
         None None None false false [] false.

(** Bootstrap asked for, but the controller is to be reused. *)
Definition reuse_and_bootstrap : Options :=
  intent None true true false true true
         (Some "bundles/k8s.yaml") None None
         (Some "edge") None None false true [] false.

(** Bootstrap with replacement of the controller, then a deployment. *)
Definition replace_and_bootstrap : Options :=
  intent None true true false false true
         (Some "bundles/k8s.yaml") None None
         (Some "edge") None None false true [] false.

(** The same with a run override. *)
Definition override_with_replace : Options :=
  intent (Some "juju bootstrap aws c1 --debug") true true false false true
         (Some "bundles/k8s.yaml") None None
         (Some "edge") None None false true [] false.

(** Bootstrap without the model, which the deploy phase then adds. *)
Definition model_added_late : Options :=
  intent None true false true false true
         (Some "bundles/k8s.yaml") None None
         (Some "edge") None None false true [] false.

(** The same with a run override. *)
Definition override_model_added_late : Options :=
  intent (Some "juju bootstrap aws c1 --debug") true false true false true
         (Some "bundles/k8s.yaml") None None
         (Some "edge") None None false true [] false.



(** The same deployment in the options of the older package. *)
Definition legacy_deploy_and_wait : Legacy.Options :=
  {| Legacy.cloud := "aws";
     Legacy.controller := "c1";
     Legacy.model := "m1";
     Legacy.bootstrap := false;
     Legacy.bootstrap_constraints := None;
     Legacy.bootstrap_debug := false;
     Legacy.bootstrap_disable_add_model := false;
     Legacy.deploy := true;
     Legacy.deploy_reuse := false;
     Legacy.deploy_bundle := Some "bundles/k8s.yaml";
     Legacy.deploy_overlay := None;
     Legacy.deploy_bundle_channel := None;
     Legacy.deploy_charm_channel := None;
     Legacy.deploy_wait := true;
     Legacy.config_set := ["app1 x=true"] |}.

(** Two assignments after a deployment, with wait and teardown asked for. *)
Definition two_assignments : Options :=
  intent None false false false false true
         (Some "bundles/k8s.yaml") None None
         (Some "edge") None None false true
         ["app1 x=true"; "app2 y=false"] true.

(** A bundle and a charm at once. *)
Definition bundle_and_charm : Options :=
  intent None true false false false true
         (Some "cs:~org/bundle") (Some "cs:~containers/etcd") None
         (Some "edge") None None false true [] true.

(** Bootstrap without the model and without a deployment; the config
    entry is not an assignment, and is never looked at. *)
Definition bootstrap_only : Options :=
  intent None true false true false false
         (Some "bundles/k8s.yaml") None None
         None None None false true ["app1"] true.

(** A deployment whose second config entry holds two spaces. *)
Definition malformed_entry : Options :=
  intent None false false false false true
         (Some "bundles/k8s.yaml") None None
         (Some "edge") None None false true
         ["app1 x=true"; "app2 y = false"] true.

(** A world in which [juju bootstrap] ends with exit status 2. *)
Definition bootstrap_exits_2 : World :=
  mkWorld (fun _ c =>
             if is_bootstrap c
             then mkResponse [] (ExitError 2 "ERROR cloud aws not found" "")
             else mkResponse [] ExitOk)
          (fun _ _ => false)
          tmp_name
          (fun _ => "3f2b8c1e-9a4d-4e7b-8c21-5d6f7a8b9c0d")
          "/tmp".

(** A bootstrap in the options of the older package. *)
Definition legacy_bootstrap : Legacy.Options :=
  {| Legacy.cloud := "aws";
     Legacy.controller := "c1";
     Legacy.model := "m1";
     Legacy.bootstrap := true;
     Legacy.bootstrap_constraints := None;
     Legacy.bootstrap_debug := false;
     Legacy.bootstrap_disable_add_model := false;
     Legacy.deploy := false;
     Legacy.deploy_reuse := false;
     Legacy.deploy_bundle := None;
     Legacy.deploy_overlay := None;
     Legacy.deploy_bundle_channel := None;
     Legacy.deploy_charm_channel := None;
     Legacy.deploy_wait := false;
     Legacy.config_set := [] |}.

(** A local bundle with an overlay and a charm channel, in the options
    of the older package. *)
Definition legacy_local_with_overlay : Legacy.Options :=
  {| Legacy.cloud := "aws";
     Legacy.controller := "c1";
     Legacy.model := "m1";
     Legacy.bootstrap := false;
     Legacy.bootstrap_constraints := None;
     Legacy.bootstrap_debug := false;
     Legacy.bootstrap_disable_add_model := false;
     Legacy.deploy := true;
     Legacy.deploy_reuse := false;
     Legacy.deploy_bundle := Some "bundles/k8s.yaml";
     Legacy.deploy_overlay := Some "overlays/aws.yaml";
     Legacy.deploy_bundle_channel := Some "edge";
     Legacy.deploy_charm_channel := Some "edge";
     Legacy.deploy_wait := false;
     Legacy.config_set := [] |}.

End Examples.

(** * Verification *)

(** ** How a computation moves the state *)

Lemma grows_refl (s : State) : grows s s [] [].
Proof.
  unfold grows. rewrite !app_nil_r. repeat split. exists []. now rewrite app_nil_r.
Qed.

Lemma grows_trans (s1 s2 s3 : State) d1 d2 c1 c2 :
  grows s1 s2 d1 c1 -> grows s2 s3 d2 c2 ->
  grows s1 s3 (d1 ++ d2) (c1 ++ c2).
Proof.
  intros (O1 & C1 & l1 & L1) (O2 & C2 & l2 & L2).
  unfold grows. rewrite O2, O1, C2, C1, L2, L1, <- !app_assoc.
  repeat split. now exists (l1 ++ l2).
Qed.

Lemma grows_logged (s s' : State) d c (x : LogRecord) :
  grows s s' d c -> In x (logs s) -> In x (logs s').
Proof.
  intros (_ & _ & lg & L) H. rewrite L. apply in_or_app. now left.
Qed.

(** Equalities between the lists of commands or calls of a sequence. *)
Ltac list_eq :=
  cbn; rewrite ?app_nil_r, <- ?app_assoc; cbn; rewrite ?app_nil_r;
  reflexivity.

Lemma for_each_log (l : Level) (t : string) (ls : list string) (s : State) :
  for_each ls (fun line => log l t [line]) s =
  (Ok tt, mkState (ops s) (calls s)
                  (logs s ++ map (fun line => mkLog l t [line]) ls)
                  (files s) (n_tmp s) (n_uuid s)).
Proof.
  revert s. induction ls as [|x ls IH]; intros s; cbn.
  - rewrite app_nil_r. destruct s; reflexivity.
  - unfold bind. cbn. rewrite IH. cbn. rewrite <- app_assoc. reflexivity.
Qed.

(** ** Running a computation *)

Lemma run_ret {A} (a : A) (s : State) : run (ret a) s (Ok a) s [] [].
Proof. split; [reflexivity | apply grows_refl]. Qed.

Lemma run_raise {A} (e : Exn) (s : State) : run (@raise A e) s (Raise e) s [] [].
Proof. split; [reflexivity | apply grows_refl]. Qed.

Lemma run_enter (m : Method) (s : State) :
  exists s', run (enter m) s (Ok tt) s' [] [m] /\ logs s' = logs s.
Proof.
  eexists. split; [split; [reflexivity|]|]; unfold grows; cbn.
  - rewrite app_nil_r. repeat split. exists []. now rewrite app_nil_r.
  - reflexivity.
Qed.

Lemma run_log (l : Level) (t : string) (vs : list string) (s : State) :
  exists s', run (log l t vs) s (Ok tt) s' [] [] /\ ops s' = ops s.
Proof.
  eexists. split; [split; [reflexivity|]|]; unfold grows; cbn.
  - rewrite !app_nil_r. repeat split. eauto.
  - reflexivity.
Qed.

Lemma run_bind_ok {A B} (m : M A) (k : A -> M B) s a s1 r s2 d1 d2 c1 c2 :
  run m s (Ok a) s1 d1 c1 -> run (k a) s1 r s2 d2 c2 ->
  run (bind m k) s r s2 (d1 ++ d2) (c1 ++ c2).
Proof.
  intros (E1 & G1) (E2 & G2). split.
  - unfold bind. now rewrite E1.
  - eapply grows_trans; eassumption.
Qed.

Lemma run_bind_raise {A B} (m : M A) (k : A -> M B) s e s1 d1 c1 :
  run m s (Raise e) s1 d1 c1 -> run (bind m k) s (Raise e) s1 d1 c1.
Proof.
  intros (E1 & G1). split; [|exact G1]. unfold bind. now rewrite E1.
Qed.

Lemma run_seq {B} (m1 : M unit) (m2 : M B) s s1 r s2 d1 d2 c1 c2 :
  run m1 s (Ok tt) s1 d1 c1 -> run m2 s1 r s2 d2 c2 ->
  run (m1 ;; m2) s r s2 (d1 ++ d2) (c1 ++ c2).
Proof. exact (run_bind_ok m1 (fun _ => m2) s tt s1 r s2 d1 d2 c1 c2). Qed.

Lemma run_seq_raise {B} (m1 : M unit) (m2 : M B) s e s1 d1 c1 :
  run m1 s (Raise e) s1 d1 c1 -> run (m1 ;; m2) s (Raise e) s1 d1 c1.
Proof. exact (run_bind_raise m1 (fun _ => m2) s e s1 d1 c1). Qed.

Lemma run_as {A} (m : M A) s r s' d c d' c' :
  run m s r s' d c -> d = d' -> c = c' -> run m s r s' d' c'.
Proof. now intros H <- <-. Qed.


Section Commands.

Variable W : World.

Lemma sh_iter_eq (c : Op) (l : Level) (t : string) (s : State) :
  sh_iter W c l t s =
  (result_of_exit (exit (respond W (ops s) c)),
   mkState (ops s ++ [c]) (calls s)
           (logs s ++ map (fun line => mkLog l t [line])
                          (lines (respond W (ops s) c)))
           (files s) (n_tmp s) (n_uuid s)).
Proof.
  unfold sh_iter, bind, issue. rewrite for_each_log. cbn.
  destruct (exit (respond W (ops s) c)); reflexivity.
Qed.

Lemma run_sh_iter (c : Op) (l : Level) (t : string) (s : State) :
  exists s',
    run (sh_iter W c l t) s (result_of_exit (exit (respond W (ops s) c))) s'
        [c] [].
Proof.
  eexists. split; [apply sh_iter_eq|]. unfold grows; cbn.
  rewrite app_nil_r. repeat split. eauto.
Qed.

Lemma run_sh_call (c : Op) (s : State) :
  exists s',
    run (sh_call W c) s (result_of_exit (exit (respond W (ops s) c))) s'
        [c] [].
Proof.
  unfold run, sh_call, bind, issue, check_exit. cbn.
  destruct (exit (respond W (ops s) c)); cbn; eexists;
    (split; [reflexivity|]); unfold grows; cbn;
    rewrite app_nil_r; repeat split; exists []; now rewrite app_nil_r.
Qed.

Lemma run_sh_iter_timeout (c : Op) (l : Level) (t : string) (s : State) :
  exists s',
    run (sh_iter_timeout W c l t) s
        (if timed_out W (ops s) c then Raise TimeoutException
         else result_of_exit (exit (respond W (ops s) c)))
        s' [c] [].
Proof.
  unfold run, sh_iter_timeout. destruct (timed_out W (ops s) c).
  - unfold bind, issue. rewrite for_each_log. cbn.
    eexists. split; [reflexivity|]. unfold grows; cbn.
    rewrite app_nil_r. repeat split. eauto.
  - apply run_sh_iter.
Qed.

(** A handler that only raises turns the exit status into its result
    and leaves the state as the command left it. *)
Lemma run_except_raise (m : M unit) (f : Z -> string -> string -> Exn)
    s e s' d c :
  run m s (result_of_exit e) s' d c ->
  run (except_ErrorReturnCode m (fun x out err => raise (f x out err))) s
      (match e with
       | ExitOk => Ok tt
       | ExitError x out err => Raise (f x out err)
       end) s' d c.
Proof.
  intros (E & G). split; [|exact G].
  unfold except_ErrorReturnCode. rewrite E. now destruct e.
Qed.

End Commands.

(** ** What each method does to the record of commands *)

Section Methods.

Variable W : World.
Variable o : Options.

Lemma run_teardown (s : State) :
  exists s',
    run (_teardown W o) s (Ok tt) s' [teardown_op o] [M_teardown] /\
    (forall c out err,
        exit (respond W (ops s) (teardown_op o)) = ExitError c out err ->
        In (teardown_failure_log err) (logs s')).
Proof.
  unfold run, _teardown, bind, except_ErrorReturnCode, enter.
  rewrite sh_iter_eq. cbn.
  destruct (exit (respond W (ops s) (teardown_op o))) as [|c out err] eqn:E;
    cbn; eexists; (split; [split; [reflexivity|] |]); unfold grows; cbn.
  - repeat split; eauto.
  - discriminate.
  - repeat split. rewrite <- app_assoc. eauto.
  - intros c' out' err' [= _ _ <-]. apply in_or_app. right. now left.
Qed.

Lemma run_add_model_call (s : State) :
  exists s',
    run (except_ErrorReturnCode
           (sh_call W (add_model_op o))
           (fun _ _ err =>
              raise (SpecProcessException "Failed to add model: {}" [err])))
        s (add_model_result (exit (respond W (ops s) (add_model_op o)))) s'
        [add_model_op o] [].
Proof.
  destruct (run_sh_call W (add_model_op o) s) as (s' & R).
  exists s'.
  apply (run_except_raise
           (sh_call W (add_model_op o))
           (fun _ _ err => SpecProcessException "Failed to add model: {}" [err]))
    in R.
  exact R.
Qed.

Lemma run_add_model (s : State) :
  exists s',
    run (_add_model W o) s
        (add_model_result (exit (respond W (ops s) (add_model_op o)))) s'
        [add_model_op o] [M_add_model].
Proof.
  unfold _add_model.
  destruct (run_enter M_add_model s) as (s0 & R0 & _).
  destruct (run_log INFO "Adding model {}" [_fmt_controller_model o] s0)
    as (s1 & R1 & O1).
  destruct (run_add_model_call s1) as (s2 & R2).
  assert (H : ops s1 = ops s).
  { rewrite O1. destruct R0 as (_ & O0 & _). now rewrite O0, app_nil_r. }
  rewrite H in R2. exists s2.
  eapply run_as;
    [eapply run_bind_ok; [exact R0 | eapply run_bind_ok; [exact R1 | exact R2]]
    | reflexivity | reflexivity].
Qed.

Lemma run_replace_controller (s : State) :
  exists s',
    run (when (bootstrap_replace_controller o)
           (log INFO
              "Replace controller triggered, will attempt to teardown {}"
              [controller o] ;;
            _teardown W o))
        s (Ok tt) s' (bootstrap_pre o)
        (if bootstrap_replace_controller o then [M_teardown] else []) /\
    (bootstrap_replace_controller o = true ->
     forall c out err,
       exit (respond W (ops s) (teardown_op o)) = ExitError c out err ->
       In (teardown_failure_log err) (logs s')).
Proof.
  unfold bootstrap_pre. destruct (bootstrap_replace_controller o); cbn [when].
  - destruct (run_log INFO
                "Replace controller triggered, will attempt to teardown {}"
                [controller o] s) as (sa & Ra & Oa).
    destruct (run_teardown sa) as (s1 & R1 & L1).
    exists s1. split.
    + eapply run_as;
        [eapply run_bind_ok; [exact Ra | exact R1] | reflexivity | reflexivity].
    + intros _ c out err H. apply (L1 c out err). now rewrite Oa.
  - exists s. split; [apply run_ret | discriminate].
Qed.

Lemma run_bootstrap (s : State) :
  exists r s' d,
    run (_bootstrap W o) s r s' (bootstrap_pre o ++ d) (bootstrap_calls o) /\
    bootstrap_outcome W o (ops s ++ bootstrap_pre o) r d /\
    (bootstrap_replace_controller o = true ->
     forall c out err,
       exit (respond W (ops s) (teardown_op o)) = ExitError c out err ->
       In (teardown_failure_log err) (logs s')).
Proof.
  unfold _bootstrap, bootstrap_calls. fold (bootstrap_op o).
  destruct (run_enter M_bootstrap s) as (s0 & R0 & L0).
  destruct (run_replace_controller s0) as (s1 & R1 & L1).
  destruct (run_log DEBUG "Juju bootstrap cmd > {}" (bootstrap_cmd_args o) s1)
    as (s2 & R2 & O2).
  assert (P : run (enter M_bootstrap ;;
                   when (bootstrap_replace_controller o)
                     (log INFO
                        "Replace controller triggered, will attempt to teardown {}"
                        [controller o] ;;
                      _teardown W o) ;;
                   log DEBUG "Juju bootstrap cmd > {}" (bootstrap_cmd_args o))
                  s (Ok tt) s2 (bootstrap_pre o) (bootstrap_calls o)).
  { eapply run_as;
      [eapply run_bind_ok; [exact R0 | eapply run_bind_ok; [exact R1 | exact R2]]
      | list_eq | unfold bootstrap_calls; list_eq ]. }
  assert (H0 : ops s0 = ops s).
  { destruct R0 as (_ & O0 & _). now rewrite O0, app_nil_r. }
  assert (H2 : ops s2 = ops s ++ bootstrap_pre o).
  { destruct P as (_ & OP & _). exact OP. }
  assert (L2 : bootstrap_replace_controller o = true ->
               forall c out err,
                 exit (respond W (ops s) (teardown_op o)) = ExitError c out err ->
                 In (teardown_failure_log err) (logs s2)).
  { intros R c out err H. destruct R2 as (_ & G2).
    eapply grows_logged; [exact G2|]. apply (L1 R c out err). now rewrite H0. }
  destruct (run_sh_iter W (bootstrap_op o) INFO "{}" s2) as (s3 & R3).
  apply (run_except_raise
           (sh_iter W (bootstrap_op o) INFO "{}")
           (fun _ out _ => SpecProcessException "Unable to bootstrap:\n {}" [out]))
    in R3.
  rewrite H2 in R3.
  assert (L3 : bootstrap_replace_controller o = true ->
               forall c out err,
                 exit (respond W (ops s) (teardown_op o)) = ExitError c out err ->
                 In (teardown_failure_log err) (logs s3)).
  { intros R c out err H. destruct R3 as (_ & G3).
    eapply grows_logged; [exact G3|]. now apply (L2 R c out err). }
  destruct (exit (respond W (ops s ++ bootstrap_pre o) (bootstrap_op o)))
    as [|c out err] eqn:EB.
  - destruct (bootstrap_disable_add_model o) eqn:D; cbn [negb when].
    + exists (Ok tt), s3, [bootstrap_op o]. split; [|split].
      * eapply run_as.
        -- eapply run_bind_ok; [exact R0|].
           eapply run_bind_ok; [exact R1|].
           eapply run_bind_ok; [exact R2|].
           eapply run_bind_ok; [exact R3| apply run_ret].
        -- list_eq.
        -- list_eq.
      * now apply boot_without_model.
      * exact L3.
    + destruct (run_log INFO "Adding model {}" [_fmt_controller_model o] s3)
        as (s4 & R4 & O4).
      destruct (run_add_model_call s4) as (s5 & R5).
      assert (H4 : ops s4 = (ops s ++ bootstrap_pre o) ++ [bootstrap_op o]).
      { rewrite O4. destruct R3 as (_ & O3 & _). now rewrite O3, H2. }
      rewrite H4 in R5.
      eexists _, s5, [bootstrap_op o; add_model_op o]. split; [|split].
      * eapply run_as.
        -- eapply run_bind_ok; [exact R0|].
           eapply run_bind_ok; [exact R1|].
           eapply run_bind_ok; [exact R2|].
           eapply run_bind_ok; [exact R3|].
           eapply run_bind_ok; [exact R4| exact R5].
        -- list_eq.
        -- list_eq.
      * now apply boot_with_model.
      * intros R c out err H. destruct R4 as (_ & G4). destruct R5 as (_ & G5).
        eapply grows_logged; [exact G5|].
        eapply grows_logged; [exact G4|]. now apply (L3 R c out err).
  - eexists _, s3, [bootstrap_op o]. split; [|split].
    + eapply run_as.
      * eapply run_bind_ok; [exact R0|].
        eapply run_bind_ok; [exact R1|].
        eapply run_bind_ok; [exact R2|].
        eapply run_bind_raise. exact R3.
      * list_eq.
      * list_eq.
    + eapply boot_unable. exact EB.
    + exact L3.
Qed.

Lemma run_wait (s : State) :
  exists s',
    run (_wait W o) s
        (if deploy_wait o then wait_result W o (ops s) else Ok tt) s'
        (if deploy_wait o then [wait_op o] else []) [M_wait].
Proof.
  unfold _wait.
  destruct (run_enter M_wait s) as (s0 & R0 & _).
  assert (H0 : ops s0 = ops s).
  { destruct R0 as (_ & O0 & _). now rewrite O0, app_nil_r. }
  destruct (deploy_wait o); cbn [when].
  - destruct (run_log INFO "Waiting for deployment to settle" [] s0)
      as (s1 & R1 & O1).
    destruct (run_sh_iter_timeout W (wait_op o) DEBUG "{}" s1)
      as (s2 & E2 & G2).
    rewrite O1, H0 in E2. exists s2.
    eapply run_as;
      [eapply run_bind_ok; [exact R0 | eapply run_bind_ok; [exact R1 |]]
      | list_eq | list_eq].
    split; [|exact G2].
    unfold except_ErrorReturnCode, wait_result. rewrite E2.
    destruct (timed_out W (ops s) (wait_op o)); [reflexivity|].
    destruct (exit (respond W (ops s) (wait_op o))); reflexivity.
  - exists s0.
    eapply run_as;
      [eapply run_bind_ok; [exact R0 | apply run_ret] | list_eq | list_eq].
Qed.

Lemma run_config_set (c : string) (s : State) :
  (exists a b s',
      Py.split " "%char c = [a; b] /\
      run (config_set W o c) s
          (result_of_exit (exit (respond W (ops s) (config_op o a b)))) s'
          [config_op o a b] []) \/
  ((forall a b, Py.split " "%char c <> [a; b]) /\
   run (config_set W o c) s (Raise ValueError) s [] []).
Proof.
  unfold config_set.
  destruct (Py.split " "%char c) as [|a [|b [|x l]]] eqn:E;
    try (right; split; [intros ? ?; discriminate | apply run_raise]).
  left. exists a, b.
  destruct (run_log INFO "Setting {}" [c] s) as (s0 & R0 & O0).
  destruct (run_sh_call W (config_op o a b) s0) as (s1 & R1).
  rewrite O0 in R1. exists s1. split; [reflexivity|].
  eapply run_as; [eapply run_bind_ok; [exact R0 | exact R1] | list_eq | list_eq].
Qed.

Lemma run_for_each_config (cs : list string) (s : State) :
  exists r s' d,
    run (for_each cs (config_set W o)) s r s' d [] /\
    config_outcome W o (ops s) cs r d.
Proof.
  revert s. induction cs as [|c cs IH]; intros s; cbn [for_each].
  - exists (Ok tt), s, []. split; [apply run_ret | constructor].
  - destruct (run_config_set c s) as [(a & b & s1 & E & R1) | (E & R1)].
    + destruct (exit (respond W (ops s) (config_op o a b)))
        as [|x out err] eqn:X; cbn [result_of_exit] in R1.
      * destruct (IH s1) as (r & s2 & d & R2 & C2).
        exists r, s2, (config_op o a b :: d). split.
        -- eapply run_as; [eapply run_bind_ok; [exact R1 | exact R2]
                          | list_eq | list_eq].
        -- eapply cfg_next; eauto.
           destruct R1 as (_ & O1 & _). now rewrite <- O1.
      * eexists _, s1, [config_op o a b]. split.
        -- eapply run_bind_raise. exact R1.
        -- eapply cfg_failed; eauto.
    + exists (Raise ValueError), s, []. split.
      * eapply run_bind_raise. exact R1.
      * now apply cfg_malformed.
Qed.

Lemma run_configure (s : State) :
  exists r s' d,
    run (configure W o) s r s' d [] /\ config_outcome W o (ops s) (config o) r d.
Proof. apply run_for_each_config. Qed.

Lemma run_issue (c : Op) (s : State) :
  exists s', run (issue W c) s (Ok (respond W (ops s) c)) s' [c] [].
Proof.
  eexists. split; [reflexivity|]. unfold grows; cbn.
  rewrite app_nil_r. repeat split. exists []. now rewrite app_nil_r.
Qed.

Lemma run_deploy_target (s : State) :
  exists r s' d,
    run (deploy_target W o) s r s' d [] /\
    ((d = [] /\ r = Raise TypeError /\
      Py.truthy (deploy_charm o) = false /\ deploy_bundle o = None) \/
     (pulled W (ops s) d /\ exists t, r = Ok t) \/
     (exists args c out err,
         d = [CharmPull args] /\
         exit (respond W (ops s) (CharmPull args)) = ExitError c out err /\
         r = Raise (ErrorReturnCode c out err))).
Proof.
  unfold deploy_target.
  destruct (Py.truthy (deploy_charm o)) eqn:C.
  { eexists _, s, []. split; [apply run_ret|].
    right; left. split; [now left | eauto]. }
  destruct (Py.truthy (deploy_bundle o) &&
            Py.startswith "cs:" (Py.str (deploy_bundle o)))%bool.
  - set (u := uuid4 W (n_uuid s)).
    set (path := (gettempdir W ++ "/" ++ Py.pop (Py.split "-"%char u))%string).
    set (args := [Py.str (deploy_bundle o)] ++
                 (if Py.truthy (deploy_channel o)
                  then ["--channel"; Py.str (deploy_channel o); path]
                  else [])).
    assert (R0 : exists s0, run (uuid4_str W) s (Ok u) s0 [] [] /\
                           ops s0 = ops s).
    { eexists. split; [split; [reflexivity|]|]; unfold grows; cbn.
      - rewrite !app_nil_r. repeat split. exists []. now rewrite app_nil_r.
      - reflexivity. }
    destruct R0 as (s0 & R0 & O0).
    destruct (run_log DEBUG "Charm pull: {}" args s0) as (s1 & R1 & O1).
    destruct (run_sh_call W (CharmPull args) s1) as (s2 & R2).
    rewrite O1, O0 in R2.
    destruct (exit (respond W (ops s) (CharmPull args)))
      as [|c out err] eqn:X; cbn [result_of_exit] in R2.
    + eexists _, s2, [CharmPull args]. split.
      * eapply run_as.
        -- eapply run_bind_ok; [exact R0|].
           eapply run_bind_ok; [exact R1|].
           eapply run_bind_ok; [exact R2| apply run_ret].
        -- list_eq.
        -- list_eq.
      * right; left. split; [right; eauto | eauto].
    + eexists _, s2, [CharmPull args]. split.
      * eapply run_as.
        -- eapply run_bind_ok; [exact R0|].
           eapply run_bind_ok; [exact R1|].
           eapply run_bind_raise. exact R2.
        -- list_eq.
        -- list_eq.
      * right; right. exists args, c, out, err. auto.
  - destruct (deploy_bundle o) as [b|] eqn:B.
    + eexists _, s, []. split; [apply run_ret|].
      right; left. split; [now left | eauto].
    + eexists _, s, []. split; [apply run_raise|]. left. auto.
Qed.

Lemma run_mkstemp (s : State) :
  exists s',
    run (mkstemp W) s (Ok (mkstemp_path W (n_tmp s))) s' [] [] /\
    ops s' = ops s.
Proof.
  eexists. split; [split; [reflexivity|]|]; unfold grows; cbn.
  - rewrite !app_nil_r. repeat split. exists []. now rewrite app_nil_r.
  - reflexivity.
Qed.

Lemma run_write_text (p txt : string) (s : State) :
  exists s', run (write_text p txt) s (Ok tt) s' [] [] /\ ops s' = ops s.
Proof.
  eexists. split; [split; [reflexivity|]|]; unfold grows; cbn.
  - rewrite !app_nil_r. repeat split. exists []. now rewrite app_nil_r.
  - reflexivity.
Qed.

Lemma run_deploy_flags (t : list string) (s : State) :
  exists a s', run (deploy_flags W o t) s (Ok a) s' [] [] /\ ops s' = ops s.
Proof.
  unfold deploy_flags.
  destruct (Py.truthy (deploy_bundle o) && Py.truthy (deploy_overlay o))%bool.
  - destruct (run_mkstemp s) as (s0 & R0 & O0).
    destruct (run_write_text (mkstemp_path W (n_tmp s))
                             (Py.str (deploy_overlay o)) s0)
      as (s1 & R1 & O1).
    eexists _, s1. split; [|now rewrite O1, O0].
    eapply run_as.
    + eapply run_bind_ok.
      * eapply run_bind_ok; [exact R0|].
        eapply run_bind_ok; [exact R1| apply run_ret].
      * apply run_ret.
    + list_eq.
    + list_eq.
  - eexists _, s. split; [|reflexivity].
    eapply run_as;
      [eapply run_bind_ok; [apply run_ret | apply run_ret] | list_eq | list_eq].
Qed.

Lemma run_deploy (s : State) :
  exists r s' d,
    run (_deploy W o) s r s' d [M_deploy] /\ deploy_outcome W o (ops s) r d.
Proof.
  unfold _deploy.
  destruct (run_enter M_deploy s) as (s0 & R0 & _).
  assert (H0 : ops s0 = ops s).
  { destruct R0 as (_ & O0 & _). now rewrite O0, app_nil_r. }
  destruct (run_deploy_target s0) as (rt & s1 & pre & R1 & Ht).
  rewrite H0 in Ht.
  destruct Ht as [(-> & -> & C & B) | [(P & t & ->) | (args & c & out & err & -> & X & ->)]].
  - exists (Raise TypeError), s1, []. split.
    + eapply run_as;
        [eapply run_bind_ok; [exact R0 | eapply run_bind_raise; exact R1]
        | list_eq | list_eq].
    + now apply dep_no_target.
  - destruct (run_deploy_flags t s1) as (a & s2 & R2 & O2).
    destruct (run_log INFO "Deploying: juju deploy {}" [Py.join " " a] s2)
      as (s3 & R3 & O3).
    destruct (run_issue (Shell (deploy_cmdline a)) s3) as (s4 & R4).
    assert (H3 : ops s3 = ops s ++ pre).
    { rewrite O3, O2. destruct R1 as (_ & O1 & _). now rewrite O1, H0. }
    rewrite H3 in R4.
    destruct (exit (respond W (ops s ++ pre) (Shell (deploy_cmdline a))))
      as [|c out err] eqn:X.
    + exists (Ok tt), s4, (pre ++ [Shell (deploy_cmdline a)]). split.
      * eapply run_as.
        -- eapply run_bind_ok; [exact R0|].
           eapply run_bind_ok; [exact R1|].
           eapply run_bind_ok; [exact R2|].
           eapply run_bind_ok; [exact R3|].
           eapply run_bind_ok; [exact R4|].
           rewrite X. apply run_ret.
        -- list_eq.
        -- list_eq.
      * now apply dep_done.
    + eexists _, s4, (pre ++ [Shell (deploy_cmdline a)]). split.
      * eapply run_as.
        -- eapply run_bind_ok; [exact R0|].
           eapply run_bind_ok; [exact R1|].
           eapply run_bind_ok; [exact R2|].
           eapply run_bind_ok; [exact R3|].
           eapply run_bind_ok; [exact R4|].
           rewrite X. apply run_raise.
        -- list_eq.
        -- list_eq.
      * apply dep_failed; [exact P | now rewrite X].
  - eexists _, s1, [CharmPull args]. split.
    + eapply run_as;
        [eapply run_bind_ok; [exact R0 | eapply run_bind_raise; exact R1]
        | list_eq | list_eq].
    + eapply dep_pull_failed. exact X.
Qed.

End Methods.

(** ** The lifecycle as a sequence of phases

    Without a run override, [process] is the sequence of phases its options
    select, each started only when the one before it returned. *)

Section Lifecycle.

Variable W : World.
Variable o : Options.

Lemma run_phase (p : Phase) (s : State) :
  exists r s' d c,
    run (method_of W o p) s r s' d c /\ phase_outcome W o (ops s) p r d c.
Proof.
  destruct p; cbn [method_of phase_outcome].
  - destruct (run_bootstrap W o s) as (r & s' & d & R & B & _).
    exists r, s', (bootstrap_pre o ++ d), (bootstrap_calls o). eauto.
  - destruct (run_add_model W o s) as (s' & R). eauto 10.
  - destruct (run_deploy W o s) as (r & s' & d & R & D). eauto 10.
  - destruct (run_configure W o s) as (r & s' & d & R & C). eauto 10.
  - destruct (run_wait W o s) as (s' & R). eauto 10.
  - destruct (run_teardown W o s) as (s' & R & _). eauto 10.
Qed.

Lemma run_phases (ps : list Phase) (s : State) :
  exists r s' d c,
    run (for_each ps (method_of W o)) s r s' d c /\ phases W o (ops s) ps r d c.
Proof.
  revert s. induction ps as [|p ps IH]; intros s; cbn [for_each].
  - exists (Ok tt), s, [], []. split; [apply run_ret | constructor].
  - destruct (run_phase p s) as (r1 & s1 & d1 & c1 & R1 & P1).
    destruct r1 as [[]|e].
    + destruct (IH s1) as (r & s2 & d2 & c2 & R2 & P2).
      exists r, s2, (d1 ++ d2), (c1 ++ c2). split.
      * eapply run_bind_ok; eassumption.
      * eapply ph_next; [exact P1|].
        destruct R1 as (_ & O1 & _). now rewrite <- O1.
    + exists (Raise e), s1, d1, c1. split.
      * eapply run_bind_raise. exact R1.
      * now apply ph_stop.
Qed.

Lemma process_as_plan (s : State) :
  Py.truthy (bootstrap_run o) = false ->
  process W o s = (enter M_process ;; for_each (plan o) (method_of W o)) s.
Proof.
  intros H. unfold process, plan. rewrite H.
  destruct (deploy_reuse o), (bootstrap o), (deploy o),
    (bootstrap_disable_add_model o), (teardown o);
    cbn [negb andb when app for_each method_of];
    unfold bind, ret;
    repeat match goal with
           | |- context [match ?m ?x with _ => _ end] =>
               destruct (m x) as [[[]|?] ?]
           end;
    reflexivity.
Qed.

(** The master statement: what a run without override issues and enters
    is what its phases issue and enter, up to the first that raises. *)
Lemma run_process (s : State) :
  Py.truthy (bootstrap_run o) = false ->
  exists r s' d c,
    run (process W o) s r s' d (M_process :: c) /\
    phases W o (ops s) (plan o) r d c.
Proof.
  intros H.
  destruct (run_enter M_process s) as (s0 & R0 & _).
  destruct (run_phases (plan o) s0) as (r & s' & d & c & R & P).
  assert (H0 : ops s0 = ops s).
  { destruct R0 as (_ & O0 & _). now rewrite O0, app_nil_r. }
  rewrite H0 in P.
  exists r, s', d, c. split; [|exact P].
  pose proof (run_bind_ok _ (fun _ => for_each (plan o) (method_of W o))
                          _ _ _ _ _ _ _ _ _ R0 R) as Q.
  destruct Q as (E & G). split; [|exact G].
  now rewrite process_as_plan.
Qed.

Lemma phase_outcome_issued h p r d c :
  phase_outcome W o h p r d c -> Forall (issued_by o p) d.
Proof.
  destruct p; cbn [phase_outcome issued_by].
  - intros (_ & d2 & -> & B). apply Forall_app. split.
    + unfold bootstrap_pre.
      destruct (bootstrap_replace_controller o) eqn:R;
        [constructor; [left; auto | constructor] | constructor].
    + assert (I1 : issued_by o PBootstrap (bootstrap_op o)) by (right; now left).
      destruct B as [x out err X | X D | X D];
        repeat (constructor; [exact I1|]); try constructor.
      * right; right. auto.
      * constructor.
  - intros (_ & -> & _). repeat constructor.
  - intros (_ & D).
    assert (P : forall pre, pulled W h pre ->
                Forall (fun x => match x with
                                 | CharmPull _ | Shell _ => True
                                 | _ => False
                                 end) pre).
    { intros pre [-> | (args & -> & _)]; repeat constructor. }
    destruct D as [C B | args x out err X | pre args Q X | pre args Q X].
    + constructor.
    + repeat constructor.
    + apply Forall_app. split; [auto | repeat constructor].
    + apply Forall_app. split; [auto | repeat constructor].
  - intros (_ & C).
    assert (I : forall a b, issued_by o PConfigure (config_op o a b))
      by (intros a b; exists a, b; reflexivity).
    induction C;
      [ constructor | constructor
      | constructor; [apply I | constructor]
      | constructor; [apply I | assumption] ].
  - intros (_ & -> & _).
    destruct (deploy_wait o) eqn:Wt; [constructor; [split; auto | constructor]
                                     | constructor].
  - intros (_ & -> & _). repeat constructor.
Qed.

Lemma phase_outcome_calls h p r d c :
  phase_outcome W o h p r d c -> c = calls_of o p.
Proof.
  destruct p; cbn [phase_outcome calls_of]; now intros (-> & _).
Qed.

Lemma phases_issued h ps r d c :
  phases W o h ps r d c ->
  Forall (fun x => exists p, In p ps /\ issued_by o p x) d.
Proof.
  induction 1 as [h | h p ps d c r d' c' P _ IH | h p ps e d c P].
  - constructor.
  - apply Forall_app. split.
    + eapply Forall_impl; [|exact (phase_outcome_issued _ _ _ _ _ P)].
      intros x I. exists p. split; [now left | exact I].
    + eapply Forall_impl; [|exact IH].
      intros x (q & I & J). exists q. split; [now right | exact J].
  - eapply Forall_impl; [|exact (phase_outcome_issued _ _ _ _ _ P)].
    intros x I. exists p. split; [now left | exact I].
Qed.

Lemma phases_calls h ps r d c :
  phases W o h ps r d c ->
  exists n, c = flat_map (calls_of o) (firstn n ps) /\
            (r = Ok tt -> c = flat_map (calls_of o) ps).
Proof.
  induction 1 as [h | h p ps d c r d' c' P _ (n & -> & IH) | h p ps e d c P].
  - exists 0. auto.
  - exists (S n). rewrite (phase_outcome_calls _ _ _ _ _ P). cbn.
    split; [reflexivity|]. intros R. now rewrite <- (IH R).
  - exists 1. rewrite (phase_outcome_calls _ _ _ _ _ P). cbn.
    rewrite app_nil_r. split; [reflexivity | discriminate].
Qed.

(** A sequence of phases splits where its plan splits. *)
Lemma phases_app h ps1 ps2 r d c :
  phases W o h (ps1 ++ ps2) r d c ->
  (exists d1 c1 d2 c2,
      d = d1 ++ d2 /\ c = c1 ++ c2 /\
      phases W o h ps1 (Ok tt) d1 c1 /\ phases W o (h ++ d1) ps2 r d2 c2) \/
  (exists e, r = Raise e /\ phases W o h ps1 (Raise e) d c).
Proof.
  revert h r d c. induction ps1 as [|p ps1 IH]; intros h r d c H; cbn in H.
  - left. exists [], [], d, c. rewrite app_nil_r.
    repeat split; [constructor | exact H].
  - inversion H as [| h' p' ps' d1 c1 r' d' c' P Q | h' p' ps' e d1 c1 P]; subst.
    + destruct (IH _ _ _ _ Q)
        as [(da & ca & db & cb & -> & -> & A & B) | (e & -> & A)].
      * left. exists (d1 ++ da), (c1 ++ ca), db, cb.
        rewrite !app_assoc. repeat split.
        -- eapply ph_next; eassumption.
        -- now rewrite <- app_assoc in B |- *.
      * right. exists e. split; [reflexivity|]. eapply ph_next; eassumption.
    + right. exists e. split; [reflexivity|]. now apply ph_stop.
Qed.

End Lifecycle.

(** * The claims *)

(** ** Conflict check *)

(** C1.  When both a bundle and a charm are set (both options truthy),
    [conflicts] raises the configuration exception and issues no command;
    whatever is sequenced after the check -- [process] in particular --
    is never started, so a run that begins with the check ends with no
    command issued at all. *)
Theorem conflicts_raises_before_any_command
    (W : World) (o : Options) (s : State) :
  Py.truthy (deploy_bundle o) = true ->
  Py.truthy (deploy_charm o) = true ->
  (exists s',
      conflicts o s = (Raise (SpecConfigException conflict_message), s') /\
      ops s' = ops s) /\
  (forall k : M unit,
      exists s',
        (conflicts o ;; k) s
          = (Raise (SpecConfigException conflict_message), s') /\
        ops s' = ops s) /\
  ops (snd ((conflicts o ;; process W o) initial)) = [].
Proof.
  intros B C.
  assert (E : exists s',
             conflicts o s = (Raise (SpecConfigException conflict_message), s')
             /\ ops s' = ops s).
  { unfold conflicts, bind, enter. rewrite B, C. cbn.
    eexists. split; reflexivity. }
  split; [exact E|]. split.
  - intros k. destruct E as (s' & E & O). exists s'. split; [|exact O].
    unfold bind at 1. now rewrite E.
  - unfold conflicts, bind, enter. rewrite B, C. reflexivity.
Qed.

(** ** Run override *)

Lemma run_override (W : World) (o : Options) (s : State) :
  Py.truthy (bootstrap_run o) = true ->
  let path := mkstemp_path W (n_tmp s) in
  exists s',
    process W o s =
      (match exit (respond W (ops s) (Env path)) with
       | ExitOk => Ok tt
       | ExitError _ _ err =>
           Raise (SpecProcessException "Failure to bootstrap: {}" [err])
       end, s') /\
    ops s' = ops s ++ [Env path] /\
    calls s' = calls s ++ [M_process; M_run] /\
    lookup_file path (files s')
      = Some (mkFile (Py.str (bootstrap_run o)) 33216).
Proof.
  intros H path.
  unfold process. rewrite H.
  unfold _run, _make_executable, chmod, stat, write_text, set_files, mkstemp.
  unfold bind, enter, log, except_ErrorReturnCode. cbn -[sh_iter].
  repeat (rewrite String.eqb_refl; cbn -[sh_iter]).
  rewrite sh_iter_eq. cbn. fold path.
  destruct (exit (respond W (ops s) (Env path))); cbn;
    eexists; (split; [reflexivity|]); cbn;
    rewrite ?String.eqb_refl, <- ?app_assoc; auto.
Qed.

(** C2.  With [bootstrap.run] set, [process] issues exactly one command,
    the execution of the temporary script holding the override (made
    executable); that command is no bootstrap, add-model, pull, deploy,
    config, wait or teardown; no method other than [_run] is entered; and
    [process] returns, or raises the failure of the script, straight after
    it -- whatever the other options are. *)
Theorem run_override_is_the_only_command
    (W : World) (o : Options) (s : State) :
  Py.truthy (bootstrap_run o) = true ->
  let path := mkstemp_path W (n_tmp s) in
  exists r s' d,
    process W o s = (r, s') /\
    ops s' = ops s ++ d /\
    d = [Env path] /\
    lookup_file path (files s')
      = Some (mkFile (Py.str (bootstrap_run o)) 33216) /\
    Forall (fun x =>
              is_bootstrap x = false /\ is_add_model x = false /\
              is_pull x = false /\ is_deploy x = false /\
              is_config_set x = false /\ is_wait x = false /\
              is_teardown x = false) d /\
    calls s' = calls s ++ [M_process; M_run] /\
    (r = Ok tt \/
     exists err,
       r = Raise (SpecProcessException "Failure to bootstrap: {}" [err])).
Proof.
  intros H path.
  destruct (run_override W o s H) as (s' & E & O & C & F). fold path in E, O, F.
  eexists _, s', [Env path]. split; [exact E|].
  repeat (split; [assumption || reflexivity|]).
  split; [repeat constructor|]. split; [exact C|].
  destruct (exit (respond W (ops s) (Env path))); eauto.
Qed.

(** ** Deploy *)

Section Deploy.

Variable W : World.
Variable o : Options.

Lemma sh_call_eq (c : Op) (s : State) :
  sh_call W c s =
  (result_of_exit (exit (respond W (ops s) c)),
   mkState (ops s ++ [c]) (calls s) (logs s) (files s) (n_tmp s) (n_uuid s)).
Proof.
  unfold sh_call, bind, issue, check_exit. cbn.
  destruct (exit (respond W (ops s) c)); reflexivity.
Qed.

Lemma deploy_flags_eq (t : list string) (s : State) :
  deploy_flags W o t s =
  (Ok (t ++ flags_after_target o (mkstemp_path W (n_tmp s))), after_overlay W o s).
Proof.
  unfold deploy_flags, flags_after_target, after_overlay.
  destruct (Py.truthy (deploy_bundle o) && Py.truthy (deploy_overlay o))%bool;
    unfold bind, mkstemp, write_text, set_files, ret; cbn;
    rewrite ?String.eqb_refl, <- ?app_assoc; reflexivity.
Qed.

Lemma deploy_from_target (t : list string) (s s1 : State) :
  deploy_target W o
    (mkState (ops s) (calls s ++ [M_deploy]) (logs s) (files s)
             (n_tmp s) (n_uuid s)) = (Ok t, s1) ->
  let args := t ++ flags_after_target o (mkstemp_path W (n_tmp s1)) in
  exists s',
    _deploy W o s =
      (deploy_result args
         (exit (respond W (ops s1) (Shell (deploy_cmdline args)))), s') /\
    ops s' = ops s1 ++ [Shell (deploy_cmdline args)] /\
    files s' = files (after_overlay W o s1) /\
    n_tmp s' = n_tmp (after_overlay W o s1).
Proof.
  intros T args. unfold _deploy.
  unfold bind at 1. cbn [enter].
  unfold bind at 1. rewrite T.
  unfold bind at 1. rewrite deploy_flags_eq. fold args.
  unfold bind, log, issue. cbn -[deploy_cmdline].
  assert (O : ops (after_overlay W o s1) = ops s1).
  { unfold after_overlay. now destruct (_ && _)%bool. }
  rewrite O.
  destruct (exit (respond W (ops s1) (Shell (deploy_cmdline args))));
    cbn -[deploy_cmdline]; eexists; (split; [reflexivity|]);
    cbn -[deploy_cmdline]; rewrite ?O; auto.
Qed.

Lemma deploy_target_raises (e : Exn) (s s1 : State) :
  deploy_target W o
    (mkState (ops s) (calls s ++ [M_deploy]) (logs s) (files s)
             (n_tmp s) (n_uuid s)) = (Raise e, s1) ->
  _deploy W o s = (Raise e, s1).
Proof.
  intros T. unfold _deploy. unfold bind at 1. cbn [enter].
  unfold bind at 1. now rewrite T.
Qed.

Lemma deploy_target_charmstore (s : State) :
  Py.truthy (deploy_charm o) = false ->
  Py.truthy (deploy_bundle o) = true ->
  Py.startswith "cs:" (Py.str (deploy_bundle o)) = true ->
  let args := [Py.str (deploy_bundle o)] ++
              (if Py.truthy (deploy_channel o)
               then ["--channel"; Py.str (deploy_channel o); charm_pull_path W s]
               else []) in
  deploy_target W o s =
  (match exit (respond W (ops s) (CharmPull args)) with
   | ExitOk =>
       Ok ["-m"; _fmt_controller_model o;
           (charm_pull_path W s ++ "/bundle.yaml")%string]
   | ExitError c out err => Raise (ErrorReturnCode c out err)
   end,
   mkState (ops s ++ [CharmPull args]) (calls s)
           (logs s ++ [mkLog DEBUG "Charm pull: {}" args])
           (files s) (n_tmp s) (S (n_uuid s))).
Proof.
  intros C B P args. unfold deploy_target. rewrite C, B, P. cbn [andb].
  unfold bind at 1. cbn [uuid4_str]. fold (charm_pull_path W s). fold args.
  unfold bind at 1. cbn [log].
  unfold bind at 1. rewrite sh_call_eq.
  cbn [ops calls logs files n_tmp n_uuid].
  destruct (exit (respond W (ops s) (CharmPull args))); reflexivity.
Qed.

Lemma deploy_target_charm (s : State) :
  Py.truthy (deploy_charm o) = true ->
  deploy_target W o s =
  (Ok ["-m"; _fmt_controller_model o; Py.str (deploy_charm o)], s).
Proof. intros C. unfold deploy_target. now rewrite C. Qed.


End Deploy.

(** ** Deploy arguments *)

(** C10.  When the target is a charm (charm set, bundle not set), a
    non-empty overlay changes nothing: the one command [_deploy] issues is
    [juju deploy -m <controller>:<model> <charm>] followed by the channel,
    constraints, series and force flags only, no temporary file is created,
    and nothing is raised on account of the overlay. *)
Theorem overlay_ignored_for_charm (W : World) (o : Options) (s : State) :
  Py.truthy (deploy_charm o) = true ->
  Py.truthy (deploy_bundle o) = false ->
  Py.truthy (deploy_overlay o) = true ->
  let args :=
    ["-m"; _fmt_controller_model o; Py.str (deploy_charm o)] ++
    (if Py.truthy (deploy_channel o)
     then ["--channel"; Py.str (deploy_channel o)] else []) ++
    (if Py.truthy (deploy_constraints o)
     then ["--constraints"; ("'" ++ Py.str (deploy_constraints o) ++ "'")%string]
     else []) ++
    (if Py.truthy (deploy_series o)
     then ["--series"; Py.str (deploy_series o)] else []) ++
    (if force o then ["--force"] else []) in
  exists s',
    _deploy W o s =
      (deploy_result args (exit (respond W (ops s) (Shell (deploy_cmdline args)))),
       s') /\
    ops s' = ops s ++ [Shell (deploy_cmdline args)] /\
    files s' = files s /\
    n_tmp s' = n_tmp s.
Proof.
  intros C B V args.
  destruct (deploy_from_target W o _ s _ (deploy_target_charm W o _ C))
    as (s' & E & O & F & T).
  unfold flags_after_target, after_overlay in *. rewrite B in *.
  cbn [andb app ops files n_tmp] in *.
  exists s'. fold args in E, O. auto.
Qed.

Lemma overlay_ignored_for_charm_witness :
  Py.truthy (deploy_charm Examples.charm_with_overlay) = true /\
  Py.truthy (deploy_bundle Examples.charm_with_overlay) = false /\
  Py.truthy (deploy_overlay Examples.charm_with_overlay) = true /\
  exists s',
    _deploy Examples.calm Examples.charm_with_overlay initial = (Ok tt, s') /\
    ops s' = [Shell "juju deploy -m c1:m1 cs:~containers/etcd --channel edge"] /\
    files s' = [] /\
    n_tmp s' = 0.
Proof.
  repeat (split; [reflexivity|]).
  exact (overlay_ignored_for_charm Examples.calm Examples.charm_with_overlay
           initial eq_refl eq_refl eq_refl).
Defined.




(** C3, where the code departs from it.  For a charmstore bundle deployed
    without a channel, the pull is given the bundle reference alone: the
    local path is not among its arguments, although the deploy command that
    follows names the manifest under that path. *)
Theorem charm_pull_without_channel_gets_no_path
    (W : World) (o : Options) (s : State) :
  Py.truthy (deploy_charm o) = false ->
  Py.truthy (deploy_bundle o) = true ->
  Py.startswith "cs:" (Py.str (deploy_bundle o)) = true ->
  Py.truthy (deploy_channel o) = false ->
  let path :=
    (gettempdir W ++ "/" ++ Py.pop (Py.split "-"%char (uuid4 W (n_uuid s))))%string in
  exists r s' rest,
    _deploy W o s = (r, s') /\
    ops s' = ops s ++ CharmPull [Py.str (deploy_bundle o)] :: rest /\
    (rest = [] \/
     exists flags,
       rest = [Shell (deploy_cmdline
                        (["-m"; _fmt_controller_model o;
                          (path ++ "/bundle.yaml")%string] ++ flags))]).
Proof.
  intros C B P Ch path.
  set (s0 := mkState (ops s) (calls s ++ [M_deploy]) (logs s) (files s)
                     (n_tmp s) (n_uuid s)).
  pose proof (deploy_target_charmstore W o s0 C B P) as T.
  cbv zeta in T. rewrite Ch in T.
  cbn [ops calls logs files n_tmp n_uuid s0 app] in T.
  change (charm_pull_path W s0) with path in T.
  destruct (exit (respond W (ops s) (CharmPull [Py.str (deploy_bundle o)])))
    as [|c out err] eqn:X.
  - destruct (deploy_from_target W o _ s _ T) as (s' & E & O & _).
    cbn [ops n_tmp] in E, O.
    eexists _, s', _. split; [exact E|]. split.
    + rewrite O, <- app_assoc. reflexivity.
    + right. eexists. reflexivity.
  - eexists _, _, []. split; [exact (deploy_target_raises W o _ s _ T)|].
    split; [reflexivity | now left].
Qed.

Lemma charm_pull_without_channel_gets_no_path_witness :
  Py.truthy (deploy_charm Examples.charmstore_no_channel) = false /\
  Py.truthy (deploy_bundle Examples.charmstore_no_channel) = true /\
  Py.startswith "cs:" (Py.str (deploy_bundle Examples.charmstore_no_channel))
    = true /\
  Py.truthy (deploy_channel Examples.charmstore_no_channel) = false /\
  exists r s' rest,
    _deploy Examples.calm Examples.charmstore_no_channel initial = (r, s') /\
    ops s' = [] ++ CharmPull ["cs:~org/bundle"] :: rest /\
    (rest = [] \/
     exists flags,
       rest = [Shell (deploy_cmdline
                        (["-m"; "c1:m1"; "/tmp/5d6f7a8b9c0d/bundle.yaml"]
                         ++ flags))]).
Proof.
  repeat (split; [reflexivity|]).
  exact (charm_pull_without_channel_gets_no_path
           Examples.calm Examples.charmstore_no_channel initial
           eq_refl eq_refl eq_refl eq_refl).
Defined.

(** The run at that input, evaluated. *)
Example charm_pull_without_channel_run :
  ops (snd (_deploy Examples.calm Examples.charmstore_no_channel initial)) =
    [CharmPull ["cs:~org/bundle"];
     Shell "juju deploy -m c1:m1 /tmp/5d6f7a8b9c0d/bundle.yaml"].
Proof. reflexivity. Qed.

(** With a channel, the pull does get the path the deploy command uses. *)
Lemma charm_pull_with_channel (W : World) (o : Options) (s : State) :
  Py.truthy (deploy_charm o) = false ->
  Py.truthy (deploy_bundle o) = true ->
  Py.startswith "cs:" (Py.str (deploy_bundle o)) = true ->
  Py.truthy (deploy_channel o) = true ->
  let path :=
    (gettempdir W ++ "/" ++ Py.pop (Py.split "-"%char (uuid4 W (n_uuid s))))%string in
  exists r s' rest,
    _deploy W o s = (r, s') /\
    ops s' = ops s ++
             CharmPull [Py.str (deploy_bundle o); "--channel";
                        Py.str (deploy_channel o); path] :: rest /\
    (rest = [] \/
     exists flags,
       rest = [Shell (deploy_cmdline
                        (["-m"; _fmt_controller_model o;
                          (path ++ "/bundle.yaml")%string] ++ flags))]).
Proof.
  intros C B P Ch path.
  set (s0 := mkState (ops s) (calls s ++ [M_deploy]) (logs s) (files s)
                     (n_tmp s) (n_uuid s)).
  pose proof (deploy_target_charmstore W o s0 C B P) as T.
  cbv zeta in T. rewrite Ch in T.
  cbn [ops calls logs files n_tmp n_uuid s0 app] in T.
  change (charm_pull_path W s0) with path in T.
  match type of T with
  | context [CharmPull ?a] => set (args := a) in *
  end.
  destruct (exit (respond W (ops s) (CharmPull args))) as [|c out err] eqn:X.
  - destruct (deploy_from_target W o _ s _ T) as (s' & E & O & _).
    cbn [ops n_tmp] in E, O.
    eexists _, s', _. split; [exact E|]. split.
    + rewrite O, <- app_assoc. reflexivity.
    + right. eexists. reflexivity.
  - eexists _, _, []. split; [exact (deploy_target_raises W o _ s _ T)|].
    split; [reflexivity | now left].
Qed.

(** ** Lifecycle *)

Lemma count_app {A} (f : A -> bool) (l1 l2 : list A) :
  count f (l1 ++ l2) = count f l1 + count f l2.
Proof. unfold count. now rewrite filter_app, length_app. Qed.

Lemma count_none {A} (f : A -> bool) (l : list A) :
  Forall (fun x => f x = false) l -> count f l = 0.
Proof.
  unfold count. induction 1 as [|x l H _ IH]; cbn; [reflexivity|].
  now rewrite H.
Qed.

Lemma in_firstn {A} (x : A) (n : nat) (l : list A) :
  In x (firstn n l) -> In x l.
Proof.
  intros H. rewrite <- (firstn_skipn n l). apply in_or_app. now left.
Qed.

Lemma ops_after_enter (m : Method) (s s0 : State) :
  run (enter m) s (Ok tt) s0 [] [m] -> ops s0 = ops s.
Proof. intros (_ & O & _). now rewrite O, app_nil_r. Qed.

Lemma plan_without_bootstrap (o : Options) :
  deploy_reuse o = true -> ~ In PBootstrap (plan o).
Proof.
  intros H. unfold plan. rewrite H. cbn [negb andb app].
  destruct (deploy o), (bootstrap_disable_add_model o), (teardown o);
    cbn; intuition discriminate.
Qed.

Lemma issued_outside_bootstrap (o : Options) (p : Phase) (x : Op) :
  p <> PBootstrap -> issued_by o p x -> is_bootstrap x = false.
Proof.
  destruct p; cbn [issued_by]; intros N I; try congruence.
  - now subst x.
  - now destruct x.
  - destruct I as (a & b & ->). reflexivity.
  - destruct I as (-> & _). reflexivity.
  - now subst x.
Qed.

(** C9.  With [deploy.reuse] true no bootstrap command is issued and
    [_bootstrap] is never entered, whatever the other options say. *)
Theorem reuse_skips_bootstrap (W : World) (o : Options) (s : State) :
  deploy_reuse o = true ->
  exists r s' d c,
    process W o s = (r, s') /\
    ops s' = ops s ++ d /\
    calls s' = calls s ++ c /\
    Forall (fun x => is_bootstrap x = false) d /\
    ~ In M_bootstrap c.
Proof.
  intros H. destruct (Py.truthy (bootstrap_run o)) eqn:Rn.
  - destruct (run_override W o s Rn) as (s' & E & O & C & _).
    eexists _, s', _, _. repeat split; [exact E | exact O | exact C | |].
    + repeat constructor.
    + cbn. intuition discriminate.
  - destruct (run_process W o s Rn) as (r & s' & d & c & (E & O & C & _) & P).
    exists r, s', d, (M_process :: c). repeat split; auto.
    + eapply Forall_impl; [|exact (phases_issued W o _ _ _ _ _ P)].
      intros x (p & I & J). apply (issued_outside_bootstrap o p); [|exact J].
      intros ->. now apply (plan_without_bootstrap o H).
    + intros [D | I]; [discriminate|].
      destruct (phases_calls W o _ _ _ _ _ P) as (n & -> & _).
      apply in_flat_map in I. destruct I as (p & I & J).
      apply in_firstn in I.
      destruct p; cbn in J; try (intuition discriminate).
      now apply (plan_without_bootstrap o H).
Qed.

Lemma reuse_skips_bootstrap_witness :
  deploy_reuse Examples.reuse_and_bootstrap = true /\
  bootstrap Examples.reuse_and_bootstrap = true /\
  exists r s' d c,
    process Examples.calm Examples.reuse_and_bootstrap initial = (r, s') /\
    ops s' = ops initial ++ d /\
    calls s' = calls initial ++ c /\
    Forall (fun x => is_bootstrap x = false) d /\
    ~ In M_bootstrap c.
Proof.
  split; [reflexivity|]. split; [reflexivity|].
  exact (reuse_skips_bootstrap Examples.calm Examples.reuse_and_bootstrap
           initial eq_refl).
Defined.

Lemma bootstrap_outcome_head (W : World) (o : Options) h r d :
  bootstrap_outcome W o h r d -> exists t, d = bootstrap_op o :: t.
Proof. destruct 1; eauto. Qed.

(** C5, as the code has it.  Without a run override, when
    [bootstrap.replace-controller] and [bootstrap] are set and
    [deploy.reuse] is not, the first command of the run is the teardown and
    the second is the bootstrap, whatever the teardown answered; when the
    teardown fails, the failure is logged at debug level and nothing is
    raised for it. *)
Theorem replace_controller_teardown_then_bootstrap
    (W : World) (o : Options) (s : State) :
  Py.truthy (bootstrap_run o) = false ->
  bootstrap_replace_controller o = true ->
  bootstrap o = true ->
  deploy_reuse o = false ->
  exists r s' rest,
    process W o s = (r, s') /\
    ops s' = ops s ++ teardown_op o :: Juju (bootstrap_cmd_args o) :: rest /\
    (forall c out err,
        exit (respond W (ops s) (teardown_op o)) = ExitError c out err ->
        In (mkLog DEBUG
              "Could not destroy controller: {}, no teardown performed." [err])
           (logs s')).
Proof.
  intros Rn Rp Bo Re.
  rewrite (process_as_plan W o s Rn). unfold plan. rewrite Re, Bo.
  cbn [negb andb app for_each method_of].
  set (rest := (if deploy o then _ else _) ++ _).
  destruct (run_enter M_process s) as (s0 & R0 & _).
  pose proof (ops_after_enter _ _ _ R0) as H0.
  destruct (run_bootstrap W o s0) as (r1 & s1 & d1 & R1 & B1 & L1).
  destruct (bootstrap_outcome_head _ _ _ _ _ B1) as (t & ->).
  unfold bootstrap_pre in R1. rewrite Rp in R1. rewrite H0 in L1.
  destruct r1 as [[]|e].
  - destruct (run_phases W o rest s1) as (r & s' & d2 & c2 & R2 & _).
    pose proof (run_seq _ _ _ _ _ _ _ _ _ _ R0
                  (run_seq _ _ _ _ _ _ _ _ _ _ R1 R2)) as (E & O & _).
    exists r, s', (t ++ d2). split; [exact E|]. split.
    + rewrite O. reflexivity.
    + intros c out err X. destruct R2 as (_ & G2).
      eapply grows_logged; [exact G2|]. exact (L1 Rp c out err X).
  - pose proof (run_seq _ _ _ _ _ _ _ _ _ _ R0
                  (run_seq_raise _ (for_each rest (method_of W o))
                                 _ _ _ _ _ R1)) as (E & O & _).
    exists (Raise e), s1, t. split; [exact E|]. split.
    + rewrite O. reflexivity.
    + exact (L1 Rp).
Qed.

Lemma replace_controller_teardown_then_bootstrap_witness :
  Py.truthy (bootstrap_run Examples.replace_and_bootstrap) = false /\
  bootstrap_replace_controller Examples.replace_and_bootstrap = true /\
  bootstrap Examples.replace_and_bootstrap = true /\
  deploy_reuse Examples.replace_and_bootstrap = false /\
  exit (respond Examples.no_controller []
          (teardown_op Examples.replace_and_bootstrap))
    = ExitError 1 "" "ERROR controller c1 not found" /\
  exists r s' rest,
    process Examples.no_controller Examples.replace_and_bootstrap initial
      = (r, s') /\
    ops s' = [] ++ Juju ["destroy-controller"; "--destroy-all-models";
                         "--destroy-storage"; "-y"; "c1"]
                :: Juju ["bootstrap"; "aws"; "c1"] :: rest /\
    (forall c out err,
        exit (respond Examples.no_controller []
                (teardown_op Examples.replace_and_bootstrap))
          = ExitError c out err ->
        In (mkLog DEBUG
              "Could not destroy controller: {}, no teardown performed." [err])
           (logs s')).
Proof.
  repeat (split; [reflexivity|]).
  exact (replace_controller_teardown_then_bootstrap
           Examples.no_controller Examples.replace_and_bootstrap initial
           eq_refl eq_refl eq_refl eq_refl).
Defined.

(** C5 as stated fails under a run override: replace-controller and
    bootstrap are set, reuse is not, and the only command of the run is the
    override script -- neither teardown nor bootstrap. *)
Lemma replace_controller_skipped_by_override :
  bootstrap_replace_controller Examples.override_with_replace = true /\
  bootstrap Examples.override_with_replace = true /\
  deploy_reuse Examples.override_with_replace = false /\
  ops (snd (process Examples.calm Examples.override_with_replace initial))
    = [Env "/tmp/tmp"] /\
  existsb is_teardown
    (ops (snd (process Examples.calm Examples.override_with_replace initial)))
    = false /\
  existsb is_bootstrap
    (ops (snd (process Examples.calm Examples.override_with_replace initial)))
    = false.
Proof. vm_compute. repeat split. Qed.

Lemma bootstrap_outcome_disabled (W : World) (o : Options) h r d :
  bootstrap_disable_add_model o = true ->
  bootstrap_outcome W o h r d ->
  d = [bootstrap_op o] /\
  (r = Ok tt \/
   exists out,
     r = Raise (SpecProcessException "Unable to bootstrap:\n {}" [out])).
Proof.
  intros D B. destruct B as [c out err X | X _ | X D']; [eauto | auto |].
  congruence.
Qed.

Lemma issued_after_model (o : Options) (p : Phase) (x : Op) :
  In p [PDeploy; PConfigure; PWait; PTeardown] -> issued_by o p x ->
  is_add_model x = false /\ is_bootstrap x = false.
Proof.
  intros [<- | [<- | [<- | [<- | []]]]]; cbn [issued_by]; intros I.
  - now destruct x.
  - destruct I as (a & b & ->). split; reflexivity.
  - destruct I as (-> & _). split; reflexivity.
  - subst x. split; reflexivity.
Qed.

(** C6, as the code has it.  Without a run override, with
    [bootstrap.disable-add-model] and [deploy] set: the run first issues
    the commands of the bootstrap phase, if that phase runs (the optional
    teardown and the bootstrap; no add-model is among them).  What follows
    is decided by the exit status of the bootstrap command.  If it failed,
    the run stops there with the exception of the bootstrap, and no
    add-model is issued.  If it succeeded, or if the bootstrap phase is
    skipped, the next command is the add-model, and it is the only
    add-model of the run: every later command (pull, deploy, config, wait,
    teardown) is neither an add-model nor a bootstrap; and when the
    add-model itself fails it is the last command and the run ends with
    its exception. *)
Theorem add_model_once_after_bootstrap_before_deploy
    (W : World) (o : Options) (s : State) :
  Py.truthy (bootstrap_run o) = false ->
  bootstrap_disable_add_model o = true ->
  deploy o = true ->
  let pre :=
    if negb (deploy_reuse o) && bootstrap o
    then (if bootstrap_replace_controller o then [teardown_op o] else [])
         ++ [Juju (bootstrap_cmd_args o)]
    else [] in
  let bootstrap_exit :=
    if negb (deploy_reuse o) && bootstrap o
    then exit (respond W
                 (ops s ++ (if bootstrap_replace_controller o
                            then [teardown_op o] else []))
                 (Juju (bootstrap_cmd_args o)))
    else ExitOk in
  exists r s' post,
    process W o s = (r, s') /\
    ops s' = ops s ++ pre ++ post /\
    Forall (fun x => is_add_model x = false /\ is_deploy x = false /\
                     is_pull x = false) pre /\
    match bootstrap_exit with
    | ExitError _ out _ =>
        post = [] /\ count is_add_model (pre ++ post) = 0 /\
        r = Raise (SpecProcessException "Unable to bootstrap:\n {}" [out])
    | ExitOk =>
        exists rest,
          post = add_model_op o :: rest /\
          Forall (fun x => is_add_model x = false /\ is_bootstrap x = false)
                 rest /\
          count is_add_model (pre ++ post) = 1 /\
          (forall c out err,
              exit (respond W (ops s ++ pre) (add_model_op o))
                = ExitError c out err ->
              rest = [] /\
              r = Raise (SpecProcessException "Failed to add model: {}" [err]))
    end.
Proof.
  intros Rn D Dp pre bootstrap_exit.
  destruct (run_process W o s Rn) as (r & s' & d & c & (E & O & _) & P).
  assert (PL : plan o =
               (if negb (deploy_reuse o) && bootstrap o
                then [PBootstrap] else []) ++
               PAddModel :: [PDeploy; PConfigure; PWait] ++
                            (if teardown o then [PTeardown] else [])).
  { unfold plan. now rewrite D, Dp. }
  rewrite PL in P. clear PL.
  assert (Fpre : Forall (fun x => is_add_model x = false /\
                                  is_deploy x = false /\ is_pull x = false)
                        pre).
  { unfold pre. destruct (negb (deploy_reuse o) && bootstrap o)%bool;
      [|constructor].
    destruct (bootstrap_replace_controller o); repeat constructor. }
  assert (Cpre : count is_add_model pre = 0).
  { apply count_none. eapply Forall_impl; [|exact Fpre]. now intros x (A & _). }
  assert (After : forall h r d c,
             phases W o h
               (PAddModel :: [PDeploy; PConfigure; PWait] ++
                (if teardown o then [PTeardown] else [])) r d c ->
             exists rest,
               d = add_model_op o :: rest /\
               Forall (fun x => is_add_model x = false /\
                                is_bootstrap x = false) rest /\
               (forall x out err,
                   exit (respond W h (add_model_op o)) = ExitError x out err ->
                   rest = [] /\
                   r = Raise (SpecProcessException "Failed to add model: {}"
                                [err]))).
  { intros h0 r0 d0 c0 Q.
    inversion Q as [| ? ? ? d1 c1 ? d2 c2 A Q2 | ? ? ? e d1 c1 A]; subst.
    - destruct A as (_ & -> & R). exists d2. split; [reflexivity|]. split.
      + eapply Forall_impl; [|exact (phases_issued W o _ _ _ _ _ Q2)].
        intros x (p & I & J). apply (issued_after_model o p); [|exact J].
        cbn in I. destruct (teardown o); cbn in I; cbn; tauto.
      + intros x out err X. rewrite X in R. discriminate.
    - destruct A as (_ & -> & R). exists [].
      split; [reflexivity|]. split; [constructor|].
      intros x out err X. rewrite X in R. cbn in R.
      split; [reflexivity | exact R]. }
  assert (Once : forall rest,
             Forall (fun x => is_add_model x = false /\
                              is_bootstrap x = false) rest ->
             count is_add_model (pre ++ add_model_op o :: rest) = 1).
  { intros rest F. rewrite count_app, Cpre.
    change (add_model_op o :: rest) with ([add_model_op o] ++ rest).
    rewrite count_app, (count_none is_add_model rest); [reflexivity|].
    eapply Forall_impl; [|exact F]. now intros x (A & _). }
  unfold pre, bootstrap_exit in *. clear pre bootstrap_exit.
  destruct (negb (deploy_reuse o) && bootstrap o)%bool; cbn [app] in P.
  - fold (bootstrap_pre o) in *. fold (bootstrap_op o) in *.
    inversion P as [| ? ? ? d1 c1 ? d2 c2 A Q | ? ? ? e d1 c1 A]; subst.
    + destruct A as (_ & t & -> & B).
      inversion B as [| X D' | X D' R]; subst; [|congruence].
      rewrite X.
      destruct (After _ _ _ _ Q) as (rest & -> & F & Fail).
      exists r, s', (add_model_op o :: rest).
      split; [exact E|]. split; [|split; [exact Fpre|]].
      * rewrite O. now rewrite <- !app_assoc.
      * exists rest. split; [reflexivity|]. split; [exact F|].
        split; [now apply Once|].
        intros x out err Y. exact (Fail x out err Y).
    + destruct A as (_ & t & -> & B).
      inversion B as [x out err X | | X D' R]; subst; [|congruence].
      rewrite X.
      exists (Raise (SpecProcessException "Unable to bootstrap:\n {}" [out])),
             s', [].
      split; [exact E|]. split; [|split; [exact Fpre|]].
      * rewrite O, app_nil_r. reflexivity.
      * rewrite app_nil_r. auto.
  - destruct (After _ _ _ _ P) as (rest & -> & F & Fail).
    exists r, s', (add_model_op o :: rest).
    split; [exact E|]. split; [exact O|]. split; [constructor|].
    exists rest. split; [reflexivity|]. split; [exact F|].
    split; [now apply (Once rest)|].
    intros x out err Y. apply (Fail x out err).
    now rewrite app_nil_r in Y.
Qed.

Lemma add_model_once_after_bootstrap_before_deploy_witness :
  Py.truthy (bootstrap_run Examples.model_added_late) = false /\
  bootstrap_disable_add_model Examples.model_added_late = true /\
  deploy Examples.model_added_late = true /\
  exit (respond Examples.calm [] (Juju ["bootstrap"; "aws"; "c1"])) = ExitOk /\
  exists r s' post,
    process Examples.calm Examples.model_added_late initial = (r, s') /\
    ops s' = [] ++ [Juju ["bootstrap"; "aws"; "c1"]] ++ post /\
    Forall (fun x => is_add_model x = false /\ is_deploy x = false /\
                     is_pull x = false)
           [Juju ["bootstrap"; "aws"; "c1"]] /\
    exists rest,
      post = Juju ["add-model"; "-c"; "c1"; "m1"; "aws"] :: rest /\
      Forall (fun x => is_add_model x = false /\ is_bootstrap x = false)
             rest /\
      count is_add_model ([Juju ["bootstrap"; "aws"; "c1"]] ++ post) = 1 /\
      (forall c out err,
          exit (respond Examples.calm ([] ++ [Juju ["bootstrap"; "aws"; "c1"]])
                  (Juju ["add-model"; "-c"; "c1"; "m1"; "aws"]))
            = ExitError c out err ->
          rest = [] /\
          r = Raise (SpecProcessException "Failed to add model: {}" [err])).
Proof.
  repeat (split; [reflexivity|]).
  exact (add_model_once_after_bootstrap_before_deploy
           Examples.calm Examples.model_added_late initial
           eq_refl eq_refl eq_refl).
Defined.

(** The run of that intent, evaluated. *)
Example model_added_late_run :
  ops (snd (process Examples.calm Examples.model_added_late initial)) =
    [Juju ["bootstrap"; "aws"; "c1"];
     Juju ["add-model"; "-c"; "c1"; "m1"; "aws"];
     Shell "juju deploy -m c1:m1 bundles/k8s.yaml --channel edge";
     JujuWait ["-e"; "c1:m1"; "-w"; "-r3"] (Some 7200%Z)].
Proof. reflexivity. Qed.

(** C6 as stated fails in two ways: under a run override, and when the
    bootstrap fails, no add-model is issued at all although
    disable-add-model and deploy are both set. *)
Lemma add_model_missing_without_bootstrap_success :
  bootstrap_disable_add_model Examples.override_model_added_late = true /\
  deploy Examples.override_model_added_late = true /\
  count is_add_model
    (ops (snd (process Examples.calm Examples.override_model_added_late
                       initial))) = 0 /\
  bootstrap_disable_add_model Examples.model_added_late = true /\
  deploy Examples.model_added_late = true /\
  process Examples.bootstrap_fails Examples.model_added_late initial =
    (Raise (SpecProcessException "Unable to bootstrap:\n {}"
              ["ERROR cloud aws not found"]),
     mkState [Juju ["bootstrap"; "aws"; "c1"]] [M_process; M_bootstrap]
             [mkLog DEBUG "Juju bootstrap cmd > {}" ["bootstrap"; "aws"; "c1"]]
             [] 0 0) /\
  count is_add_model
    (ops (snd (process Examples.bootstrap_fails Examples.model_added_late
                       initial))) = 0.
Proof. vm_compute. repeat split. Qed.

(** ** Counting wait steps *)








Section WaitCount.

Variable W : World.
Variable o : Options.

Lemma issued_outside_wait (p : Phase) (x : Op) :
  p <> PWait -> issued_by o p x -> is_wait x = false.
Proof.
  destruct p; cbn [issued_by]; intros N I; try congruence.
  - destruct I as [(-> & _) | [-> | (-> & _)]]; reflexivity.
  - now subst x.
  - now destruct x.
  - destruct I as (a & b & ->). reflexivity.
  - now subst x.
Qed.



End WaitCount.

(** ** The older package module *)












Section LegacyWait.

Variable W : World.
Variable o : Legacy.Options.






End LegacyWait.




(** The runs of the two modules on the same deployment, evaluated. *)
Example legacy_deploy_and_wait_run :
  fst (Legacy.process Examples.calm Examples.legacy_deploy_and_wait initial)
    = Ok tt /\
  calls (snd (Legacy.process Examples.calm Examples.legacy_deploy_and_wait
                             initial))
    = [M_process; M_deploy; M_wait; M_wait] /\
  ops (snd (Legacy.process Examples.calm Examples.legacy_deploy_and_wait
                           initial)) =
    [Juju ["deploy"; "-m"; "c1:m1"; "bundles/k8s.yaml"];
     JujuWait ["-e"; "c1:m1"; "-w"; "-r3"; "-t14400"] None;
     Juju ["config"; "-m"; "c1:m1"; "app1"; "x=true"];
     JujuWait ["-e"; "c1:m1"; "-w"; "-r3"; "-t14400"] None].
Proof. vm_compute. repeat split. Qed.


(** ** Configuration *)



Section Configuration.

Variable W : World.
Variable o : Options.


End Configuration.


Lemma plan_around_configure (o : Options) :
  deploy o = true ->
  exists before after,
    plan o = before ++ PConfigure :: after /\
    ~ In PConfigure before /\ ~ In PConfigure after.
Proof.
  intros Dp. unfold plan. rewrite Dp.
  exists ((if negb (deploy_reuse o) && bootstrap o then [PBootstrap] else []) ++
          (if bootstrap_disable_add_model o then [PAddModel] else []) ++
          [PDeploy]),
         (PWait :: if teardown o then [PTeardown] else []).
  destruct (negb (deploy_reuse o) && bootstrap o)%bool,
    (bootstrap_disable_add_model o), (teardown o); cbn;
    (split; [reflexivity|]); split; intuition discriminate.
Qed.



Lemma conflicts_raises_before_any_command_witness :
  Py.truthy (deploy_bundle Examples.bundle_and_charm) = true /\
  Py.truthy (deploy_charm Examples.bundle_and_charm) = true /\
  (exists s',
      conflicts Examples.bundle_and_charm initial
        = (Raise (SpecConfigException conflict_message), s') /\
      ops s' = ops initial) /\
  (forall k : M unit,
      exists s',
        (conflicts Examples.bundle_and_charm ;; k) initial
          = (Raise (SpecConfigException conflict_message), s') /\
        ops s' = ops initial) /\
  ops (snd ((conflicts Examples.bundle_and_charm ;;
             process Examples.calm Examples.bundle_and_charm) initial)) = [].
Proof.
  split; [reflexivity|]. split; [reflexivity|].
  exact (conflicts_raises_before_any_command
           Examples.calm Examples.bundle_and_charm initial eq_refl eq_refl).
Defined.

Lemma run_override_is_the_only_command_witness :
  Py.truthy (bootstrap_run Examples.override_with_replace) = true /\
  bootstrap Examples.override_with_replace = true /\
  deploy Examples.override_with_replace = true /\
  deploy_wait Examples.override_with_replace = true /\
  exists r s' d,
    process Examples.calm Examples.override_with_replace initial = (r, s') /\
    ops s' = [] ++ d /\
    d = [Env "/tmp/tmp"] /\
    lookup_file "/tmp/tmp" (files s')
      = Some (mkFile "juju bootstrap aws c1 --debug" 33216) /\
    Forall (fun x =>
              is_bootstrap x = false /\ is_add_model x = false /\
              is_pull x = false /\ is_deploy x = false /\
              is_config_set x = false /\ is_wait x = false /\
              is_teardown x = false) d /\
    calls s' = [] ++ [M_process; M_run] /\
    (r = Ok tt \/
     exists err,
       r = Raise (SpecProcessException "Failure to bootstrap: {}" [err])).
Proof.
  repeat (split; [reflexivity|]).
  exact (run_override_is_the_only_command
           Examples.calm Examples.override_with_replace initial eq_refl).
Defined.

(** * More of the plugin *)

(** ** File modes *)

Lemma read_mask_bit (n : Z) :
  (0 <= n)%Z ->
  Z.testbit 292 n = ((n =? 2) || (n =? 5) || (n =? 8))%Z.
Proof.
  intros N. destruct (Z_lt_le_dec n 9) as [L | L].
  - assert (E : (n = 0 \/ n = 1 \/ n = 2 \/ n = 3 \/ n = 4 \/ n = 5 \/ n = 6 \/
                 n = 7 \/ n = 8)%Z) by lia.
    destruct E as [-> | [-> | [-> | [-> | [-> | [-> | [-> | [-> | ->]]]]]]]];
      reflexivity.
  - rewrite Z.bits_above_log2; [|lia|].
    + symmetry. repeat (apply orb_false_intro); apply Z.eqb_neq; lia.
    + change (Z.log2 292) with 8%Z. lia.
Qed.

Lemma executable_mode_bit (m i : Z) :
  (0 <= i)%Z ->
  Z.testbit (Z.lor m (Z.shiftr (Z.land m 292) 2)) i
  = (Z.testbit m i || (exec_bit i && Z.testbit m (i + 2)))%bool.
Proof.
  intros I.
  rewrite Z.lor_spec, Z.shiftr_spec, Z.land_spec by lia.
  rewrite read_mask_bit by lia. unfold exec_bit.
  replace (i + 2 =? 2)%Z with (i =? 0)%Z by (destruct (Z.eqb_spec i 0),
    (Z.eqb_spec (i + 2) 2); lia || reflexivity).
  replace (i + 2 =? 5)%Z with (i =? 3)%Z by (destruct (Z.eqb_spec i 3),
    (Z.eqb_spec (i + 2) 5); lia || reflexivity).
  replace (i + 2 =? 8)%Z with (i =? 6)%Z by (destruct (Z.eqb_spec i 6),
    (Z.eqb_spec (i + 2) 8); lia || reflexivity).
  now rewrite (andb_comm (Z.testbit m (i + 2))).
Qed.

(** What [_make_executable] does to a file that exists. *)
Lemma make_executable_eq (path : string) (s : State) (f : File) :
  lookup_file path (files s) = Some f ->
  _make_executable path s
  = (Ok tt,
     mkState (ops s) (calls s) (logs s)
       ((path, mkFile (content f)
                 (Z.lor (mode f) (Z.shiftr (Z.land (mode f) 292) 2)))
        :: files s)
       (n_tmp s) (n_uuid s)).
Proof.
  intros L. unfold _make_executable, chmod, stat, bind, set_files.
  now rewrite !L.
Qed.

(** X1.  [_make_executable] on a file that exists leaves its content, keeps
    every bit of its mode, and sets each execute bit (others, group,
    owner) whose read bit is set -- nothing else; doing it twice is the
    same as doing it once; no command is issued.  On a missing file it
    raises and changes nothing. *)
Theorem make_executable_copies_read_to_execute (path : string) (s : State) :
  match lookup_file path (files s) with
  | None => _make_executable path s = (Raise FileNotFoundError, s)
  | Some f =>
      exists s' m',
        _make_executable path s = (Ok tt, s') /\
        ops s' = ops s /\
        lookup_file path (files s') = Some (mkFile (content f) m') /\
        (forall i, (0 <= i)%Z ->
           Z.testbit m' i
           = (Z.testbit (mode f) i
              || (exec_bit i && Z.testbit (mode f) (i + 2)))%bool) /\
        exists s'',
          _make_executable path s' = (Ok tt, s'') /\
          lookup_file path (files s'') = Some (mkFile (content f) m')
  end.
Proof.
  destruct (lookup_file path (files s)) as [f|] eqn:L.
  - set (m' := Z.lor (mode f) (Z.shiftr (Z.land (mode f) 292) 2)).
    assert (Idem : Z.lor m' (Z.shiftr (Z.land m' 292) 2) = m').
    { apply Z.bits_inj'. intros i I. rewrite executable_mode_bit by exact I.
      unfold m'. rewrite !executable_mode_bit by lia.
      assert (X : (exec_bit i && exec_bit (i + 2))%bool = false).
      { unfold exec_bit.
        destruct (Z.eqb_spec i 0), (Z.eqb_spec i 3), (Z.eqb_spec i 6),
          (Z.eqb_spec (i + 2) 0), (Z.eqb_spec (i + 2) 3),
          (Z.eqb_spec (i + 2) 6); lia || reflexivity. }
      destruct (exec_bit i), (exec_bit (i + 2)); try discriminate X;
        destruct (Z.testbit (mode f) i), (Z.testbit (mode f) (i + 2)),
          (Z.testbit (mode f) (i + 2 + 2)); reflexivity. }
    rewrite (make_executable_eq path s f L). fold m'.
    eexists _, m'. split; [reflexivity|]. cbn [ops files lookup_file].
    rewrite String.eqb_refl.
    split; [reflexivity|]. split; [reflexivity|].
    split; [intros i I; now apply executable_mode_bit|].
    eexists. split.
    + apply make_executable_eq. cbn [files lookup_file].
      now rewrite String.eqb_refl.
    + cbn [files lookup_file content mode]. rewrite String.eqb_refl.
      now rewrite Idem.
  - unfold _make_executable, chmod, stat, bind. now rewrite L.
Qed.

(** ** Configuration entries *)

Lemma split_length (s : string) :
  length (Py.split " " s) = S (spaces s).
Proof.
  induction s as [|c s IH]; [reflexivity|].
  cbn [Py.split spaces]. destruct (Ascii.eqb c " ").
  - cbn [length]. now rewrite IH.
  - destruct (Py.split " " s); cbn [length] in *; [discriminate | exact IH].
Qed.

Lemma split_join (s : string) :
  Py.join " " (Py.split " " s) = s.
Proof.
  unfold Py.join. induction s as [|c s IH]; [reflexivity|].
  cbn [Py.split]. destruct (Ascii.eqb_spec c " ") as [-> | N].
  - pose proof (split_length s) as L.
    destruct (Py.split " " s) as [|w ws]; [discriminate|].
    cbn [String.concat]. cbn [String.concat] in IH. now rewrite IH.
  - pose proof (split_length s) as L.
    destruct (Py.split " " s) as [|w ws]; [discriminate|].
    destruct ws; cbn [String.concat append] in *; now rewrite IH.
Qed.

Lemma split_fields (s : string) :
  Forall (fun w => has_space w = false) (Py.split " " s).
Proof.
  induction s as [|c s IH]; [now repeat constructor|].
  cbn [Py.split]. destruct (Ascii.eqb c " ") eqn:E.
  - now constructor.
  - destruct (Py.split " " s) as [|w ws].
    + constructor; [cbn [has_space]; now rewrite E | constructor].
    + inversion IH as [|? ? Fw Fws]; subst. constructor; [|assumption].
      cbn [has_space]. now rewrite E.
Qed.

Lemma split_in_two (c : string) :
  (spaces c = 1 /\
   exists a b, Py.split " " c = [a; b] /\ c = (a ++ " " ++ b)%string /\
               has_space a = false /\ has_space b = false) \/
  (spaces c <> 1 /\ forall a b, Py.split " " c <> [a; b]).
Proof.
  pose proof (split_length c) as L. pose proof (split_join c) as J.
  pose proof (split_fields c) as F.
  destruct (Nat.eq_dec (spaces c) 1) as [E | N].
  - left. split; [exact E|]. rewrite E in L.
    destruct (Py.split " " c) as [|a [|b [|x l]]]; try discriminate L.
    exists a, b. inversion F as [|? ? Fa F']; inversion F' as [|? ? Fb _]; subst.
    repeat split; auto.
  - right. split; [exact N|]. intros a b E. rewrite E in L. cbn in L. lia.
Qed.

(** X2.  An entry of [config] is applied only when it holds exactly one
    space: it is then the application, the space and the setting, neither
    of which holds a space, and one [juju config] command is issued for
    them, whose failure is raised as it is.  Any other entry raises
    [ValueError] with nothing issued and nothing logged. *)
Theorem config_entry_needs_exactly_one_space
    (W : World) (o : Options) (c : string) (s : State) :
  (spaces c = 1 /\
   exists a b s',
     c = (a ++ " " ++ b)%string /\
     has_space a = false /\ has_space b = false /\
     config_set W o c s
       = (result_of_exit (exit (respond W (ops s) (config_op o a b))), s') /\
     ops s' = ops s ++ [config_op o a b]) \/
  (spaces c <> 1 /\ config_set W o c s = (Raise ValueError, s)).
Proof.
  destruct (split_in_two c) as [(E & a & b & S & C & Fa & Fb) | (N & S)].
  - left. split; [exact E|].
    destruct (run_config_set W o c s)
      as [(a' & b' & s' & S' & (R & O & _)) | (S' & _)].
    + rewrite S in S'. injection S' as <- <-.
      exists a, b, s'. repeat split; assumption.
    + now destruct (S' a b).
  - right. split; [exact N|].
    destruct (run_config_set W o c s)
      as [(a' & b' & s' & S' & _) | (_ & (R & _))].
    + now destruct (S a' b').
    + exact R.
Qed.

(** ** The deploy step, case by case *)

Section DeployCases.

Variable W : World.
Variable o : Options.

(** The state [_deploy] hands to its first test. *)
Lemma deploy_target_plain (b : string) (s : State) :
  pulls_bundle o = false ->
  Py.truthy (deploy_charm o) = false ->
  deploy_bundle o = Some b ->
  deploy_target W o s = (Ok ["-m"; _fmt_controller_model o; b], s).
Proof.
  unfold pulls_bundle, deploy_target. intros P C B. rewrite C in *.
  cbn [negb andb] in P. rewrite P, B. reflexivity.
Qed.

Lemma deploy_target_missing (s : State) :
  Py.truthy (deploy_charm o) = false ->
  deploy_bundle o = None ->
  deploy_target W o s = (Raise TypeError, s).
Proof.
  unfold deploy_target. intros C B. rewrite C, B. reflexivity.
Qed.

Lemma deploy_cases (s : State) :
  exists r s' d,
    _deploy W o s = (r, s') /\ ops s' = ops s ++ d /\
    ((Py.truthy (deploy_charm o) = false /\ deploy_bundle o = None /\
      r = Raise TypeError /\ d = [] /\
      files s' = files s /\ n_tmp s' = n_tmp s) \/
     (pulls_bundle o = true /\
      exists args c out err,
        d = [CharmPull (Py.str (deploy_bundle o) :: args)] /\
        exit (respond W (ops s) (CharmPull (Py.str (deploy_bundle o) :: args)))
          = ExitError c out err /\
        r = Raise (ErrorReturnCode c out err) /\
        files s' = files s /\ n_tmp s' = n_tmp s) \/
     (exists pre args,
        d = pre ++ [Shell (deploy_cmdline args)] /\
        r = deploy_result args
              (exit (respond W (ops s ++ pre) (Shell (deploy_cmdline args)))) /\
        ((pulls_bundle o = false /\ pre = [] /\
          (Py.truthy (deploy_charm o) = true \/ deploy_bundle o <> None)) \/
         (pulls_bundle o = true /\
          exists pargs,
            pre = [CharmPull (Py.str (deploy_bundle o) :: pargs)] /\
            exit (respond W (ops s)
                    (CharmPull (Py.str (deploy_bundle o) :: pargs)))
              = ExitOk)))).
Proof.
  set (s0 := mkState (ops s) (calls s ++ [M_deploy]) (logs s) (files s)
                     (n_tmp s) (n_uuid s)).
  destruct (Py.truthy (deploy_charm o)) eqn:C.
  { pose proof (deploy_target_charm W o s0 C) as T. unfold s0 in T.
    destruct (deploy_from_target W o _ s s0 T) as (s' & E & O & _).
    eexists _, s', _. split; [exact E|]. split; [exact O|].
    right; right. eexists [], _. split; [reflexivity|].
    rewrite app_nil_r. split; [reflexivity|]. left.
    unfold pulls_bundle. rewrite C. auto. }
  destruct (pulls_bundle o) eqn:P.
  - assert (P' := P). unfold pulls_bundle in P'. rewrite C in P'.
    cbn [negb andb] in P'. apply andb_prop in P' as (B & S).
    pose proof (deploy_target_charmstore W o s0 C B S) as T.
    cbn zeta in T.
    set (pargs := if Py.truthy (deploy_channel o)
                  then ["--channel"; Py.str (deploy_channel o);
                        charm_pull_path W s0]
                  else []) in *.
    unfold s0 in T. cbn [ops calls logs files n_tmp n_uuid] in T.
    change ([Py.str (deploy_bundle o)] ++ pargs)
      with (Py.str (deploy_bundle o) :: pargs) in T.
    destruct (exit (respond W (ops s)
                      (CharmPull (Py.str (deploy_bundle o) :: pargs))))
      as [|c out err] eqn:X.
    + destruct (deploy_from_target W o _ s _ T) as (s' & E & O & _).
      cbn [ops] in E, O. eexists _, s', _. split; [exact E|].
      split; [rewrite O, <- app_assoc; reflexivity|].
      right; right. eexists [_], _. split; [reflexivity|].
      split; [reflexivity|]. right. split; [reflexivity|].
      exists pargs. auto.
    + pose proof (deploy_target_raises W o _ s _ T) as E.
      eexists _, _, _. split; [exact E|]. split; [reflexivity|].
      right; left. split; [reflexivity|].
      exists pargs, c, out, err. auto.
  - destruct (deploy_bundle o) as [b|] eqn:B.
    + pose proof (deploy_target_plain b s0 P C B) as T. unfold s0 in T.
      destruct (deploy_from_target W o _ s s0 T) as (s' & E & O & _).
      eexists _, s', _. split; [exact E|]. split; [exact O|].
      right; right. eexists [], _. split; [reflexivity|].
      rewrite app_nil_r. split; [reflexivity|]. left.
      repeat split; auto. right. discriminate.
    + pose proof (deploy_target_missing s0 C B) as T. unfold s0 in T.
      pose proof (deploy_target_raises W o _ s _ T) as E.
      eexists _, _, []. split; [exact E|].
      split; [cbn; now rewrite app_nil_r|]. left. repeat split.
Qed.

End DeployCases.

Lemma pulls_bundle_has_bundle (o : Options) :
  pulls_bundle o = true ->
  Py.truthy (deploy_charm o) = false /\ deploy_bundle o <> None.
Proof.
  unfold pulls_bundle. intros P.
  apply andb_prop in P as (P & _). apply andb_prop in P as (C & B).
  split; [now destruct (Py.truthy (deploy_charm o))|].
  intros N. now rewrite N in B.
Qed.

Lemma deploy_result_cases (args : list string) (e : Exit) :
  (e = ExitOk /\ deploy_result args e = Ok tt) \/
  (exit_ok e = false /\
   deploy_result args e
     = Raise (SpecProcessException "Failed to deploy ({}): {}" args)).
Proof. destruct e; [left | right]; split; reflexivity. Qed.

(** X3.  [_deploy] pulls from the charmstore exactly when no charm is set
    and the bundle's name starts with [cs:] -- a charm takes precedence
    over such a bundle.  The pull is then the first command, it names the
    bundle first, and nothing else is pulled; whatever the options, at most
    one deploy command is issued. *)
Theorem deploy_pulls_exactly_charmstore_bundles
    (W : World) (o : Options) (s : State) :
  exists r s' d,
    _deploy W o s = (r, s') /\ ops s' = ops s ++ d /\
    count is_pull d = (if pulls_bundle o then 1 else 0) /\
    (pulls_bundle o = true ->
     exists args rest,
       d = CharmPull (Py.str (deploy_bundle o) :: args) :: rest /\
       Forall (fun x => is_pull x = false) rest) /\
    count is_deploy d <= 1.
Proof.
  destruct (deploy_cases W o s) as (r & s' & d & E & O & H).
  exists r, s', d. split; [exact E|]. split; [exact O|].
  destruct H as [(C & B & _ & -> & _)
                | [(P & args & c & out & err & -> & _)
                  | (pre & args & -> & _ &
                     [(P & -> & _) | (P & pargs & -> & _)])]].
  - assert (P : pulls_bundle o = false).
    { unfold pulls_bundle. now rewrite B, andb_false_r. }
    rewrite P. repeat split; [discriminate | cbn; lia].
  - rewrite P. repeat split; [|cbn; lia].
    intros _. exists args, []. split; [reflexivity | constructor].
  - rewrite P. repeat split; [discriminate | cbn; lia].
  - rewrite P. repeat split; [|cbn; lia].
    intros _. exists pargs, [Shell (deploy_cmdline args)].
    split; [reflexivity | now repeat constructor].
Qed.

(** X4.  [_deploy] raises [TypeError] exactly when there is nothing to
    deploy: the charm is unset or empty and the bundle is absent.  It has
    then issued no command and created no file, even when an overlay is
    set.  (An empty bundle name is not caught: it is deployed as it is.) *)
Theorem deploy_without_target_raises_type_error
    (W : World) (o : Options) (s : State) :
  exists r s',
    _deploy W o s = (r, s') /\
    (r = Raise TypeError <->
     Py.truthy (deploy_charm o) = false /\ deploy_bundle o = None) /\
    (r = Raise TypeError ->
     ops s' = ops s /\ files s' = files s /\ n_tmp s' = n_tmp s).
Proof.
  destruct (deploy_cases W o s) as (r & s' & d & E & O & H).
  exists r, s'. split; [exact E|].
  destruct H as [(C & B & -> & -> & F & N)
                | [(P & args & c & out & err & -> & _ & -> & _)
                  | (pre & args & -> & -> & H)]].
  - rewrite app_nil_r in O. repeat split; auto.
  - apply pulls_bundle_has_bundle in P as (_ & B).
    split; [split; [discriminate | now intros (_ & N)] | discriminate].
  - assert (T : deploy_result args
                  (exit (respond W (ops s ++ pre) (Shell (deploy_cmdline args))))
                <> Raise TypeError).
    { destruct (deploy_result_cases args
                  (exit (respond W (ops s ++ pre) (Shell (deploy_cmdline args)))))
        as [(_ & ->) | (_ & ->)]; discriminate. }
    split; [split; [intros X; now destruct T|] | intros X; now destruct T].
    intros (C & B).
    destruct H as [(_ & _ & [C' | B']) | (P & _)].
    + now rewrite C in C'.
    + now destruct B'.
    + apply pulls_bundle_has_bundle in P as (_ & B'). now destruct B'.
Qed.

(** X5.  What [_deploy] returns tells which command failed.  It returns
    normally exactly when its last command is the deploy command and that
    one exited with status 0.  A failed pull escapes as the
    [ErrorReturnCode] of [sh]: the pull is then the only command, no
    deploy command is issued and no overlay file is written.  A failed
    deploy command is reported as a [SpecProcessException] holding the
    argument list of that command. *)
Theorem deploy_result_tells_which_command_failed
    (W : World) (o : Options) (s : State) :
  exists r s' d,
    _deploy W o s = (r, s') /\ ops s' = ops s ++ d /\
    (r = Ok tt <->
     exists pre args,
       d = pre ++ [Shell (deploy_cmdline args)] /\
       exit (respond W (ops s ++ pre) (Shell (deploy_cmdline args))) = ExitOk) /\
    (forall c out err,
        r = Raise (ErrorReturnCode c out err) ->
        exists args,
          d = [CharmPull args] /\
          exit (respond W (ops s) (CharmPull args)) = ExitError c out err /\
          files s' = files s /\ n_tmp s' = n_tmp s) /\
    (forall t args,
        r = Raise (SpecProcessException t args) ->
        t = "Failed to deploy ({}): {}" /\
        exists pre,
          d = pre ++ [Shell (deploy_cmdline args)] /\
          exit_ok (exit (respond W (ops s ++ pre) (Shell (deploy_cmdline args))))
            = false).
Proof.
  destruct (deploy_cases W o s) as (r & s' & d & E & O & H).
  exists r, s', d. split; [exact E|]. split; [exact O|].
  destruct H as [(C & B & -> & -> & F & N)
                | [(P & pargs & c & out & err & -> & X & -> & F & N)
                  | (pre & args & -> & -> & H)]].
  - split; [split; [discriminate|] | split; discriminate].
    intros (pre & args & D & _). now destruct pre.
  - split; [split; [discriminate|] | split; [|discriminate]].
    + intros (pre & args & D & _).
      destruct pre as [|x [|y pre]]; discriminate.
    + intros c' out' err' R. injection R as <- <- <-. eauto.
  - destruct (deploy_result_cases args
                (exit (respond W (ops s ++ pre) (Shell (deploy_cmdline args)))))
      as [(X & ->) | (X & ->)].
    + split; [split; eauto | split; discriminate].
    + split; [split; [discriminate|] | split; [discriminate|]].
      * intros (pre' & args' & D & X').
        apply app_inj_tail in D as (<- & D).
        rewrite <- D in X'. rewrite X' in X. discriminate.
      * intros t args' R. injection R as <- <-. eauto.
Qed.

(** ** Runs that return and runs that raise *)

Lemma succeeded_in_turn_app (W : World) (h d1 d2 : list Op) :
  succeeded_in_turn W h (d1 ++ d2) <->
  succeeded_in_turn W h d1 /\ succeeded_in_turn W (h ++ d1) d2.
Proof.
  revert h. induction d1 as [|x d1 IH]; intros h; cbn [app succeeded_in_turn].
  - rewrite app_nil_r. tauto.
  - rewrite IH, <- app_assoc. cbn [app]. tauto.
Qed.

Lemma stopped_app (W : World) (o : Options) (h d1 d2 : list Op) (e : Exn) :
  succeeded_in_turn W h d1 -> stopped W o (h ++ d1) d2 e ->
  stopped W o h (d1 ++ d2) e.
Proof.
  intros S [(d0 & x & -> & S0 & R) | (S2 & H)].
  - left. exists (d1 ++ d0), x. rewrite app_assoc. split; [reflexivity|].
    split; [now apply succeeded_in_turn_app|]. now rewrite app_assoc.
  - right. split; [now apply succeeded_in_turn_app | exact H].
Qed.

Lemma succeeded_no_wait (W : World) (h : list Op) (x : Op) :
  is_wait x = false -> exit (respond W h x) = ExitOk -> succeeded W h x.
Proof. intros N X. split; [exact X|]. intros Y. now rewrite N in Y. Qed.

Lemma exit_error_not_ok (e : Exit) c out err :
  e = ExitError c out err -> exit_ok e = false.
Proof. now intros ->. Qed.

Section Stops.

Variable W : World.
Variable o : Options.

Lemma bootstrap_pre_succeeded (h : list Op) :
  succeeded_in_turn W h (bootstrap_pre o).
Proof.
  unfold bootstrap_pre. destruct (bootstrap_replace_controller o); cbn; auto.
Qed.

Lemma add_model_result_ok (e : Exit) :
  add_model_result e = Ok tt -> e = ExitOk.
Proof. now destruct e. Qed.

Lemma add_model_result_raise (e : Exit) (x : Exn) :
  add_model_result e = Raise x ->
  exit_ok e = false /\ exists t vs, x = SpecProcessException t vs.
Proof. destruct e; [discriminate|]. intros [= <-]. eauto. Qed.

Lemma bootstrap_ok (h d : list Op) :
  bootstrap_outcome W o h (Ok tt) d -> succeeded_in_turn W h d.
Proof.
  intros H. inversion H as [| X D | X D R]; subst.
  - cbn. split; [right; now apply succeeded_no_wait | exact I].
  - apply add_model_result_ok in R.
    cbn. split; [right; now apply succeeded_no_wait|].
    split; [right; now apply succeeded_no_wait | exact I].
Qed.

Lemma bootstrap_stopped (h d : list Op) (e : Exn) :
  bootstrap_outcome W o h (Raise e) d -> stopped W o h d e.
Proof.
  intros H. inversion H as [c out err X | | X D R]; subst.
  - left. exists [], (bootstrap_op o). rewrite app_nil_r.
    split; [reflexivity|]. split; [exact I|].
    cbn. rewrite X. repeat split.
  - apply add_model_result_raise in R as (N & t & vs & ->).
    left. exists [bootstrap_op o], (add_model_op o).
    split; [reflexivity|].
    split; [cbn; split; [right; now apply succeeded_no_wait | exact I]|].
    cbn. repeat split. exact N.
Qed.

Lemma pulled_succeeded (h pre : list Op) :
  pulled W h pre -> succeeded_in_turn W h pre.
Proof.
  intros [-> | (args & -> & X)]; [exact I|].
  cbn. split; [right; now apply succeeded_no_wait | exact I].
Qed.

Lemma deploy_ok (h d : list Op) :
  deploy_outcome W o h (Ok tt) d -> succeeded_in_turn W h d.
Proof.
  intros H. inversion H as [| | pre args P X |]; subst.
  apply succeeded_in_turn_app. split; [now apply pulled_succeeded|].
  cbn -[deploy_cmdline]. split; [right; now apply succeeded_no_wait | exact I].
Qed.

Lemma deploy_stopped (h d : list Op) (e : Exn) :
  deploy_outcome W o h (Raise e) d -> stopped W o h d e.
Proof.
  intros H. inversion H as [C B | args c out err X | | pre args P X]; subst.
  - right. split; [exact I|]. left. auto.
  - left. exists [], (CharmPull args). rewrite app_nil_r.
    split; [reflexivity|]. split; [exact I|]. cbn. auto.
  - left. exists pre, (Shell (deploy_cmdline args)).
    split; [reflexivity|]. split; [now apply pulled_succeeded|].
    cbn -[deploy_cmdline]. auto.
Qed.

Lemma config_ok (h : list Op) (cs : list string) (d : list Op) :
  config_outcome W o h cs (Ok tt) d -> succeeded_in_turn W h d.
Proof.
  intros H. remember (Ok tt) as r eqn:R.
  induction H as [h | h c cs N | h c cs a b x out err S X
                 | h c cs a b r d S X H IH]; try discriminate R.
  - exact I.
  - cbn. split; [right; now apply succeeded_no_wait | now apply IH].
Qed.

Lemma config_stopped (h : list Op) (cs : list string) (d : list Op) (e : Exn) :
  config_outcome W o h cs (Raise e) d ->
  (forall c, In c cs -> In c (config o)) ->
  stopped W o h d e.
Proof.
  intros H. remember (Raise e) as r eqn:R.
  induction H as [h | h c cs N | h c cs a b x out err S X
                 | h c cs a b r d S X H IH]; intros Sub; try discriminate R.
  - injection R as <-. right. split; [exact I|]. right.
    split; [reflexivity|]. exists c. split; [apply Sub; now left|].
    destruct (split_in_two c) as [(_ & a & b & S & _) | (Sp & _)];
      [now destruct (N a b) | exact Sp].
  - injection R as <-. left. exists [], (config_op o a b).
    rewrite app_nil_r. split; [reflexivity|]. split; [exact I|].
    cbn. auto.
  - apply (stopped_app W o h [config_op o a b] d e).
    + cbn. split; [right; now apply succeeded_no_wait | exact I].
    + apply IH; [exact R|]. intros c' I'. apply Sub. now right.
Qed.

Lemma phase_ok (h : list Op) (p : Phase) (d : list Op) (c : list Method) :
  phase_outcome W o h p (Ok tt) d c -> succeeded_in_turn W h d.
Proof.
  destruct p; cbn [phase_outcome].
  - intros (_ & d2 & -> & H). apply succeeded_in_turn_app.
    split; [apply bootstrap_pre_succeeded | now apply bootstrap_ok].
  - intros (_ & -> & R). symmetry in R. apply add_model_result_ok in R.
    cbn. split; [right; now apply succeeded_no_wait | exact I].
  - intros (_ & H). now apply deploy_ok.
  - intros (_ & H). now apply (config_ok h (config o)).
  - intros (_ & -> & R). destruct (deploy_wait o); [|exact I].
    unfold wait_result in R.
    destruct (timed_out W h (wait_op o)) eqn:T; [discriminate|].
    destruct (exit (respond W h (wait_op o))) eqn:X; [|discriminate].
    cbn. split; [right; split; auto | exact I].
  - intros (_ & -> & _). cbn. auto.
Qed.

Lemma phase_stopped (h : list Op) (p : Phase) (e : Exn) (d : list Op)
    (c : list Method) :
  phase_outcome W o h p (Raise e) d c -> stopped W o h d e.
Proof.
  destruct p; cbn [phase_outcome].
  - intros (_ & d2 & -> & H). apply stopped_app;
      [apply bootstrap_pre_succeeded | now apply bootstrap_stopped].
  - intros (_ & -> & R). symmetry in R.
    apply add_model_result_raise in R as (N & t & vs & ->).
    left. exists [], (add_model_op o). rewrite app_nil_r.
    split; [reflexivity|]. split; [exact I|]. cbn. auto.
  - intros (_ & H). now apply deploy_stopped.
  - intros (_ & H). apply (config_stopped h (config o)); auto.
  - intros (_ & -> & R). destruct (deploy_wait o); [|discriminate].
    left. exists [], (wait_op o). rewrite app_nil_r.
    split; [reflexivity|]. split; [exact I|].
    unfold wait_result in R.
    destruct (timed_out W h (wait_op o)) eqn:T.
    + injection R as ->. cbn. auto.
    + destruct (exit (respond W h (wait_op o))) eqn:X; [discriminate|].
      injection R as ->. cbn. rewrite X. auto.
  - intros (_ & _ & R). discriminate.
Qed.

Lemma phases_ok (h : list Op) (ps : list Phase) (d : list Op)
    (c : list Method) :
  phases W o h ps (Ok tt) d c -> succeeded_in_turn W h d.
Proof.
  intros H. remember (Ok tt) as r eqn:R.
  induction H as [h | h p ps d c r d' c' P H IH | h p ps e d c P];
    [exact I | | discriminate].
  apply succeeded_in_turn_app. split; [now apply (phase_ok h p d c) | auto].
Qed.

Lemma phases_stopped (h : list Op) (ps : list Phase) (e : Exn) (d : list Op)
    (c : list Method) :
  phases W o h ps (Raise e) d c -> stopped W o h d e.
Proof.
  intros H. remember (Raise e) as r eqn:R.
  induction H as [h | h p ps d c r d' c' P H IH | h p ps e' d c P];
    [discriminate | |].
  - apply stopped_app; [now apply (phase_ok h p d c) | auto].
  - injection R as ->. now apply (phase_stopped h p e d c).
Qed.

End Stops.

Lemma process_verdict (W : World) (o : Options) (s : State) :
  exists r s' d,
    process W o s = (r, s') /\ ops s' = ops s ++ d /\
    (r = Ok tt -> succeeded_in_turn W (ops s) d) /\
    (forall e, r = Raise e -> stopped W o (ops s) d e).
Proof.
  destruct (Py.truthy (bootstrap_run o)) eqn:B.
  - destruct (run_override W o s B) as (s' & E & O & _).
    set (path := mkstemp_path W (n_tmp s)) in *.
    eexists _, s', [Env path]. split; [exact E|]. split; [exact O|].
    destruct (exit (respond W (ops s) (Env path))) as [|c out err] eqn:X.
    + split; [|discriminate]. intros _. cbn.
      split; [right; now apply succeeded_no_wait | exact I].
    + split; [discriminate|]. intros e [= <-].
      left. exists [], (Env path). rewrite app_nil_r.
      split; [reflexivity|]. split; [exact I|]. cbn. rewrite X. auto.
  - destruct (run_process W o s B) as (r & s' & d & c & (E & O & _) & P).
    exists r, s', d. split; [exact E|]. split; [exact O|]. split.
    + intros ->. now apply (phases_ok W o _ _ _ _ P).
    + intros e ->. now apply (phases_stopped W o _ _ _ _ _ P).
Qed.

Lemma raised_by_not_succeeded (W : World) (o : Options) (h : list Op)
    (x : Op) (e : Exn) :
  raised_by W o h x e -> ~ (is_teardown x = true \/ succeeded W h x).
Proof.
  intros R [T | (X & Wt)]; destruct e; cbn in R; try contradiction.
  - destruct R as (_ & _ & N & _). now rewrite T in N.
  - destruct R as ([P | C] & _); destruct x as [| [|w l] | | |];
      try discriminate.
    cbn in T, C. apply String.eqb_eq in T, C. subst w. discriminate.
  - destruct R as (-> & _). discriminate.
  - destruct R as (_ & _ & _ & N). now rewrite X in N.
  - destruct R as (_ & N). now rewrite X in N.
  - destruct R as (-> & N). rewrite Wt in N; [discriminate | reflexivity].
Qed.

Lemma phases_around_deploy_result (W : World) (o : Options) h ps r d c :
  phases W o h ps r d c ->
  (forall p, In p ps -> p = PBootstrap \/ p = PTeardown) ->
  r = Ok tt \/ exists t vs, r = Raise (SpecProcessException t vs).
Proof.
  intros P.
  induction P as [h | h p ps d c r d' c' Q P IH | h p ps e d c Q]; intros Sub.
  - now left.
  - apply IH. intros q Iq. apply Sub. now right.
  - right. destruct (Sub p (or_introl eq_refl)) as [-> | ->];
      cbn [phase_outcome] in Q.
    + destruct Q as (_ & d2 & _ & Q).
      inversion Q as [? ? ? ? | | ? ? R]; subst; [eauto|].
      pose proof R as R'.
      apply add_model_result_raise in R' as (_ & t & vs & ->).
      exists t, vs. exact R.
    + destruct Q as (_ & _ & Q). discriminate.
Qed.

Lemma process_without_deploy_result (W : World) (o : Options) (s : State)
    r s' :
  deploy o = false -> process W o s = (r, s') ->
  r = Ok tt \/ exists t vs, r = Raise (SpecProcessException t vs).
Proof.
  intros Dp E. destruct (Py.truthy (bootstrap_run o)) eqn:B.
  - destruct (run_override W o s B) as (s1 & E1 & _).
    rewrite E in E1. injection E1 as -> _.
    destruct (exit (respond W (ops s) (Env (mkstemp_path W (n_tmp s)))));
      eauto.
  - destruct (run_process W o s B) as (r1 & s1 & d1 & c1 & (E1 & _) & P).
    rewrite E in E1. injection E1 as <- _.
    apply (phases_around_deploy_result W o _ _ _ _ _ P).
    unfold plan. rewrite Dp. intros p I.
    destruct (negb (deploy_reuse o) && bootstrap o)%bool, (teardown o);
      cbn in I; intuition.
Qed.

(** X6.  Every command of a run other than a teardown ended well (exit
    status 0, the wait within its time) exactly when [process] returned or
    raised one of the two exceptions that come from the options and not
    from a command: [TypeError] and [ValueError].  So a normal return
    guarantees that bootstrap, model, pull, deploy, every configuration
    and the wait all succeeded, and no failure of theirs is swallowed. *)
Theorem process_returns_only_if_every_command_succeeded
    (W : World) (o : Options) (s : State) :
  exists r s' d,
    process W o s = (r, s') /\ ops s' = ops s ++ d /\
    (succeeded_in_turn W (ops s) d <->
     r = Ok tt \/ r = Raise TypeError \/ r = Raise ValueError).
Proof.
  destruct (process_verdict W o s) as (r & s' & d & E & O & Hok & Hstop).
  exists r, s', d. split; [exact E|]. split; [exact O|]. split.
  - intros S. destruct r as [[]|e]; [now left|].
    destruct (Hstop e eq_refl) as [(d0 & x & -> & _ & R) | (_ & [(-> & _) | (-> & _)])];
      [| now right; left | now right; right].
    apply succeeded_in_turn_app in S as (_ & S). cbn in S.
    destruct S as (S & _). now destruct (raised_by_not_succeeded W o _ _ _ R).
  - intros [-> | [-> | ->]]; [now apply Hok | |].
    + destruct (Hstop _ eq_refl) as [(d0 & x & _ & _ & R) | (S & _)];
        [contradiction R | exact S].
    + destruct (Hstop _ eq_refl) as [(d0 & x & _ & _ & R) | (S & _)];
        [contradiction R | exact S].
Qed.

(** X7.  [process] stops at the first failure, and the exception tells
    where.  When it raises, every command before the last ended well and
    the last one did not: a wait out of time gives [TimeoutException], a
    failed pull or [juju config] gives the [ErrorReturnCode] of [sh]
    uncaught, any other failed command a [SpecProcessException]; or else
    all commands ended well and the options are at fault ([TypeError]: no
    deploy target; [ValueError]: a malformed config entry).  It never
    raises a configuration exception, [AttributeError] or
    [FileNotFoundError]. *)
Theorem process_stops_at_first_failure
    (W : World) (o : Options) (s : State) :
  exists r s' d,
    process W o s = (r, s') /\ ops s' = ops s ++ d /\
    (forall e, r = Raise e ->
       ((exists d0 x,
            d = d0 ++ [x] /\ succeeded_in_turn W (ops s) d0 /\
            raised_by W o (ops s ++ d0) x e) \/
        (succeeded_in_turn W (ops s) d /\
         ((e = TypeError /\ deploy o = true /\
           Py.truthy (deploy_charm o) = false /\ deploy_bundle o = None) \/
          (e = ValueError /\ deploy o = true /\
           exists c, In c (config o) /\ spaces c <> 1)))) /\
       (forall m, e <> SpecConfigException m) /\
       e <> AttributeError /\ e <> FileNotFoundError).
Proof.
  destruct (process_verdict W o s) as (r & s' & d & E & O & _ & Hstop).
  exists r, s', d. split; [exact E|]. split; [exact O|].
  intros e ->. pose proof (Hstop e eq_refl) as H.
  assert (D : e = TypeError \/ e = ValueError -> deploy o = true).
  { intros T. destruct (deploy o) eqn:Dp; [reflexivity|]. exfalso.
    destruct (process_without_deploy_result W o s _ _ Dp E)
      as [X | (t & vs & X)]; destruct T as [-> | ->]; discriminate. }
  split; [|repeat split].
  - destruct H as [H | (S & [(-> & C & B) | (-> & c & I)])].
    + now left.
    + right. split; [exact S|]. left. repeat split; auto.
    + right. split; [exact S|]. right. repeat split; eauto.
  - intros m ->.
    destruct H as [(? & ? & _ & _ & R) | (_ & [(X & _) | (X & _)])];
      [contradiction R | discriminate | discriminate].
  - intros ->.
    destruct H as [(? & ? & _ & _ & R) | (_ & [(X & _) | (X & _)])];
      [contradiction R | discriminate | discriminate].
  - intros ->.
    destruct H as [(? & ? & _ & _ & R) | (_ & [(X & _) | (X & _)])];
      [contradiction R | discriminate | discriminate].
Qed.

(** ** How many commands of each kind *)

Ltac verbs v :=
  destruct v; unfold count, bootstrap_op, bootstrap_cmd_args, deploy_cmdline;
  cbn;
  repeat match goal with
         | |- context [if ?b then _ else _] => destruct b eqn:?
         end;
  cbn; try reflexivity; try lia; try congruence.

Section Bill.

Variable W : World.
Variable o : Options.

Lemma config_outcome_length h cs r d :
  config_outcome W o h cs r d ->
  length d <= length cs /\ (r = Ok tt -> length d = length cs) /\
  Forall (fun x => exists a b, x = config_op o a b) d.
Proof.
  induction 1 as [h | h c cs N | h c cs a b x out err S X
                 | h c cs a b r d S X H (L & E & F)]; cbn [length].
  - repeat split; auto.
  - repeat split; [lia | discriminate | constructor].
  - repeat split; [lia | discriminate | repeat constructor; eauto].
  - repeat split; [lia | intros R; now rewrite (E R) | constructor; eauto].
Qed.

Lemma count_config_ops (v : Verb) (d : list Op) :
  Forall (fun x => exists a b, x = config_op o a b) d ->
  count (is_verb v) d = match v with VConfig => length d | _ => 0 end.
Proof.
  induction 1 as [|x d (a & b & ->) F IH].
  - now destruct v.
  - change (config_op o a b :: d) with ([config_op o a b] ++ d).
    rewrite count_app, IH. verbs v.
Qed.

Lemma count_bootstrap_pre (v : Verb) :
  count (is_verb v) (bootstrap_pre o)
  = match v with
    | VTeardown => if bootstrap_replace_controller o then 1 else 0
    | _ => 0
    end.
Proof.
  unfold bootstrap_pre. destruct (bootstrap_replace_controller o); verbs v.
Qed.

Lemma phase_allowance h p r d c (v : Verb) :
  phase_outcome W o h p r d c -> count (is_verb v) d <= allowance o v p.
Proof.
  destruct p; cbn [phase_outcome].
  - intros (_ & d2 & -> & H). rewrite count_app, count_bootstrap_pre.
    inversion H as [? ? ? X | X D | X D R]; subst; verbs v.
  - intros (_ & -> & _). verbs v.
  - intros (_ & H).
    inversion H as [| | pre args [-> | (pa & -> & _)] X
                   | pre args [-> | (pa & -> & _)] X]; subst; verbs v.
  - intros (_ & H). apply config_outcome_length in H as (L & _ & F).
    rewrite (count_config_ops v d F). destruct v; cbn; lia.
  - intros (_ & -> & _). verbs v.
  - intros (_ & -> & _). verbs v.
Qed.

(** When the phase returns, the allowance is used up (the pulls, which
    depend on the bundle, set aside). *)
Lemma phase_bill h p d c (v : Verb) :
  phase_outcome W o h p (Ok tt) d c -> v <> VPull ->
  count (is_verb v) d = allowance o v p.
Proof.
  destruct p; cbn [phase_outcome]; intros H N.
  - destruct H as (_ & d2 & -> & H). rewrite count_app, count_bootstrap_pre.
    inversion H as [| X D | X D R]; subst; verbs v.
  - destruct H as (_ & -> & _). verbs v.
  - destruct H as (_ & H).
    inversion H as [| | pre args [-> | (pa & -> & _)] X |]; subst;
      verbs v; now destruct N.
  - destruct H as (_ & H). apply config_outcome_length in H as (_ & E & F).
    rewrite (count_config_ops v d F), (E eq_refl). now destruct v.
  - destruct H as (_ & -> & _). verbs v.
  - destruct H as (_ & -> & _). verbs v.
Qed.

(** Teardowns are issued by a phase whether it returns or raises. *)
Lemma phase_teardowns h p r d c :
  phase_outcome W o h p r d c ->
  count (is_verb VTeardown) d = allowance o VTeardown p.
Proof.
  destruct p; cbn [phase_outcome allowance].
  - intros (_ & d2 & -> & H).
    rewrite count_app, (count_bootstrap_pre VTeardown).
    inversion H; subst; unfold count, bootstrap_op, bootstrap_cmd_args; cbn; lia.
  - now intros (_ & -> & _).
  - intros (_ & H).
    inversion H as [| | pre args [-> | (pa & -> & _)] X
                   | pre args [-> | (pa & -> & _)] X]; subst; reflexivity.
  - intros (_ & H). apply config_outcome_length in H as (_ & _ & F).
    exact (count_config_ops VTeardown d F).
  - intros (_ & -> & _). now destruct (deploy_wait o).
  - now intros (_ & -> & _).
Qed.

Lemma phases_allowance h ps r d c (v : Verb) :
  phases W o h ps r d c ->
  count (is_verb v) d <= list_sum (map (allowance o v) ps).
Proof.
  induction 1 as [h | h p ps d c r d' c' Q P IH | h p ps e d c Q];
    unfold list_sum in *; cbn [map fold_right].
  - verbs v.
  - rewrite count_app. pose proof (phase_allowance _ _ _ _ _ v Q). lia.
  - pose proof (phase_allowance _ _ _ _ _ v Q). lia.
Qed.

Lemma phases_bill h ps d c (v : Verb) :
  phases W o h ps (Ok tt) d c -> v <> VPull ->
  count (is_verb v) d = list_sum (map (allowance o v) ps).
Proof.
  intros P N. remember (Ok tt) as r eqn:R.
  induction P as [h | h p ps d c r d' c' Q P IH | h p ps e d c Q];
    unfold list_sum in *; cbn [map fold_right]; [verbs v | | discriminate].
  rewrite count_app, (phase_bill _ _ _ _ v Q N), (IH R). reflexivity.
Qed.

Lemma plan_allowance (v : Verb) :
  list_sum (map (allowance o v) (plan o)) <= at_most o v.
Proof.
  unfold plan. destruct v;
    repeat (cbn; match goal with
                 | |- context [if ?b then _ else _] => destruct b
                 end);
    cbn; lia.
Qed.

End Bill.

Lemma process_counts (W : World) (o : Options) (s : State) :
  exists r s' d,
    process W o s = (r, s') /\ ops s' = ops s ++ d /\
    (forall v, count (is_verb v) d <= at_most o v) /\
    (Py.truthy (bootstrap_run o) = false -> r = Ok tt ->
     forall v, v <> VPull ->
       count (is_verb v) d = list_sum (map (allowance o v) (plan o))).
Proof.
  destruct (Py.truthy (bootstrap_run o)) eqn:B.
  - destruct (run_override W o s B) as (s' & E & O & _).
    eexists _, s', _. split; [exact E|]. split; [exact O|].
    split; [|discriminate]. intros v. destruct v; cbn; lia.
  - destruct (run_process W o s B) as (r & s' & d & c & (E & O & _) & P).
    exists r, s', d. split; [exact E|]. split; [exact O|]. split.
    + intros v. pose proof (phases_allowance W o _ _ _ _ _ v P).
      pose proof (plan_allowance o v). lia.
    + intros _ -> v N. now apply (phases_bill W o _ _ _ _ v P).
Qed.

(** X8.  Whatever the options and whatever the commands answer, one run
    of [process] never bootstraps twice, never adds the model twice (the
    bootstrap phase and the deploy phase never both add it), never pulls
    or deploys twice, never waits twice; it issues at most one
    [juju config] per entry of [config] and at most two teardowns (the one
    that replaces the controller and the final one). *)
Theorem process_never_repeats_a_step (W : World) (o : Options) (s : State) :
  exists r s' d,
    process W o s = (r, s') /\ ops s' = ops s ++ d /\
    count is_bootstrap d <= 1 /\
    count is_add_model d <= 1 /\
    count is_pull d <= 1 /\
    count is_deploy d <= 1 /\
    count is_config_set d <= length (config o) /\
    count is_wait d <= 1 /\
    count is_teardown d <= 2.
Proof.
  destruct (process_counts W o s) as (r & s' & d & E & O & H & _).
  exists r, s', d. split; [exact E|]. split; [exact O|].
  repeat split.
  - exact (H VBootstrap).
  - exact (H VAddModel).
  - exact (H VPull).
  - exact (H VDeploy).
  - exact (H VConfig).
  - exact (H VWait).
  - exact (H VTeardown).
Qed.

(** X9.  The commands of a run that returns (no run override): the options
    fix how many of each kind were issued.  One bootstrap when bootstrap is
    asked for without reuse; one add-model, from the bootstrap phase unless
    disabled there, else from the deploy phase; with [deploy] set one
    deploy command, one [juju config] for every entry of [config] and one
    wait if asked for, none of them without it; one teardown for a
    replaced controller and one for the final teardown. *)
Theorem returned_run_issued_what_the_options_ask
    (W : World) (o : Options) (s : State) :
  Py.truthy (bootstrap_run o) = false ->
  exists r s' d,
    process W o s = (r, s') /\ ops s' = ops s ++ d /\
    (r = Ok tt ->
     let boot := (negb (deploy_reuse o) && bootstrap o)%bool in
     count is_bootstrap d = (if boot then 1 else 0) /\
     count is_add_model d
       = (if boot && negb (bootstrap_disable_add_model o)
             || deploy o && bootstrap_disable_add_model o
          then 1 else 0)%bool /\
     count is_deploy d = (if deploy o then 1 else 0) /\
     count is_config_set d = (if deploy o then length (config o) else 0) /\
     count is_wait d = (if deploy o && deploy_wait o then 1 else 0)%bool /\
     count is_teardown d
       = (if boot && bootstrap_replace_controller o then 1 else 0)%bool
         + (if teardown o then 1 else 0)).
Proof.
  intros B.
  destruct (process_counts W o s) as (r & s' & d & E & O & _ & H).
  exists r, s', d. split; [exact E|]. split; [exact O|].
  intros R. specialize (H B R). cbn zeta.
  change is_bootstrap with (is_verb VBootstrap).
  change is_add_model with (is_verb VAddModel).
  change is_deploy with (is_verb VDeploy).
  change is_config_set with (is_verb VConfig).
  change is_wait with (is_verb VWait).
  change is_teardown with (is_verb VTeardown).
  rewrite !H by discriminate. unfold plan.
  destruct (negb (deploy_reuse o) && bootstrap o)%bool eqn:E1,
    (deploy o) eqn:E2, (bootstrap_disable_add_model o) eqn:E3,
    (teardown o) eqn:E4, (bootstrap_replace_controller o) eqn:E5,
    (deploy_wait o) eqn:E6;
    cbn; rewrite ?E3, ?E5, ?E6; cbn; rewrite ?Nat.add_0_r;
    repeat split; reflexivity.
Qed.

(** ** Teardown *)

Section Teardown.

Variable W : World.
Variable o : Options.

Lemma plan_in_three :
  plan o =
  (if negb (deploy_reuse o) && bootstrap o then [PBootstrap] else []) ++
  (if deploy o
   then (if bootstrap_disable_add_model o then [PAddModel] else []) ++
        [PDeploy; PConfigure; PWait]
   else []) ++
  (if teardown o then [PTeardown] else []).
Proof. reflexivity. Qed.

Lemma phases_nil h r d c :
  phases W o h [] r d c -> r = Ok tt /\ d = [] /\ c = [].
Proof. intros H. inversion H; auto. Qed.

Lemma phases_bootstrap_teardowns h r d c :
  phases W o h
    (if negb (deploy_reuse o) && bootstrap o then [PBootstrap] else [])
    r d c ->
  count (is_verb VTeardown) d
  = if negb (deploy_reuse o) && bootstrap o && bootstrap_replace_controller o
    then 1 else 0.
Proof.
  destruct (negb (deploy_reuse o) && bootstrap o)%bool; cbn [andb]; intros H.
  - inversion H as [| ? ? ? d1 c1 ? d2 c2 P Q | ? ? ? e ? ? P]; subst.
    + apply phases_nil in Q as (_ & -> & _). rewrite app_nil_r.
      apply (phase_teardowns W o _ _ _ _ _ P).
    + apply (phase_teardowns W o _ _ _ _ _ P).
  - now apply phases_nil in H as (_ & -> & _).
Qed.

Lemma phases_deploy_teardowns h r d c :
  phases W o h
    (if deploy o
     then (if bootstrap_disable_add_model o then [PAddModel] else []) ++
          [PDeploy; PConfigure; PWait]
     else []) r d c ->
  count (is_verb VTeardown) d = 0.
Proof.
  intros H. pose proof (phases_allowance W o _ _ _ _ _ VTeardown H) as L.
  revert L. clear H.
  destruct (deploy o), (bootstrap_disable_add_model o); cbn; lia.
Qed.

Lemma phases_final_teardown h r d c :
  phases W o h (if teardown o then [PTeardown] else []) r d c ->
  r = Ok tt /\ d = if teardown o then [teardown_op o] else [].
Proof.
  destruct (teardown o); intros H.
  - inversion H as [| ? ? ? d1 c1 ? d2 c2 P Q | ? ? ? e ? ? P]; subst.
    + apply phases_nil in Q as (-> & -> & _).
      destruct P as (_ & -> & _). auto.
    + destruct P as (_ & _ & P). discriminate.
  - apply phases_nil in H as (-> & -> & _). auto.
Qed.

End Teardown.

(** X10.  The final teardown is performed only by a run that got through
    (no run override).  A run that returns with [teardown] set has the
    teardown as its last command.  A run that raises has not performed
    it: the only teardown it can have issued is the one that replaces the
    controller before a bootstrap -- so a failed deployment leaves the
    controller up although a teardown was asked for. *)
Theorem final_teardown_only_when_run_returns
    (W : World) (o : Options) (s : State) :
  Py.truthy (bootstrap_run o) = false ->
  exists r s' d,
    process W o s = (r, s') /\ ops s' = ops s ++ d /\
    (r = Ok tt -> teardown o = true -> exists d0, d = d0 ++ [teardown_op o]) /\
    (forall e, r = Raise e ->
       count is_teardown d
       = if negb (deploy_reuse o) && bootstrap o &&
            bootstrap_replace_controller o
         then 1 else 0).
Proof.
  intros B.
  destruct (run_process W o s B) as (r & s' & d & c & (E & O & _) & P).
  exists r, s', d. split; [exact E|]. split; [exact O|].
  rewrite plan_in_three in P.
  apply phases_app in P
    as [(d1 & c1 & d2 & c2 & -> & -> & P1 & P2) | (e & -> & P1)].
  - apply phases_app in P2
      as [(d3 & c3 & d4 & c4 & -> & -> & P3 & P4) | (e & -> & P3)].
    + apply phases_final_teardown in P4 as (-> & ->). split.
      * intros _ T. rewrite T. exists (d1 ++ d3). now rewrite app_assoc.
      * discriminate.
    + split; [discriminate|]. intros e' _.
      change is_teardown with (is_verb VTeardown). rewrite count_app.
      rewrite (phases_bootstrap_teardowns W o _ _ _ _ P1).
      rewrite (phases_deploy_teardowns W o _ _ _ _ P3). lia.
  - split; [discriminate|]. intros e' _.
    exact (phases_bootstrap_teardowns W o _ _ _ _ P1).
Qed.

(** X11.  Without [deploy] (and without run override) nothing of the
    deployment happens: no pull, no deploy command, no [juju config] --
    the entries of [config] are not even looked at -- and no wait; and
    when adding the model is disabled in the bootstrap no model is added
    at all.  Such a run returns or raises a [SpecProcessException]. *)
Theorem without_deploy_nothing_is_deployed
    (W : World) (o : Options) (s : State) :
  Py.truthy (bootstrap_run o) = false ->
  deploy o = false ->
  exists r s' d,
    process W o s = (r, s') /\ ops s' = ops s ++ d /\
    Forall (fun x => is_pull x = false /\ is_deploy x = false /\
                     is_config_set x = false /\ is_wait x = false) d /\
    (bootstrap_disable_add_model o = true ->
     Forall (fun x => is_add_model x = false) d) /\
    (r = Ok tt \/ exists t vs, r = Raise (SpecProcessException t vs)).
Proof.
  intros B D.
  destruct (run_process W o s B) as (r & s' & d & c & (E & O & _) & P).
  exists r, s', d. split; [exact E|]. split; [exact O|].
  assert (I : Forall (fun x => x = teardown_op o \/ x = bootstrap_op o \/
                               (x = add_model_op o /\
                                bootstrap_disable_add_model o = false)) d).
  { eapply Forall_impl; [|exact (phases_issued W o _ _ _ _ _ P)].
    intros x (p & Ip & Ix). unfold plan in Ip. rewrite D in Ip.
    destruct (negb (deploy_reuse o) && bootstrap o)%bool, (teardown o);
      cbn in Ip; intuition; subst p; cbn in Ix; intuition. }
  split; [|split].
  - eapply Forall_impl; [|exact I].
    intros x [-> | [-> | (-> & _)]]; repeat split.
  - intros A. eapply Forall_impl; [|exact I].
    intros x [-> | [-> | (-> & N)]]; [reflexivity | reflexivity |].
    now rewrite A in N.
  - exact (process_without_deploy_result W o s r s' D E).
Qed.

(** ** Bootstrap and wait *)

(** X12.  [_bootstrap], whatever its options: the teardown of a replaced
    controller comes first, the bootstrap command is always issued, and
    the model is added exactly when that command succeeded and adding it
    is not disabled.  A failed bootstrap is reported with what the command
    printed on its standard output (the other steps report the standard
    error), a failed add-model with its standard error. *)
Theorem bootstrap_adds_model_only_after_success
    (W : World) (o : Options) (s : State) :
  let h := ops s ++ (if bootstrap_replace_controller o
                     then [teardown_op o] else []) in
  let boot := Juju (bootstrap_cmd_args o) in
  exists r s',
    _bootstrap W o s = (r, s') /\
    ops s' = h ++ boot ::
             (if exit_ok (exit (respond W h boot)) &&
                 negb (bootstrap_disable_add_model o)
              then [add_model_op o] else []) /\
    r = match exit (respond W h boot) with
        | ExitError _ out _ =>
            Raise (SpecProcessException "Unable to bootstrap:\n {}" [out])
        | ExitOk =>
            if bootstrap_disable_add_model o then Ok tt
            else match exit (respond W (h ++ [boot]) (add_model_op o)) with
                 | ExitOk => Ok tt
                 | ExitError _ _ err =>
                     Raise (SpecProcessException "Failed to add model: {}"
                              [err])
                 end
        end.
Proof.
  cbn zeta. fold (bootstrap_pre o). fold (bootstrap_op o).
  destruct (run_bootstrap W o s) as (r & s' & d & (E & O & _) & B & _).
  exists r, s'. split; [exact E|]. rewrite O, <- app_assoc.
  inversion B as [c out err X | X D | X D R]; subst; rewrite X; cbn [exit_ok andb].
  - split; reflexivity.
  - rewrite D. split; reflexivity.
  - rewrite D. split; reflexivity.
Qed.

(** X13.  Every wait of a run is issued because [deploy.wait] is set, on
    the run's own controller and model, and with a timeout that is never
    zero: the timeout of the options when there is one other than zero,
    7200 seconds when it is absent or zero. *)
Theorem wait_timeout_is_never_zero (W : World) (o : Options) (s : State) :
  exists r s' d,
    process W o s = (r, s') /\ ops s' = ops s ++ d /\
    Forall (fun x =>
              is_wait x = true ->
              deploy_wait o = true /\
              exists t,
                x = JujuWait ["-e"; _fmt_controller_model o; "-w"; "-r3"]
                             (Some t) /\
                t <> 0%Z /\
                (deploy_timeout o = Some t \/
                 (t = 7200%Z /\
                  (deploy_timeout o = None \/ deploy_timeout o = Some 0%Z))))
           d.
Proof.
  destruct (Py.truthy (bootstrap_run o)) eqn:B.
  - destruct (run_override W o s B) as (s' & E & O & _).
    eexists _, s', _. split; [exact E|]. split; [exact O|].
    constructor; [discriminate | constructor].
  - destruct (run_process W o s B) as (r & s' & d & c & (E & O & _) & P).
    exists r, s', d. split; [exact E|]. split; [exact O|].
    eapply Forall_impl; [|exact (phases_issued W o _ _ _ _ _ P)].
    intros x (p & _ & I) Wx.
    assert (Pw : p = PWait).
    { destruct p; try reflexivity;
        assert (N : is_wait x = false)
          by (eapply issued_outside_wait; [|exact I]; discriminate);
        now rewrite N in Wx. }
    subst p. destruct I as (-> & Dw). split; [exact Dw|].
    unfold wait_op. destruct (deploy_timeout o) as [t|]; cbn [Py.truthy_int].
    + destruct (Z.eqb_spec t 0) as [-> | N]; cbn [negb].
      * exists 7200%Z. repeat split; [discriminate | auto].
      * exists t. repeat split; auto.
    + exists 7200%Z. repeat split; [discriminate | auto].
Qed.

(** ** The older package *)

Lemma except_1_sh_iter (W : World) (x : Op) (l : Level) (t : string)
    (f : string -> string -> Exn) (s : State) :
  Legacy.except_ErrorReturnCode_1 (sh_iter W x l t)
    (fun out err => raise (f out err)) s
  = (match exit (respond W (ops s) x) with
     | ExitOk => Ok tt
     | ExitError c out err =>
         if (c =? 1)%Z then Raise (f out err)
         else Raise (ErrorReturnCode c out err)
     end, snd (sh_iter W x l t s)).
Proof.
  unfold Legacy.except_ErrorReturnCode_1. rewrite sh_iter_eq.
  destruct (exit (respond W (ops s) x)) as [|c out err]; [reflexivity|].
  destruct c as [|[p|p|]|p]; reflexivity.
Qed.

(** X14.  [_bootstrap] of the older package catches the failure of the
    bootstrap command only when its exit status is 1: that one is
    reported as a [SpecProcessException] with the command's output, any
    other status escapes as the [ErrorReturnCode] of [sh].  Either way the
    bootstrap command is then the only one issued.  After a successful
    bootstrap the model is added unless that is disabled, and a failure to
    add it escapes as it is. *)
Theorem legacy_bootstrap_catches_only_exit_status_1
    (W : World) (o : Legacy.Options) (s : State) :
  let boot := Juju (Legacy.bootstrap_cmd_args o) in
  exists r s',
    Legacy._bootstrap W o s = (r, s') /\
    match exit (respond W (ops s) boot) with
    | ExitError c out err =>
        ops s' = ops s ++ [boot] /\
        r = if (c =? 1)%Z
            then Raise (SpecProcessException "Unable to bootstrap:\n {}" [out])
            else Raise (ErrorReturnCode c out err)
    | ExitOk =>
        if Legacy.bootstrap_disable_add_model o
        then ops s' = ops s ++ [boot] /\ r = Ok tt
        else ops s' = ops s ++ [boot; Legacy.add_model_op o] /\
             r = result_of_exit
                   (exit (respond W (ops s ++ [boot]) (Legacy.add_model_op o)))
    end.
Proof.
  cbn zeta. unfold Legacy._bootstrap.
  unfold bind at 1. cbn [enter].
  unfold bind at 1. rewrite except_1_sh_iter, sh_iter_eq.
  cbn [ops calls logs files n_tmp n_uuid snd].
  destruct (exit (respond W (ops s) (Juju (Legacy.bootstrap_cmd_args o))))
    as [|c out err].
  - destruct (Legacy.bootstrap_disable_add_model o); cbn [negb when].
    + eexists _, _. split; [reflexivity|]. split; reflexivity.
    + unfold bind, log. rewrite sh_call_eq.
      cbn [ops calls logs files n_tmp n_uuid].
      eexists _, _. split; [reflexivity|]. cbn [ops].
      rewrite <- app_assoc. split; reflexivity.
  - destruct (c =? 1)%Z; eexists _, _; (split; [reflexivity|]);
      split; reflexivity.
Qed.

(** X15.  [_deploy] of the older package passes the overlay and the charm
    channel only for a bundle pulled from the charmstore.  A bundle whose
    name does not start with [cs:] is deployed by the bare command
    [juju deploy -m <controller>:<model> <bundle>], whatever overlay and
    channels the options hold; with no bundle at all [AttributeError] is
    raised before any command.  The pull of a charmstore bundle names the
    bundle and, only when a bundle channel is set, the channel and the
    local path.  A failure of the pull or of the deploy command escapes as
    the [ErrorReturnCode] of [sh]. *)
Theorem legacy_deploy_flags_only_for_charmstore_bundle
    (W : World) (o : Legacy.Options) (s : State) :
  exists r s' d,
    Legacy._deploy W o s = (r, s') /\ ops s' = ops s ++ d /\
    match Legacy.deploy_bundle o with
    | None => r = Raise AttributeError /\ d = []
    | Some bundle =>
        if Py.startswith "cs:" bundle
        then
            let path :=
              (gettempdir W ++ "/" ++
               Py.pop (Py.split "-" (uuid4 W (n_uuid s))))%string in
            let pull :=
              CharmPull (bundle ::
                         if Py.truthy (Legacy.deploy_bundle_channel o)
                         then ["--channel";
                               Py.str (Legacy.deploy_bundle_channel o); path]
                         else []) in
            let dep :=
              Juju (["deploy"; "-m"; Legacy._fmt_controller_model o;
                     (path ++ "/bundle.yaml")%string]
                    ++ (if Py.truthy (Legacy.deploy_overlay o)
                        then ["--overlay"; Py.str (Legacy.deploy_overlay o)]
                        else [])
                    ++ (if Py.truthy (Legacy.deploy_charm_channel o)
                        then ["--channel";
                              Py.str (Legacy.deploy_charm_channel o)]
                        else [])) in
            match exit (respond W (ops s) pull) with
            | ExitOk =>
                d = [pull; dep] /\
                r = result_of_exit (exit (respond W (ops s ++ [pull]) dep))
            | ExitError c out err =>
                d = [pull] /\ r = Raise (ErrorReturnCode c out err)
            end
        else
          let dep := Juju ["deploy"; "-m"; Legacy._fmt_controller_model o;
                           bundle] in
          d = [dep] /\ r = result_of_exit (exit (respond W (ops s) dep))
    end.
Proof.
  unfold Legacy._deploy. unfold bind at 1. cbn [enter].
  destruct (Legacy.deploy_bundle o) as [bundle|].
  - destruct (Py.startswith "cs:" bundle).
    + unfold bind at 1. cbn [uuid4_str].
      unfold bind at 1. rewrite sh_call_eq.
      cbn [ops calls logs files n_tmp n_uuid].
      match goal with
      | |- context [CharmPull ([bundle] ++ ?a)] => set (pargs := a)
      end.
      change ([bundle] ++ pargs) with (bundle :: pargs).
      cbn zeta. fold pargs.
      destruct (exit (respond W (ops s) (CharmPull (bundle :: pargs))))
        as [|c out err] eqn:X; cbn [result_of_exit].
      * rewrite sh_iter_eq. cbn [ops calls logs files n_tmp n_uuid].
        eexists _, _, _. split; [reflexivity|]. cbn [ops].
        split; [rewrite <- app_assoc; reflexivity|].
        split; reflexivity.
      * eexists _, _, _. split; [reflexivity|]. cbn [ops].
        split; [reflexivity|]. split; reflexivity.
    + rewrite sh_iter_eq. cbn [ops calls logs files n_tmp n_uuid].
      eexists _, _, _. split; [reflexivity|]. cbn [ops].
      split; [reflexivity|]. split; reflexivity.
  - cbn [raise]. eexists _, _, []. split; [reflexivity|]. cbn [ops].
    rewrite app_nil_r. repeat split.
Qed.

(** ** A malformed configuration entry *)

Section Malformed.

Variable W : World.
Variable o : Options.

Lemma config_ok_entries h cs d :
  config_outcome W o h cs (Ok tt) d -> forall c, In c cs -> spaces c = 1.
Proof.
  intros H. remember (Ok tt) as r eqn:R.
  induction H as [h | h c cs N | h c cs a b x out err S X
                 | h c cs a b r d S X H IH]; try discriminate R.
  - intros c [].
  - intros c' [<- | I]; [|now apply IH].
    pose proof (split_length c) as L. rewrite S in L. cbn in L. lia.
Qed.

Lemma config_value_error h cs d :
  config_outcome W o h cs (Raise ValueError) d ->
  length d < length cs /\ Forall (fun x => is_config_set x = true) d.
Proof.
  intros H. remember (Raise ValueError) as r eqn:R.
  induction H as [h | h c cs N | h c cs a b x out err S X
                 | h c cs a b r d S X H IH]; try discriminate R.
  - cbn. split; [lia | constructor].
  - destruct (IH R) as (L & F). cbn [length]. split; [lia|].
    constructor; [reflexivity | exact F].
Qed.

Lemma phases_ok_entries h ps d c :
  phases W o h ps (Ok tt) d c -> In PConfigure ps ->
  forall e, In e (config o) -> spaces e = 1.
Proof.
  intros H. remember (Ok tt) as r eqn:R.
  induction H as [h | h p ps d c r d' c' Q P IH | h p ps e d c Q];
    [intros [] | | discriminate].
  intros [-> | I]; [|now apply IH].
  destruct Q as (_ & Q). exact (config_ok_entries _ _ _ Q).
Qed.

Lemma phase_value_error h p d c :
  phase_outcome W o h p (Raise ValueError) d c -> p = PConfigure.
Proof.
  destruct p; cbn [phase_outcome]; [| | | reflexivity | |].
  - intros (_ & d2 & _ & H). inversion H as [| | X D R].
    apply add_model_result_raise in R as (_ & t & vs & R). discriminate.
  - intros (_ & _ & R). symmetry in R.
    apply add_model_result_raise in R as (_ & t & vs & R). discriminate.
  - intros (_ & H). inversion H.
  - intros (_ & _ & R). destruct (deploy_wait o); [|discriminate].
    unfold wait_result in R.
    destruct (timed_out W h (wait_op o)); [discriminate|].
    destruct (exit (respond W h (wait_op o))); discriminate.
  - intros (_ & _ & R). discriminate.
Qed.

Lemma phases_value_error h ps d c :
  phases W o h ps (Raise ValueError) d c -> In PConfigure ps.
Proof.
  intros H. remember (Raise ValueError) as r eqn:R.
  induction H as [h | h p ps d c r d' c' Q P IH | h p ps e d c Q];
    [discriminate | right; auto |].
  left. injection R as ->. exact (phase_value_error h p d c Q).
Qed.

Lemma phases_without_wait h ps r d c :
  ~ In PWait ps -> phases W o h ps r d c ->
  Forall (fun x => is_wait x = false) d.
Proof.
  intros N P. eapply Forall_impl; [|exact (phases_issued W o _ _ _ _ _ P)].
  intros x (p & I & Ix). eapply issued_outside_wait; [|exact Ix].
  intros ->. contradiction.
Qed.

Lemma plan_up_to_configure :
  deploy o = true ->
  exists before after,
    plan o = (before ++ [PDeploy]) ++ [PConfigure] ++ after /\
    ~ In PWait (before ++ [PDeploy]) /\
    ~ In PConfigure (before ++ [PDeploy]).
Proof.
  intros D. unfold plan. rewrite D.
  exists ((if negb (deploy_reuse o) && bootstrap o then [PBootstrap] else [])
          ++ (if bootstrap_disable_add_model o then [PAddModel] else [])),
         (PWait :: if teardown o then [PTeardown] else []).
  split; [now rewrite <- !app_assoc|].
  destruct (negb (deploy_reuse o) && bootstrap o)%bool,
    (bootstrap_disable_add_model o); cbn; intuition discriminate.
Qed.

End Malformed.

(** ** Configuration, in order *)








(** That run, evaluated: deploy, two [juju config], and the exception of
    the second; no wait and no teardown follow. *)
Example second_config_fails_run :
  teardown Examples.two_assignments = true /\
  deploy_wait Examples.two_assignments = true /\
  process Examples.second_config_fails Examples.two_assignments initial =
    (Raise (ErrorReturnCode 1 "" "ERROR unknown option"),
     mkState
       [Shell "juju deploy -m c1:m1 bundles/k8s.yaml --channel edge";
        Juju ["config"; "-m"; "c1:m1"; "app1"; "x=true"];
        Juju ["config"; "-m"; "c1:m1"; "app2"; "y=false"]]
       [M_process; M_deploy]
       [mkLog INFO "Deploying: juju deploy {}"
              ["-m c1:m1 bundles/k8s.yaml --channel edge"];
        mkLog INFO "Setting {}" ["app1 x=true"];
        mkLog INFO "Setting {}" ["app2 y=false"]]
       [] 0 0).
Proof. vm_compute. repeat split. Qed.

Lemma config_before_malformed (W : World) (o : Options) good bad rest :
  Forall (fun c => spaces c = 1) good -> spaces bad <> 1 ->
  forall h d,
    config_outcome W o h (good ++ bad :: rest) (Raise ValueError) d ->
    Forall2 (fun c x => exists a b,
                 Py.split " " c = [a; b] /\ x = config_op o a b) good d /\
    succeeded_in_turn W h d.
Proof.
  intros G B. induction G as [|g good Sg G IH]; intros h d H; cbn [app] in H.
  - inversion H as [| ? ? ? N | | ? ? ? a b ? ? S X H']; subst.
    + split; [constructor | exact I].
    + exfalso. apply B. pose proof (split_length bad) as L.
      rewrite S in L. cbn [length] in L. now injection L as <-.
  - inversion H as [| ? ? ? N | | ? ? ? a b ? d' S X H']; subst.
    + exfalso. destruct (split_in_two g) as [(_ & a & b & S & _) | (N' & _)];
        [now destruct (N a b) | contradiction].
    + destruct (IH _ _ H') as (F & Su). split.
      * constructor; [eauto | exact F].
      * cbn. split; [right; now apply succeeded_no_wait | exact Su].
Qed.

(** X16.  A config entry that is not an application, one space and a
    setting is found only when its turn comes.  Let [bad] be the first
    such entry of [config], after the well-formed entries [good].  With
    [deploy] set (and no run override) the run never returns normally and
    never issues the wait.  When it ends with [ValueError], the deployment
    has been made by then -- the deploy command was issued and succeeded
    -- and the commands after it are exactly the [juju config] of the
    entries of [good], one each and in their order, all of which
    succeeded.  It ends otherwise only because the last command issued
    failed, or for want of a deploy target. *)
Theorem malformed_config_entry_is_found_after_deploying
    (W : World) (o : Options) (s : State)
    (good : list string) (bad : string) (rest : list string) :
  Py.truthy (bootstrap_run o) = false ->
  deploy o = true ->
  config o = good ++ bad :: rest ->
  Forall (fun c => spaces c = 1) good ->
  spaces bad <> 1 ->
  exists r s' d,
    process W o s = (r, s') /\ ops s' = ops s ++ d /\
    r <> Ok tt /\
    Forall (fun x => is_wait x = false) d /\
    (r = Raise ValueError ->
     exists d0 args applied,
       d = d0 ++ Shell (deploy_cmdline args) :: applied /\
       exit (respond W (ops s ++ d0) (Shell (deploy_cmdline args))) = ExitOk /\
       Forall2 (fun c x => exists a b,
                    Py.split " " c = [a; b] /\ x = config_op o a b)
               good applied /\
       succeeded_in_turn W (ops s ++ d0 ++ [Shell (deploy_cmdline args)])
                         applied /\
       Forall (fun x => is_config_set x = true) applied /\
       length applied < length (config o)) /\
    (forall e, r = Raise e -> e <> ValueError ->
       (exists d0 x, d = d0 ++ [x] /\ raised_by W o (ops s ++ d0) x e) \/
       (e = TypeError /\
        Py.truthy (deploy_charm o) = false /\ deploy_bundle o = None)).
Proof.
  intros B D Cf Good Nbad.
  assert (Ibad : In bad (config o)).
  { rewrite Cf. apply in_or_app. right. now left. }
  destruct (run_process W o s B) as (r & s' & d & c & (E & O & _) & P).
  exists r, s', d. split; [exact E|]. split; [exact O|].
  assert (Last : forall e, r = Raise e -> e <> ValueError ->
            (exists d0 x, d = d0 ++ [x] /\ raised_by W o (ops s ++ d0) x e) \/
            (e = TypeError /\
             Py.truthy (deploy_charm o) = false /\ deploy_bundle o = None)).
  { intros e -> N.
    destruct (process_verdict W o s) as (r1 & s1 & d1 & E1 & O1 & _ & St).
    rewrite E in E1. injection E1 as <- <-.
    rewrite O in O1. apply app_inv_head in O1 as <-.
    destruct (St e eq_refl)
      as [(d0 & x & -> & _ & R) | (_ & [(-> & T) | (-> & _)])];
      [left; eauto | now right | now destruct N]. }
  destruct (plan_up_to_configure o D) as (before & after & Pl & Nw & Nc).
  rewrite Pl in P.
  apply phases_app in P
    as [(d1 & c1 & d2 & c2 & -> & -> & P1 & P2) | (e & -> & P1)].
  - apply phases_app in P2
      as [(d3 & c3 & d4 & c4 & -> & -> & P3 & P4) | (e & -> & P3)].
    + exfalso. apply Nbad.
      apply (phases_ok_entries W o _ _ _ _ P3); [now left | exact Ibad].
    + inversion P3 as [| ? ? ? d3 c3 ? d4 c4 Q Q' | ? ? ? e' ? ? Q]; subst.
      * exfalso. apply Nbad. destruct Q as (_ & Q).
        exact (config_ok_entries W o _ _ _ Q _ Ibad).
      * destruct Q as (_ & Q). split; [discriminate|]. split; [|split].
        -- apply Forall_app. split.
           ++ exact (phases_without_wait W o _ _ _ _ _ Nw P1).
           ++ apply config_outcome_length in Q as (_ & _ & F).
              eapply Forall_impl; [|exact F]. now intros x (a & b & ->).
        -- intros [= ->]. pose proof Q as Q0.
           apply config_value_error in Q0 as (L & F).
           rewrite Cf in Q.
           apply (config_before_malformed W o good bad rest Good Nbad) in Q
             as (F2 & Su).
           apply phases_app in P1
             as [(d5 & c5 & d6 & c6 & -> & _ & P5 & P6) | (e & X & _)];
             [|discriminate].
           inversion P6 as [| ? ? ? d7 c7 ? d8 c8 Q6 Q7 |]; subst.
           apply phases_nil in Q7 as (_ & -> & _).
           destruct Q6 as (_ & Q6).
           inversion Q6 as [| | pre args Pp X |]; subst.
           exists (d5 ++ pre), args, d2.
           rewrite <- app_assoc in X.
           rewrite app_nil_r in Su.
           repeat split; auto.
           ++ rewrite app_nil_r, <- !app_assoc. reflexivity.
           ++ now rewrite <- !app_assoc.
        -- exact Last.
  - split; [discriminate|]. split; [|split].
    + exact (phases_without_wait W o _ _ _ _ _ Nw P1).
    + intros [= ->]. now apply phases_value_error in P1.
    + exact Last.
Qed.

(** ** What the older package never issues *)

Lemma emits_nothing {A} (P : Op -> Prop) (m : M A) :
  (forall s, ops (snd (m s)) = ops s) -> emits P m.
Proof.
  intros H s. destruct (m s) as (r, s') eqn:E.
  exists r, s', []. split; [reflexivity|]. split; [|constructor].
  specialize (H s). rewrite E in H. cbn in H. now rewrite app_nil_r.
Qed.

Lemma emits_bind {A B} (P : Op -> Prop) (m : M A) (k : A -> M B) :
  emits P m -> (forall a, emits P (k a)) -> emits P (bind m k).
Proof.
  intros Hm Hk s. destruct (Hm s) as (r & s1 & d1 & E1 & O1 & F1).
  unfold bind. rewrite E1. destruct r as [a|e].
  - destruct (Hk a s1) as (r2 & s2 & d2 & E2 & O2 & F2).
    exists r2, s2, (d1 ++ d2). split; [exact E2|].
    split; [now rewrite O2, O1, app_assoc | now apply Forall_app].
  - exists (Raise e), s1, d1. auto.
Qed.

Lemma emits_when (P : Op -> Prop) (b : bool) (m : M unit) :
  emits P m -> emits P (when b m).
Proof.
  destruct b; cbn [when]; [auto|]. intros _. now apply emits_nothing.
Qed.

Lemma emits_for_each {A} (P : Op -> Prop) (f : A -> M unit) (l : list A) :
  (forall x, emits P (f x)) -> emits P (for_each l f).
Proof.
  intros H. induction l as [|x l IH]; cbn [for_each].
  - now apply emits_nothing.
  - apply emits_bind; auto.
Qed.

Lemma emits_sh_iter (P : Op -> Prop) (W : World) (x : Op) (l : Level)
    (t : string) :
  P x -> emits P (sh_iter W x l t).
Proof.
  intros H s. rewrite sh_iter_eq. eexists _, _, [x].
  split; [reflexivity|]. split; [reflexivity | now repeat constructor].
Qed.

Lemma emits_sh_call (P : Op -> Prop) (W : World) (x : Op) :
  P x -> emits P (sh_call W x).
Proof.
  intros H s. rewrite sh_call_eq. eexists _, _, [x].
  split; [reflexivity|]. split; [reflexivity | now repeat constructor].
Qed.

Lemma emits_except_1 (P : Op -> Prop) (m : M unit)
    (f : string -> string -> Exn) :
  emits P m ->
  emits P (Legacy.except_ErrorReturnCode_1 m (fun out err => raise (f out err))).
Proof.
  intros H s. destruct (H s) as (r & s' & d & E & O & F).
  unfold Legacy.except_ErrorReturnCode_1. rewrite E.
  destruct r as [[]|[| | [|[p|p|]|p] out err | | | | |]];
    eexists _, s', d; (split; [reflexivity|]); auto.
Qed.

Lemma legacy_process_emits (W : World) (o : Legacy.Options) :
  emits (legacy_issued o) (Legacy.process W o).
Proof.
  unfold Legacy.process.
  apply emits_bind; [now apply emits_nothing|]. intros _.
  apply emits_bind; [|intros _].
  - apply emits_when. unfold Legacy._bootstrap.
    apply emits_bind; [now apply emits_nothing|]. intros _.
    apply emits_bind; [|intros _].
    + apply emits_except_1, emits_sh_iter. now left.
    + destruct (Legacy.bootstrap_disable_add_model o) eqn:D; cbn [negb when].
      * now apply emits_nothing.
      * apply emits_bind; [now apply emits_nothing|]. intros _.
        apply emits_sh_call. right; left. auto.
  - apply emits_when.
    assert (Wt : emits (legacy_issued o) (Legacy._wait W o)).
    { unfold Legacy._wait.
      apply emits_bind; [now apply emits_nothing|]. intros _.
      destruct (Legacy.deploy_wait o) eqn:D; cbn [when].
      - apply emits_bind; [now apply emits_nothing|]. intros _.
        apply emits_sh_iter. do 4 right. left. auto.
      - now apply emits_nothing. }
    apply emits_bind; [|intros _].
    + unfold Legacy._deploy.
      apply emits_bind; [now apply emits_nothing|]. intros _.
      destruct (Legacy.deploy_bundle o) as [b|]; [|now apply emits_nothing].
      destruct (Py.startswith "cs:" b).
      * apply emits_bind; [now apply emits_nothing|]. intros u.
        apply emits_bind; [|intros _].
        -- apply emits_sh_call. do 2 right. left. eauto.
        -- apply emits_sh_iter. do 3 right. left. eauto.
      * apply emits_sh_iter. do 3 right. left. eauto.
    + apply emits_bind; [exact Wt|]. intros _.
      apply emits_bind; [|intros _; exact Wt].
      apply emits_for_each. intros c. unfold Legacy.config_set_one.
      destruct (Py.split " " c) as [|a [|b [|x l]]];
        try now apply emits_nothing.
      apply emits_bind; [now apply emits_nothing|]. intros _.
      apply emits_sh_call. do 5 right. eauto.
Qed.

(** X17.  The older package never tears a controller down, and once
    adding the model is disabled for the bootstrap it never adds the
    model: its deploy step has no add-model of its own, unlike the one of
    [ogc_plugins_juju.py].  Every wait it issues is there because
    [deploy.wait] is set. *)
Theorem legacy_never_tears_down_nor_adds_a_disabled_model
    (W : World) (o : Legacy.Options) (s : State) :
  exists r s' d,
    Legacy.process W o s = (r, s') /\ ops s' = ops s ++ d /\
    Forall (fun x => is_teardown x = false) d /\
    (Legacy.bootstrap_disable_add_model o = true ->
     Forall (fun x => is_add_model x = false) d) /\
    (Legacy.deploy_wait o = false -> Forall (fun x => is_wait x = false) d).
Proof.
  destruct (legacy_process_emits W o s) as (r & s' & d & E & O & F).
  exists r, s', d. split; [exact E|]. split; [exact O|].
  split; [|split].
  - eapply Forall_impl; [|exact F].
    intros x [-> | [(-> & _) | [(a & ->) | [(a & ->) | [(-> & _) | (a & b & ->)]]]]];
      reflexivity.
  - intros D. eapply Forall_impl; [|exact F].
    intros x [-> | [(-> & N) | [(a & ->) | [(a & ->) | [(-> & _) | (a & b & ->)]]]]];
      try reflexivity. now rewrite D in N.
  - intros D. eapply Forall_impl; [|exact F].
    intros x [-> | [(-> & _) | [(a & ->) | [(a & ->) | [(-> & N) | (a & b & ->)]]]]];
      try reflexivity. now rewrite D in N.
Qed.

(** ** The theorems above at concrete runs *)

Lemma returned_run_issued_what_the_options_ask_witness :
  Py.truthy (bootstrap_run Examples.two_assignments) = false /\
  exists r s' d,
    process Examples.calm Examples.two_assignments initial = (r, s') /\
    ops s' = ops initial ++ d /\
    (r = Ok tt ->
     let boot := (negb (deploy_reuse Examples.two_assignments) &&
                  bootstrap Examples.two_assignments)%bool in
     count is_bootstrap d = (if boot then 1 else 0) /\
     count is_add_model d
       = (if boot && negb (bootstrap_disable_add_model Examples.two_assignments)
             || deploy Examples.two_assignments &&
                bootstrap_disable_add_model Examples.two_assignments
          then 1 else 0)%bool /\
     count is_deploy d = (if deploy Examples.two_assignments then 1 else 0) /\
     count is_config_set d
       = (if deploy Examples.two_assignments
          then length (config Examples.two_assignments) else 0) /\
     count is_wait d
       = (if deploy Examples.two_assignments &&
             deploy_wait Examples.two_assignments then 1 else 0)%bool /\
     count is_teardown d
       = (if boot && bootstrap_replace_controller Examples.two_assignments
          then 1 else 0)%bool
         + (if teardown Examples.two_assignments then 1 else 0)).
Proof.
  split; [reflexivity|].
  exact (returned_run_issued_what_the_options_ask
           Examples.calm Examples.two_assignments initial eq_refl).
Defined.

(** The run of that witness, evaluated: it returns, with one deploy, two
    configurations, one wait and the final teardown. *)
Example two_assignments_run :
  fst (process Examples.calm Examples.two_assignments initial) = Ok tt /\
  ops (snd (process Examples.calm Examples.two_assignments initial)) =
    [Shell "juju deploy -m c1:m1 bundles/k8s.yaml --channel edge";
     Juju ["config"; "-m"; "c1:m1"; "app1"; "x=true"];
     Juju ["config"; "-m"; "c1:m1"; "app2"; "y=false"];
     JujuWait ["-e"; "c1:m1"; "-w"; "-r3"] (Some 7200%Z);
     Juju ["destroy-controller"; "--destroy-all-models"; "--destroy-storage";
           "-y"; "c1"]].
Proof. vm_compute. repeat split. Qed.

Lemma final_teardown_only_when_run_returns_witness :
  Py.truthy (bootstrap_run Examples.two_assignments) = false /\
  exists r s' d,
    process Examples.second_config_fails Examples.two_assignments initial
      = (r, s') /\
    ops s' = ops initial ++ d /\
    (r = Ok tt -> teardown Examples.two_assignments = true ->
     exists d0, d = d0 ++ [teardown_op Examples.two_assignments]) /\
    (forall e, r = Raise e ->
       count is_teardown d
       = if negb (deploy_reuse Examples.two_assignments) &&
            bootstrap Examples.two_assignments &&
            bootstrap_replace_controller Examples.two_assignments
         then 1 else 0).
Proof.
  split; [reflexivity|].
  exact (final_teardown_only_when_run_returns
           Examples.second_config_fails Examples.two_assignments initial
           eq_refl).
Defined.

Lemma without_deploy_nothing_is_deployed_witness :
  Py.truthy (bootstrap_run Examples.bootstrap_only) = false /\
  deploy Examples.bootstrap_only = false /\
  exists r s' d,
    process Examples.calm Examples.bootstrap_only initial = (r, s') /\
    ops s' = ops initial ++ d /\
    Forall (fun x => is_pull x = false /\ is_deploy x = false /\
                     is_config_set x = false /\ is_wait x = false) d /\
    (bootstrap_disable_add_model Examples.bootstrap_only = true ->
     Forall (fun x => is_add_model x = false) d) /\
    (r = Ok tt \/ exists t vs, r = Raise (SpecProcessException t vs)).
Proof.
  split; [reflexivity|]. split; [reflexivity|].
  exact (without_deploy_nothing_is_deployed
           Examples.calm Examples.bootstrap_only initial eq_refl eq_refl).
Defined.

(** The run of that witness, evaluated: a bootstrap and the teardown, no
    model, and the malformed config entry goes unnoticed. *)
Example bootstrap_only_run :
  config Examples.bootstrap_only = ["app1"] /\
  fst (process Examples.calm Examples.bootstrap_only initial) = Ok tt /\
  ops (snd (process Examples.calm Examples.bootstrap_only initial)) =
    [Juju ["bootstrap"; "aws"; "c1"];
     Juju ["destroy-controller"; "--destroy-all-models"; "--destroy-storage";
           "-y"; "c1"]].
Proof. vm_compute. repeat split. Qed.

Lemma malformed_config_entry_is_found_after_deploying_witness :
  Py.truthy (bootstrap_run Examples.malformed_entry) = false /\
  deploy Examples.malformed_entry = true /\
  config Examples.malformed_entry = ["app1 x=true"] ++ "app2 y = false" :: [] /\
  Forall (fun c => spaces c = 1) ["app1 x=true"] /\
  spaces "app2 y = false" <> 1 /\
  exists r s' d,
    process Examples.calm Examples.malformed_entry initial = (r, s') /\
    ops s' = ops initial ++ d /\
    r <> Ok tt /\
    Forall (fun x => is_wait x = false) d /\
    (r = Raise ValueError ->
     exists d0 args applied,
       d = d0 ++ Shell (deploy_cmdline args) :: applied /\
       exit (respond Examples.calm (ops initial ++ d0)
               (Shell (deploy_cmdline args))) = ExitOk /\
       Forall2 (fun c x => exists a b,
                    Py.split " " c = [a; b] /\
                    x = config_op Examples.malformed_entry a b)
               ["app1 x=true"] applied /\
       succeeded_in_turn Examples.calm
         (ops initial ++ d0 ++ [Shell (deploy_cmdline args)]) applied /\
       Forall (fun x => is_config_set x = true) applied /\
       length applied < length (config Examples.malformed_entry)) /\
    (forall e, r = Raise e -> e <> ValueError ->
       (exists d0 x,
           d = d0 ++ [x] /\
           raised_by Examples.calm Examples.malformed_entry
                     (ops initial ++ d0) x e) \/
       (e = TypeError /\
        Py.truthy (deploy_charm Examples.malformed_entry) = false /\
        deploy_bundle Examples.malformed_entry = None)).
Proof.
  assert (G : Forall (fun c => spaces c = 1) ["app1 x=true"])
    by (repeat constructor).
  assert (N : spaces "app2 y = false" <> 1) by (cbn; discriminate).
  split; [reflexivity|]. split; [reflexivity|]. split; [reflexivity|].
  split; [exact G|]. split; [exact N|].
  exact (malformed_config_entry_is_found_after_deploying
           Examples.calm Examples.malformed_entry initial
           ["app1 x=true"] "app2 y = false" [] eq_refl eq_refl eq_refl G N).
Defined.

(** The run of that witness, evaluated: the bundle is deployed and the
    first entry applied before the second is found malformed; neither the
    wait nor the teardown follows. *)
Example malformed_entry_run :
  deploy_wait Examples.malformed_entry = true /\
  teardown Examples.malformed_entry = true /\
  fst (process Examples.calm Examples.malformed_entry initial)
    = Raise ValueError /\
  ops (snd (process Examples.calm Examples.malformed_entry initial)) =
    [Shell "juju deploy -m c1:m1 bundles/k8s.yaml --channel edge";
     Juju ["config"; "-m"; "c1:m1"; "app1"; "x=true"]].
Proof. vm_compute. repeat split. Qed.

(** The older package on a bootstrap that exits with status 2, and on a
    local bundle with an overlay, evaluated. *)
Example legacy_bootstrap_exits_2_run :
  fst (Legacy._bootstrap Examples.bootstrap_exits_2 Examples.legacy_bootstrap
         initial)
    = Raise (ErrorReturnCode 2 "ERROR cloud aws not found" "") /\
  fst (Legacy._bootstrap Examples.bootstrap_fails Examples.legacy_bootstrap
         initial)
    = Raise (SpecProcessException "Unable to bootstrap:\n {}"
               ["ERROR cloud aws not found"]) /\
  fst (_bootstrap Examples.bootstrap_exits_2 Examples.model_added_late initial)
    = Raise (SpecProcessException "Unable to bootstrap:\n {}"
               ["ERROR cloud aws not found"]).
Proof. vm_compute. repeat split. Qed.

Example legacy_local_with_overlay_run :
  ops (snd (Legacy._deploy Examples.calm Examples.legacy_local_with_overlay
              initial))
    = [Juju ["deploy"; "-m"; "c1:m1"; "bundles/k8s.yaml"]].
Proof. vm_compute. repeat split. Qed.
